(** * DeFiLens blog pipeline: a shallow embedding of [main.py]

    The development follows the layout of the script.  Python [str] values
    are modelled as [string] (one [ascii] per code point below 256), the
    [re] module as a small backtracking matcher over an explicit syntax
    tree, and the calls that leave the process (NewsAPI, the generative
    text and image services, the blog host, the random source, the font
    metrics) as scripted answers threaded through a state-and-exception
    monad that also records the trace of what was called. *)

From Stdlib Require Import String Ascii List Bool Arith ZArith QArith Lia.
From Stdlib Require Import Qround Qabs Qpower DecimalString.
Import ListNotations.

Local Open Scope string_scope.
Local Open Scope list_scope.
Local Open Scope nat_scope.

Set Implicit Arguments.

(** ** Python string methods *)

Module Py.

Definition ord (c : ascii) : nat := nat_of_ascii c.

Definition between (lo hi n : nat) : bool := (lo <=? n) && (n <=? hi).

(** [str.isspace] on one character (code points below 256). *)
Definition isspace (c : ascii) : bool :=
  let n := ord c in
  between 9 13 n || between 28 32 n || (n =? 133) || (n =? 160).

Definition isdecimal (c : ascii) : bool := between 48 57 (ord c).

Definition isupper_ascii (c : ascii) : bool := between 65 90 (ord c).
Definition islower_ascii (c : ascii) : bool := between 97 122 (ord c).

(** [str.isalnum] on one character (code points below 256): letters,
    decimal digits, and the Latin-1 letters and numeric signs. *)
Definition isalnum (c : ascii) : bool :=
  let n := ord c in
  isdecimal c || isupper_ascii c || islower_ascii c
  || (n =? 170) || (n =? 178) || (n =? 179) || (n =? 181) || (n =? 185)
  || (n =? 186) || between 188 190 n
  || between 192 214 n || between 216 246 n || between 248 255 n.

(** [str.lower] on one character. *)
Definition lower_char (c : ascii) : ascii :=
  let n := ord c in
  if between 65 90 n || between 192 214 n || between 216 222 n
  then ascii_of_nat (n + 32) else c.

(** The simple upper-case partner used by case-insensitive matching. *)
Definition upper_char (c : ascii) : ascii :=
  let n := ord c in
  if between 97 122 n || between 224 246 n || between 248 254 n
  then ascii_of_nat (n - 32) else c.

Definition chars (s : string) : list ascii := list_ascii_of_string s.
Definition str (l : list ascii) : string := string_of_list_ascii l.

Definition lower (s : string) : string := str (map lower_char (chars s)).
Definition upper (s : string) : string := str (map upper_char (chars s)).

Fixpoint lstrip_chars (l : list ascii) : list ascii :=
  match l with
  | c :: tl => if isspace c then lstrip_chars tl else l
  | [] => []
  end.

Definition rstrip_chars (l : list ascii) : list ascii :=
  rev (lstrip_chars (rev l)).

Definition strip_chars (l : list ascii) : list ascii :=
  rstrip_chars (lstrip_chars l).

(** [s.strip()] *)
Definition strip (s : string) : string := str (strip_chars (chars s)).

(** [s[:n]] for a non-negative [n]. *)
Definition take (n : nat) (s : string) : string := str (firstn n (chars s)).

(** [s[n:]] for a non-negative [n]. *)
Definition drop (n : nat) (s : string) : string := str (skipn n (chars s)).

Definition len (s : string) : nat := String.length s.

(** [sep.join(parts)] *)
Fixpoint join (sep : string) (parts : list string) : string :=
  match parts with
  | [] => ""
  | [p] => p
  | p :: tl => (p ++ sep ++ join sep tl)%string
  end.

(** [s.split(c)] for a one-character separator: the pieces between the
    separators, empty pieces included. *)
Fixpoint split_chars (sep : ascii) (l : list ascii) (cur : list ascii)
  : list (list ascii) :=
  match l with
  | [] => [rev cur]
  | c :: tl =>
      if Ascii.eqb c sep then rev cur :: split_chars sep tl []
      else split_chars sep tl (c :: cur)
  end.

Definition split (sep : ascii) (s : string) : list string :=
  map str (split_chars sep (chars s) []).

(** [s.split()]: the maximal runs of non-whitespace characters. *)
Fixpoint words_chars (l : list ascii) (cur : list ascii) : list (list ascii) :=
  match l with
  | [] => match cur with [] => [] | _ => [rev cur] end
  | c :: tl =>
      if isspace c
      then match cur with
           | [] => words_chars tl []
           | _ => rev cur :: words_chars tl []
           end
      else words_chars tl (c :: cur)
  end.

Definition split_ws (s : string) : list string :=
  map str (words_chars (chars s) []).

Fixpoint prefix_chars (p l : list ascii) : option (list ascii) :=
  match p, l with
  | [], _ => Some l
  | a :: p', b :: l' => if Ascii.eqb a b then prefix_chars p' l' else None
  | _ :: _, [] => None
  end.

(** [s.replace(old, new)] for a non-empty [old]. *)
Fixpoint replace_chars (fuel : nat) (old new l : list ascii) : list ascii :=
  match fuel with
  | 0 => l
  | S f =>
      match prefix_chars old l with
      | Some rest => new ++ replace_chars f old new rest
      | None =>
          match l with
          | [] => []
          | c :: tl => c :: replace_chars f old new tl
          end
      end
  end.

Definition replace (old new s : string) : string :=
  str (replace_chars (S (len s)) (chars old) (chars new) (chars s)).

Definition startswith (p s : string) : bool :=
  match prefix_chars (chars p) (chars s) with Some _ => true | None => false end.

(** [needle in s] *)
Fixpoint contains_chars (needle l : list ascii) : bool :=
  match prefix_chars needle l with
  | Some _ => true
  | None => match l with [] => false | _ :: tl => contains_chars needle tl end
  end.

Definition contains (needle s : string) : bool :=
  contains_chars (chars needle) (chars s).

(** Truthiness of a string: [if s:] *)
Definition truthy (s : string) : bool := negb (s =? "")%string.

Definition nl : ascii := "010"%char.
Definition cr : ascii := "013"%char.
Definition NL : string := String nl "".
Definition CR : string := String cr "".
Definition DQ : string := String (ascii_of_nat 34) "".

(** [os.path.basename] on POSIX: what follows the last slash. *)
Definition basename (p : string) : string :=
  last (split "/"%char p) "".

End Py.

(** ** The subset of [re] the script uses *)

Module Re.

Record flags := Flags { icase : bool; dotall : bool; multiline : bool }.

Definition F0 : flags := Flags false false false.
Definition IGNORECASE (f : flags) : flags := Flags true (dotall f) (multiline f).
Definition DOTALL (f : flags) : flags := Flags (icase f) true (multiline f).
Definition MULTILINE (f : flags) : flags := Flags (icase f) (dotall f) true.

(** Members of a bracketed class. *)
Inductive citem :=
| Chr (c : ascii)            (* a literal character *)
| Rng (lo hi : ascii)        (* a-z *)
| SpaceC                     (* \s *)
| DigitC                     (* \d *)
| WordC.                     (* \w *)

Inductive regex :=
| Eps
| Lit (c : ascii)
| Dot
| Cls (neg : bool) (items : list citem)
| Cat (a b : regex)
| Or (a b : regex)
| Star (greedy : bool) (a : regex)
| Grp (i : nat) (a : regex)
| Bol
| Eol
| Ahead (a : regex).

(** Derived forms. *)
Definition Plus (greedy : bool) (a : regex) : regex := Cat a (Star greedy a).
Definition Opt (a : regex) : regex := Or a Eps.
Definition s_ : regex := Cls false [SpaceC].      (* \s *)
Definition S_ : regex := Cls true [SpaceC].       (* \S *)
Definition d_ : regex := Cls false [DigitC].      (* \d *)
Definition w_ : regex := Cls false [WordC].       (* \w *)

Fixpoint lit_chars (l : list ascii) : regex :=
  match l with
  | [] => Eps
  | [c] => Lit c
  | c :: tl => Cat (Lit c) (lit_chars tl)
  end.

(** A run of literal characters ([re.escape] of a plain string). *)
Definition Str (s : string) : regex := lit_chars (Py.chars s).

Fixpoint Seq (l : list regex) : regex :=
  match l with
  | [] => Eps
  | [r] => r
  | r :: tl => Cat r (Seq tl)
  end.

Fixpoint alt (l : list regex) : regex :=
  match l with
  | [] => Eps
  | [r] => r
  | r :: tl => Or r (alt tl)
  end.

Definition item_has (it : citem) (c : ascii) : bool :=
  match it with
  | Chr x => Ascii.eqb x c
  | Rng lo hi => Py.between (Py.ord lo) (Py.ord hi) (Py.ord c)
  | SpaceC => Py.isspace c
  | DigitC => Py.isdecimal c
  | WordC => Py.isalnum c || Ascii.eqb c "_"%char
  end.

Definition items_have (items : list citem) (c : ascii) : bool :=
  existsb (fun it => item_has it c) items.

Definition cls_has (fl : flags) (neg : bool) (items : list citem) (c : ascii) : bool :=
  let hit :=
    if icase fl
    then items_have items c || items_have items (Py.lower_char c)
         || items_have items (Py.upper_char c)
    else items_have items c in
  if neg then negb hit else hit.

Definition lit_has (fl : flags) (p c : ascii) : bool :=
  if icase fl then Ascii.eqb (Py.lower_char p) (Py.lower_char c)
  else Ascii.eqb p c.

(** The matcher's position: how many characters are behind it, the last
    of them, what is ahead, and the groups captured so far (latest
    first). *)
Record mstate := MState {
  pos : nat;
  prev : option ascii;
  rest : list ascii;
  caps : list (nat * list ascii)
}.

Definition start (l : list ascii) : mstate := MState 0 None l [].

Definition step (c : ascii) (tl : list ascii) (st : mstate) : mstate :=
  MState (S (pos st)) (Some c) tl (caps st).

Definition one (ok : ascii -> bool) (k : mstate -> option mstate) (st : mstate)
  : option mstate :=
  match rest st with
  | c :: tl => if ok c then k (step c tl st) else None
  | [] => None
  end.

Definition at_bol (fl : flags) (st : mstate) : bool :=
  match prev st with
  | None => true
  | Some c => multiline fl && Ascii.eqb c Py.nl
  end.

Definition at_eol (fl : flags) (st : mstate) : bool :=
  match rest st with
  | [] => true
  | c :: tl =>
      Ascii.eqb c Py.nl && (multiline fl || match tl with [] => true | _ => false end)
  end.

(** The loop of a starred item: [ma] matches the item once.  An
    iteration that consumes nothing is not repeated; [n] bounds the
    number of iterations by the characters that are left. *)
Fixpoint star_loop (ma : (mstate -> option mstate) -> mstate -> option mstate)
  (greedy : bool) (k : mstate -> option mstate) (n : nat) (st : mstate)
  {struct n} : option mstate :=
  let more (_ : unit) :=
    match n with
    | 0 => None
    | S n' =>
        ma (fun st' =>
              if pos st' =? pos st then None else star_loop ma greedy k n' st') st
    end in
  if greedy
  then match more tt with Some r => Some r | None => k st end
  else match k st with Some r => Some r | None => more tt end.

(** Backtracking match of [r] at [st], then the continuation [k]; the
    first alternative that lets [k] succeed wins, as in [sre]. *)
Fixpoint m (fl : flags) (r : regex) (k : mstate -> option mstate) (st : mstate)
  {struct r} : option mstate :=
  match r with
  | Eps => k st
  | Lit p => one (lit_has fl p) k st
  | Dot => one (fun c => dotall fl || negb (Ascii.eqb c Py.nl)) k st
  | Cls neg items => one (cls_has fl neg items) k st
  | Cat a b => m fl a (m fl b k) st
  | Or a b =>
      match m fl a k st with
      | Some r => Some r
      | None => m fl b k st
      end
  | Star greedy a => star_loop (m fl a) greedy k (S (length (rest st))) st
  | Grp i a =>
      m fl a (fun st' =>
                k (MState (pos st') (prev st') (rest st')
                     ((i, firstn (pos st' - pos st) (rest st)) :: caps st'))) st
  | Bol => if at_bol fl st then k st else None
  | Eol => if at_eol fl st then k st else None
  | Ahead a =>
      match m fl a Some st with
      | Some _ => k st
      | None => None
      end
  end.

(** A match object: the whole match and the groups. *)
Record mobj := MObj { whole : string; groups : list (nat * list ascii) }.

Fixpoint lookup_group (i : nat) (g : list (nat * list ascii)) : option (list ascii) :=
  match g with
  | [] => None
  | (j, t) :: tl => if i =? j then Some t else lookup_group i tl
  end.

(** [match.group(i)] for [i >= 1]; a group that took no part reads as
    the empty string here. *)
Definition group (i : nat) (mo : mobj) : string :=
  match lookup_group i (groups mo) with
  | Some t => Py.str t
  | None => ""
  end.

Definition try_at (fl : flags) (r : regex) (st : mstate) : option mstate :=
  m fl r Some (MState (pos st) (prev st) (rest st) []).

Definition mk_obj (st st' : mstate) : mobj :=
  MObj (Py.str (firstn (pos st' - pos st) (rest st))) (caps st').

(** [pattern.match(s)]: a match at the very start only. *)
Definition match_ (fl : flags) (r : regex) (s : string) : option mobj :=
  let st := start (Py.chars s) in
  option_map (mk_obj st) (try_at fl r st).

Fixpoint search_from (fl : flags) (r : regex) (fuel : nat) (st : mstate) : option mobj :=
  match try_at fl r st with
  | Some st' => Some (mk_obj st st')
  | None =>
      match fuel, rest st with
      | S f, c :: tl => search_from fl r f (step c tl st)
      | _, _ => None
      end
  end.

(** [re.search(r, s, flags)]: the leftmost match. *)
Definition search (fl : flags) (r : regex) (s : string) : option mobj :=
  search_from fl r (String.length s) (start (Py.chars s)).

(** The non-overlapping matches from left to right, with the text
    between them: [inl c] is a character no match covers, [inr mo] a
    match.  None of the patterns of the script matches the empty string;
    an empty match is recorded and the scan moves one character on. *)
Fixpoint scan (fl : flags) (r : regex) (fuel : nat) (st : mstate)
  : list (ascii + mobj) :=
  match fuel with
  | 0 => []
  | S f =>
      match try_at fl r st with
      | Some st' =>
          if pos st' =? pos st
          then inr (mk_obj st st') ::
               match rest st with
               | [] => []
               | c :: tl => inl c :: scan fl r f (step c tl st)
               end
          else inr (mk_obj st st') :: scan fl r f st'
      | None =>
          match rest st with
          | [] => []
          | c :: tl => inl c :: scan fl r f (step c tl st)
          end
      end
  end.

Definition pieces (fl : flags) (r : regex) (s : string) : list (ascii + mobj) :=
  scan fl r (S (String.length s)) (start (Py.chars s)).

Fixpoint render (repl : mobj -> string) (l : list (ascii + mobj)) : string :=
  match l with
  | [] => ""
  | inl c :: tl => String c (render repl tl)
  | inr mo :: tl => (repl mo ++ render repl tl)%string
  end.

(** [re.sub(r, repl, s, flags)] with a function for [repl]. *)
Definition sub_fn (fl : flags) (r : regex) (repl : mobj -> string) (s : string) : string :=
  render repl (pieces fl r s).

(** A replacement template: literal text and group references. *)
Inductive titem := T (s : string) | G (i : nat).

Fixpoint expand (t : list titem) (mo : mobj) : string :=
  match t with
  | [] => ""
  | T s :: tl => (s ++ expand tl mo)%string
  | G i :: tl => (group i mo ++ expand tl mo)%string
  end.

(** [re.sub(r, template, s, flags)] *)
Definition sub (fl : flags) (r : regex) (t : list titem) (s : string) : string :=
  sub_fn fl r (expand t) s.

Fixpoint matches_of (l : list (ascii + mobj)) : list mobj :=
  match l with
  | [] => []
  | inl _ :: tl => matches_of tl
  | inr mo :: tl => mo :: matches_of tl
  end.

(** [re.findall] for a pattern with exactly one group: the group's text
    of every match. *)
Definition findall1 (fl : flags) (r : regex) (s : string) : list string :=
  map (group 1) (matches_of (pieces fl r s)).

(** [re.findall] for a pattern without groups: the matches. *)
Definition findall0 (fl : flags) (r : regex) (s : string) : list string :=
  map whole (matches_of (pieces fl r s)).

End Re.

(** ** Text clean-up and the Markdown renderer *)

Import Re.

(** [placeholder_domains] of [clean_ai_artifacts] *)
Definition placeholder_domains : list string :=
  [ "example.com"; "example.org"; "placeholder.com"; "yoursite.com";
    "website.com"; "domain.com"; "site.com"; "yourblogname.com";
    "ai-generated.com"; "yourcryptoblog.com"; "example.org" ].

(** [\[[^\]]*\]\(https?://(?:www\.)?{re.escape(domain)}[^\)]*\)] *)
Definition placeholder_link_re (domain : string) : regex :=
  Seq [ Lit "["; Star true (Cls true [Chr "]"]); Lit "]"; Lit "(";
        Str "http"; Opt (Lit "s"); Str "://"; Opt (Str "www.");
        Str domain; Star true (Cls true [Chr ")"]); Lit ")" ].

(** [https?://(?:www\.)?{re.escape(domain)}\S*] *)
Definition placeholder_url_re (domain : string) : regex :=
  Seq [ Str "http"; Opt (Lit "s"); Str "://"; Opt (Str "www.");
        Str domain; Star true S_ ].

(** [(?i)<phrase>.*?(?=\n|$)] *)
Definition ai_phrase_re (phrase : string) : regex :=
  Seq [ Str phrase; Star false Dot; Ahead (Or (Lit Py.nl) Eol) ].

(** [ai_patterns] of [clean_ai_artifacts], each with the flags it is
    compiled under ([re.DOTALL] from the call, [(?i)] from the pattern). *)
Definition ai_patterns : list (flags * regex) :=
  [ (IGNORECASE (DOTALL F0), ai_phrase_re "note:");
    (IGNORECASE (DOTALL F0), ai_phrase_re "important:");
    (IGNORECASE (DOTALL F0), ai_phrase_re "remember to");
    (IGNORECASE (DOTALL F0), ai_phrase_re "please");
    (IGNORECASE (DOTALL F0), ai_phrase_re "you should");
    (DOTALL F0, Seq [ Str "<!--"; Star false Dot; Str "-->" ]);
    (DOTALL F0, Seq [ Str "/*"; Star false Dot; Str "*/" ]) ].

(** [\[.*?\]] *)
Definition bracketed_re : regex := Seq [ Lit "["; Star false Dot; Lit "]" ].

(** [\s*@\S+] *)
Definition at_word_re : regex := Seq [ Star true s_; Lit "@"; Plus true S_ ].

(** [\n\s*\n\s*\n+] *)
Definition blank_lines_re : regex :=
  Seq [ Lit Py.nl; Star true s_; Lit Py.nl; Star true s_; Plus true (Lit Py.nl) ].

Definition clean_ai_artifacts (content : string) : string :=
  let content := sub F0 bracketed_re [] content in
  let content := sub F0 at_word_re [] content in
  let content :=
    fold_left
      (fun content domain =>
         let content := sub (IGNORECASE F0) (placeholder_link_re domain) [] content in
         sub (IGNORECASE F0) (placeholder_url_re domain) [] content)
      placeholder_domains content in
  let content :=
    fold_left (fun content p => sub (fst p) (snd p) [] content) ai_patterns content in
  let content := sub F0 blank_lines_re [T (Py.NL ++ Py.NL)] content in
  let content := Py.join Py.NL (map Py.strip (Py.split Py.nl content)) in
  let content := Py.replace Py.CR Py.NL (Py.replace (Py.CR ++ Py.NL) Py.NL content) in
  Py.strip content.

(** The heading patterns: the hashes, [\s*], then group 1 [.*] to the
    end of the line. *)
Definition heading_re (hashes : string) : regex :=
  Seq [ Str hashes; Star true s_; Grp 1 (Star true Dot) ].

(** [\*\*\*(.*?)\*\*\*], [\*\*(.*?)\*\*], [_(.*?)_], [\*(.*?)\*] *)
Definition emph_re (mark : string) : regex :=
  Seq [ Str mark; Grp 1 (Star false Dot); Str mark ].

(** The list item pattern: [^\s*], group 1 [[-*]|\d+\.], [\s+], group 2
    [.*], [$]. *)
Definition list_item_re : regex :=
  Seq [ Bol; Star true s_;
        Grp 1 (Or (Cls false [Chr "-"; Chr "*"]) (Cat (Plus true d_) (Lit ".")));
        Plus true s_; Grp 2 (Star true Dot); Eol ].

(** One or more repetitions of group 1 = [<li>.*?</li>\s*]. *)
Definition list_run_re : regex :=
  Plus true (Grp 1 (Seq [ Str "<li>"; Star false Dot; Str "</li>"; Star true s_ ])).

(** [<li>\s*\d+\.] *)
Definition ordered_item_re : regex :=
  Seq [ Str "<li>"; Star true s_; Plus true d_; Lit "." ].

(** [!\[(.*?)\]\((.*?)\)] *)
Definition image_re : regex :=
  Seq [ Lit "!"; Lit "["; Grp 1 (Star false Dot); Lit "]"; Lit "(";
        Grp 2 (Star false Dot); Lit ")" ].

(** [\[(.*?)\]\((.*?)\)] *)
Definition link_re : regex :=
  Seq [ Lit "["; Grp 1 (Star false Dot); Lit "]"; Lit "(";
        Grp 2 (Star false Dot); Lit ")" ].

(** [^\s*<(h\d|ul|ol|li|img|a|div|p|blockquote|pre|table|script|style|br)] *)
Definition block_tags_re : regex :=
  Seq [ Bol; Star true s_; Lit "<";
        Grp 1 (alt [ Cat (Lit "h") d_; Str "ul"; Str "ol"; Str "li"; Str "img";
                     Str "a"; Str "div"; Str "p"; Str "blockquote"; Str "pre";
                     Str "table"; Str "script"; Str "style"; Str "br" ]) ].

(** [<p>\s*</p>] *)
Definition empty_p_re : regex := Seq [ Str "<p>"; Star true s_; Str "</p>" ].

(** [<p><br\s*/?></p>] *)
Definition br_p_re : regex :=
  Seq [ Str "<p><br"; Star true s_; Opt (Lit "/"); Str "></p>" ].

(** [<h1>(.*?)</h1>] *)
Definition h1_re : regex := Seq [ Str "<h1>"; Grp 1 (Star false Dot); Str "</h1>" ].

(** An optional string inside an f-string: [None] prints as "None". *)
Definition fmt_opt (o : option string) : string :=
  match o with Some s => s | None => "None" end.

Definition wrap_lists (mo : mobj) : string :=
  let list_items_html := whole mo in
  match search F0 ordered_item_re list_items_html with
  | Some _ => "<ol>" ++ list_items_html ++ "</ol>"
  | None => "<ul>" ++ list_items_html ++ "</ul>"
  end.

Definition image_replacer
  (main_featured_image_filepath main_featured_image_b64_data_uri : option string)
  (mo : mobj) : string :=
  let alt_text := group 1 mo in
  let src_url := group 2 mo in
  let featured :=
    match main_featured_image_filepath with
    | Some fp => Py.truthy fp && (Py.basename src_url =? Py.basename fp)%string
    | None => false
    end in
  if featured
  then "<img src=" ++ Py.DQ ++ fmt_opt main_featured_image_b64_data_uri ++ Py.DQ
       ++ " alt=" ++ Py.DQ ++ alt_text ++ Py.DQ
       ++ " class=" ++ Py.DQ ++ "in-content-image" ++ Py.DQ ++ ">"
  else
    let escaped_alt_text := Py.replace Py.DQ Py.DQ alt_text in
    "<img src=" ++ Py.DQ ++ src_url ++ Py.DQ
    ++ " alt=" ++ Py.DQ ++ escaped_alt_text ++ Py.DQ
    ++ " class=" ++ Py.DQ ++ "in-content-image" ++ Py.DQ ++ ">".

(** The replacement template of the link pass:
    [<a href="\2" target="_blank" rel="noopener noreferrer">\1</a>] *)
Definition link_template : list titem :=
  [ T ("<a href=" ++ Py.DQ); G 2;
    T (Py.DQ ++ " target=" ++ Py.DQ ++ "_blank" ++ Py.DQ
       ++ " rel=" ++ Py.DQ ++ "noopener noreferrer" ++ Py.DQ ++ ">");
    G 1; T "</a>" ].

(** Closing the paragraph being collected, if any. *)
Definition flush_paragraph (parsed_lines current_paragraph_lines : list string)
  : list string :=
  match current_paragraph_lines with
  | [] => parsed_lines
  | _ =>
      let para_content := Py.strip (Py.join " " current_paragraph_lines) in
      if Py.truthy para_content
      then parsed_lines ++ [("<p>" ++ para_content ++ "</p>")%string]
      else parsed_lines
  end.

(** The loop over the lines of the rendered text: [parsed_lines] and
    [current_paragraph_lines] are the two lists the loop appends to. *)
Fixpoint paragraphs (lines parsed_lines current_paragraph_lines : list string)
  : list string :=
  match lines with
  | [] => flush_paragraph parsed_lines current_paragraph_lines
  | line :: tl =>
      let stripped_line := Py.strip line in
      if negb (Py.truthy stripped_line)
      then paragraphs tl (flush_paragraph parsed_lines current_paragraph_lines ++ [""]) []
      else
        match match_ (IGNORECASE F0) block_tags_re stripped_line with
        | Some _ =>
            paragraphs tl (flush_paragraph parsed_lines current_paragraph_lines ++ [line]) []
        | None => paragraphs tl parsed_lines (current_paragraph_lines ++ [line])
        end
  end.

Definition markdown_to_html
  (markdown_text : string)
  (main_featured_image_filepath main_featured_image_b64_data_uri : option string)
  : string :=
  let html_text := markdown_text in
  let html_text := clean_ai_artifacts html_text in
  let html_text := sub F0 (heading_re "###") [T "<h3>"; G 1; T "</h3>"] html_text in
  let html_text := sub F0 (heading_re "##") [T "<h2>"; G 1; T "</h2>"] html_text in
  let html_text := sub F0 (heading_re "#") [T "<h1>"; G 1; T "</h1>"] html_text in
  let html_text :=
    sub F0 (emph_re "***") [T "<strong><em>"; G 1; T "</em></strong>"] html_text in
  let html_text := sub F0 (emph_re "**") [T "<strong>"; G 1; T "</strong>"] html_text in
  let html_text := sub F0 (emph_re "_") [T "<em>"; G 1; T "</em>"] html_text in
  let html_text := sub F0 (emph_re "*") [T "<em>"; G 1; T "</em>"] html_text in
  let html_text := sub (MULTILINE F0) list_item_re [T "<li>"; G 2; T "</li>"] html_text in
  let html_text := sub_fn (DOTALL F0) list_run_re wrap_lists html_text in
  let html_text :=
    sub_fn F0 image_re
      (image_replacer main_featured_image_filepath main_featured_image_b64_data_uri)
      html_text in
  let html_text := sub F0 link_re link_template html_text in
  let lines := Py.split Py.nl html_text in
  let parsed_lines := paragraphs lines [] [] in
  let final_html_content := Py.join Py.NL parsed_lines in
  let final_html_content := sub F0 empty_p_re [] final_html_content in
  let final_html_content := sub F0 br_p_re [] final_html_content in
  let final_html_content :=
    sub F0 h1_re [T "<h2>"; G 1; T "</h2>"] final_html_content in
  final_html_content.

(** ** File names *)

(** A Python [str] that may hold any code point: the input of
    [sanitize_filename] before it is reduced to ASCII. *)
Definition ustr := list N.

Definition ustr_of_string (s : string) : ustr := map N_of_ascii (Py.chars s).

(** [.encode('ascii', 'ignore').decode('ascii')]: the code points below
    128 are kept, the others are dropped. *)
Definition encode_ascii_ignore (u : ustr) : string :=
  Py.str (map ascii_of_N (filter (fun n => (n <? 128)%N) u)).

(** [[_ -]+] *)
Definition separators_re : regex :=
  Plus true (Cls false [Chr "_"; Chr " "; Chr "-"]).

Definition safe_char (c : ascii) : ascii :=
  if Py.isalnum c || Ascii.eqb c " " || Ascii.eqb c "-" || Ascii.eqb c "_"
  then c else "_"%char.

(** [normalize] stands for [unicodedata.normalize('NFKD', _)], a table of
    the Unicode database. *)
Definition sanitize_filename (normalize : ustr -> ustr) (filename : ustr) : string :=
  let filename := encode_ascii_ignore (normalize filename) in
  let safe_title := Py.strip (Py.str (map safe_char (Py.chars filename))) in
  let safe_title := Py.lower (sub F0 separators_re [T "_"] safe_title) in
  Py.take 100 safe_title.


(** ** Configuration *)

Definition BLOG_CATEGORY : string := "crypto".
Definition NUM_BLOGS_TO_CREATE : nat := 3.
Definition LLM_MAX_RETRIES : nat := 5.
Definition LLM_INITIAL_RETRY_DELAY_SECONDS : nat := 5.

(** ** JSON values *)

(** What [json.loads] returns.  A number keeps its literal, also the
    constants [NaN], [Infinity] and [-Infinity] that [json.loads] accepts;
    [JNull] is Python's [None]. *)
#[warnings="-register-all"]
Inductive json :=
| JNull
| JBool (b : bool)
| JNum (literal : string)
| JStr (s : string)
| JArr (items : list json)
| JObj (members : list (string * json)).

(** [isinstance(v, dict)] *)
Definition is_dict (v : json) : bool :=
  match v with JObj _ => true | _ => false end.

(** [d.get(key)] on the members of an object; of two members with one
    key the later one counts, as in the dict [json.loads] builds. *)
Definition json_get (key : string) (members : list (string * json)) : option json :=
  fold_left (fun found m => if (fst m =? key)%string then Some (snd m) else found)
    members None.

(** Whether [v[:70]] evaluates: strings and lists take a slice; a
    number, a boolean, [None] or a dict raises ([TypeError], or for a dict
    [KeyError] in the interpreters that hash slices). *)
Definition sliceable (v : json) : bool :=
  match v with JStr _ | JArr _ => true | _ => false end.

(** ** Exceptions *)

(** The exception classes the handlers of the script tell apart.
    [RequestsJSONDecodeError] is the class [requests] raises from
    [resp.json()]: a [RequestException] and a [json.JSONDecodeError] at
    once.  [JSONDecodeError] is a [ValueError]; [RequestException] is an
    [IOError]. *)
Inductive exn :=
| InternalServerError
| ResourceExhausted
| DeadlineExceeded
| RequestException
| RequestsJSONDecodeError
| ValueError
| JSONDecodeError
| IOError
| HttpError
| OtherException (name : string).

Definition is_RequestException (e : exn) : bool :=
  match e with RequestException | RequestsJSONDecodeError => true | _ => false end.

Definition is_JSONDecodeError (e : exn) : bool :=
  match e with JSONDecodeError | RequestsJSONDecodeError => true | _ => false end.

Definition is_ValueError (e : exn) : bool :=
  match e with
  | ValueError | JSONDecodeError | RequestsJSONDecodeError => true
  | _ => false
  end.

Definition is_IOError (e : exn) : bool :=
  match e with
  | IOError | RequestException | RequestsJSONDecodeError => true
  | _ => false
  end.

Inductive result (A : Type) :=
| Ok (a : A)
| Raise (e : exn).
Arguments Ok {A} a.
Arguments Raise {A} e.

(** ** Articles and their aggregation *)

(** One key of an article record as NewsAPI delivers it: absent, JSON
    [null], or a string. *)
Inductive field := Missing | Null | Text (s : string).

(** [article.get(key, default)]: a string, or [None] for JSON [null]. *)
Definition get (f : field) (default : string) : option string :=
  match f with
  | Missing => Some default
  | Null => None
  | Text s => Some s
  end.

(** Truthiness of a value that is a string or [None]. *)
Definition truthy_opt (o : option string) : bool :=
  match o with Some s => Py.truthy s | None => false end.

(** The keys of an article the script reads.  [source] is the value under
    that key when the key is there; NewsAPI sends an object with an id and
    a name. *)
Record article := Article {
  title : field;
  description : field;
  content : field;
  url : field;
  urlToImage : field;
  source : option json
}.

Record consolidated := Consolidated {
  consolidated_topic : string;
  combined_content : string;
  combined_description : string;
  image_url : option string;
  competitors : list string;
  primary_source_url : option string
}.

(** The variables the aggregation loop updates. *)
Record agg_state := AggState {
  acc_content : list string;
  acc_descriptions : list string;
  acc_titles : list string;
  acc_image_url : option string;
  acc_domains : list string;
  acc_primary : option string
}.

Definition removed_marker : string := "[Removed]".

(** [competitor_domains.add(d)].  The set is kept as a list without
    repetitions; the order in which Python lists a set is not specified
    and nothing below relies on it. *)
Definition set_add (d : string) (s : list string) : list string :=
  if existsb (String.eqb d) s then s else s ++ [d].

Definition source_domain_of (source_url : option string) : string :=
  match source_url with
  | Some u =>
      if Py.truthy u
      then hd "" (Py.split "/" (Py.replace "http://" "" (Py.replace "https://" "" u)))
      else ""
  | None => ""
  end.

(** [article.get('source', {}).get('name', '')], a name nothing uses: a
    value under [source] that is not an object has no [get]. *)
Definition source_name (a : article) : result json :=
  match source a with
  | None => Ok (JStr "")
  | Some (JObj members) =>
      Ok (match json_get "name" members with Some v => v | None => JStr "" end)
  | Some _ => Raise (OtherException "AttributeError")
  end.

(** What the body of the loop of [aggregate_articles] does to its
    variables for one article, once the reads at its head are made. *)
Definition aggregate_update (st : agg_state) (a : article) : agg_state :=
  let title := get (title a) "" in
  let description := get (description a) "" in
  let content := get (content a) "" in
  let source_url := get (url a) "" in
  let article_image := get (urlToImage a) "" in
  let source_domain := source_domain_of source_url in
  let titles :=
    match title with
    | Some t => if Py.truthy t && negb (t =? removed_marker)%string
                then acc_titles st ++ [t] else acc_titles st
    | None => acc_titles st
    end in
  let descriptions :=
    match description with
    | Some d => if Py.truthy d && negb (d =? removed_marker)%string
                then acc_descriptions st ++ [d] else acc_descriptions st
    | None => acc_descriptions st
    end in
  let c1 :=
    match title with
    | Some t => if Py.truthy t
                then acc_content st ++ [("### Source: " ++ t ++ Py.NL ++ Py.NL)%string]
                else acc_content st
    | None => acc_content st
    end in
  let c2 :=
    match description with
    | Some d => if Py.truthy d then c1 ++ [(d ++ Py.NL)%string] else c1
    | None => c1
    end in
  let c3 :=
    match content with
    | Some c =>
        if Py.truthy c && negb (Py.strip c =? removed_marker)%string
           && (50 <? Py.len (Py.strip c))
        then c2 ++ [(c ++ Py.NL)%string] else c2
    | None => c2
    end in
  let take_image := negb (truthy_opt (acc_image_url st)) && truthy_opt article_image in
  AggState c3 descriptions titles
    (if take_image then article_image else acc_image_url st)
    (if Py.truthy source_domain then set_add source_domain (acc_domains st)
     else acc_domains st)
    (if take_image then source_url else acc_primary st).

Definition content_separator : string := Py.NL ++ Py.NL ++ "---" ++ Py.NL ++ Py.NL.

Definition no_content_placeholder : string :=
  "No substantial content found from sources. AI will generate based on topic.".

Definition default_description (category : string) : string :=
  "A deep dive into recent developments in " ++ category ++ ".".

(** The body of the loop for one article: the reads, then the updates. *)
Definition aggregate_step (st : agg_state) (a : article) : result agg_state :=
  match source_name a with
  | Ok _ => Ok (aggregate_update st a)
  | Raise e => Raise e
  end.

(** [for i, article in enumerate(articles_list)] *)
Fixpoint aggregate_loop (articles_list : list article) (st : agg_state)
  : result agg_state :=
  match articles_list with
  | [] => Ok st
  | a :: tl =>
      match aggregate_step st a with
      | Ok st' => aggregate_loop tl st'
      | Raise e => Raise e
      end
  end.

(** What [aggregate_articles] returns once its loop has ended in the
    state [st]. *)
Definition consolidate (first : article) (category : string) (st : agg_state)
  : consolidated :=
  let primary_source_url_for_disclaimer :=
    if negb (truthy_opt (acc_primary st))
    then get (url first) "https://news.example.com/source-unavailable"
    else acc_primary st in
  let consolidated_topic :=
    match acc_titles st with
    | [] => "Recent Cryptocurrency News"
    | [t] => t
    | t :: _ :: _ =>
        let topic := ("Comprehensive Crypto: " ++ t ++ " and more...")%string in
        if 150 <? Py.len topic then (Py.take 150 topic ++ "...")%string else topic
    end in
  let consolidated_descriptions :=
    match acc_descriptions st with
    | [] => [default_description category]
    | ds => ds
    end in
  Consolidated
    consolidated_topic
    (match acc_content st with
     | [] => no_content_placeholder
     | cs => Py.join content_separator cs
     end)
    (Py.strip (Py.take 300 (Py.join " " consolidated_descriptions)))
    (acc_image_url st)
    (acc_domains st)
    primary_source_url_for_disclaimer.

(** [aggregate_articles]: [None] for no article, else the record; the
    [AttributeError] of a [source] that is not an object leaves the
    function. *)
Definition aggregate_articles (articles_list : list article) (category : string)
  : result (option consolidated) :=
  match articles_list with
  | [] => Ok None
  | first :: _ =>
      match aggregate_loop articles_list (AggState [] [] [] None [] None) with
      | Ok st => Ok (Some (consolidate first category st))
      | Raise e => Raise e
      end
  end.

(** ** Labels of a post *)

(** [title:\s*(.*?)\n.*?tags:\s*\[(.*?)\]] *)
Definition metadata_re : regex :=
  Seq [ Str "title:"; Star true s_; Grp 1 (Star false Dot); Lit Py.nl;
        Star false Dot; Str "tags:"; Star true s_; Lit "[";
        Grp 2 (Star false Dot); Lit "]" ].

(** [categories:\s*\[(.*?)\]] *)
Definition categories_re : regex :=
  Seq [ Str "categories:"; Star true s_; Lit "["; Grp 1 (Star false Dot); Lit "]" ].

(** [\w+] *)
Definition word_re : regex := Plus true w_.

(** [[x.strip() for x in s.split(',') if x.strip()]] *)
Definition split_labels (s : string) : list string :=
  map Py.strip (filter (fun x => Py.truthy (Py.strip x)) (Py.split "," s)).

(** [list(set(l))]: the distinct elements.  Python does not specify the
    order of the result and nothing below relies on it. *)
Definition list_set (l : list string) : list string := nodup string_dec l.

(** The title and the raw labels [post_to_blogger] reads from the saved
    HTML: the metadata block when the page has one, else the first
    heading. *)
Definition read_title_and_tags (full_html_content : string) : string * list string :=
  let flags_ := IGNORECASE (DOTALL F0) in
  match search flags_ metadata_re full_html_content with
  | Some metadata_match =>
      let post_title := Py.strip (group 1 metadata_match) in
      let tags_str := Py.strip (group 2 metadata_match) in
      let post_labels := split_labels tags_str in
      match search flags_ categories_re full_html_content with
      | Some categories_match =>
          let categories_str := Py.strip (group 1 categories_match) in
          (post_title, post_labels ++ split_labels categories_str)
      | None => (post_title, post_labels)
      end
  | None =>
      match search flags_ h1_re full_html_content with
      | Some h1_match => (Py.strip (group 1 h1_match), [])
      | None => ("Generated Crypto Blog Post", [])
      end
  end.

(** [list(set([label.strip().lower() for label in post_labels if label.strip()]))] *)
Definition clean_labels (post_labels : list string) : list string :=
  list_set (map (fun label => Py.lower (Py.strip label))
              (filter (fun label => Py.truthy (Py.strip label)) post_labels)).

(** [[word.lower() for word in re.findall(r'\w+', post_title) if len(word) > 3][:5]] *)
Definition default_labels (post_title : string) : list string :=
  firstn 5
    (map Py.lower
       (filter (fun word => 3 <? Py.len word) (findall0 F0 word_re post_title))).

(** The title and the labels [post_to_blogger] sends. *)
Definition post_title_and_labels (full_html_content : string) : string * list string :=
  let '(post_title, post_labels) := read_title_and_tags full_html_content in
  let post_labels := clean_labels post_labels in
  let post_labels :=
    match post_labels with
    | [] => post_labels ++ default_labels post_title
    | _ => post_labels
    end in
  let post_labels :=
    if existsb (String.eqb BLOG_CATEGORY) post_labels
    then post_labels else post_labels ++ [BLOG_CATEGORY] in
  (post_title, post_labels).

(** ** Effects: the outside world, the trace *)

Inductive model := RESEARCH_MODEL_ | CONTENT_MODEL_.

(** The variable parts of the four prompt templates.  The fixed wording
    around them plays no role below. *)
Inductive prompt :=
| TopicsPrompt (num_topics : nat) (text_to_analyze : string)
| FilterPrompt (topic : string) (titles : list (option string))
| ResearchPrompt (target_topic : string) (competitors : list string)
| ContentPrompt (topic : json) (description content category : string)
    (research_output : json) (transformed_image_filepath : option string).

(** A drawing step of the image compositor, in the order of drawing. *)
Inductive layer :=
| ContentPicture (w h : Z)
| StretchedStrip (y h : Z)
| GradientLine (x0 y x1 : Z) (alpha : Z)
| LogoOverlay (x y w h : Z)
| TextShadow (x y : Z) (line : string)
| TextMain (x y : Z) (line : string).

(** What the script does to the outside, in order. *)
Inductive event :=
| NewsApiGet (query : string) (page_size : nat)
| GeminiGenerate (m : model) (p : prompt)
| TogetherPost (prompt_text : string)
| ImageDownload (image_url : string)
| Sleep (seconds : Q)
| Composite (title_text : string) (layers : list layer)
| WriteImage (path : string)
| MarkdownToHtml (markdown : string)
| WriteHtml (path : string) (html : string)
| BloggerInsert (post_title : string) (post_labels : list string).

(** The answers of the outside.  Every request, draw of the random source
    and reading of the clock takes the next tick; the answer may depend
    on the tick and on what is asked. *)
Record World := {
  (* requests.get to NewsAPI, raise_for_status, resp.json(),
     data.get('articles', []) *)
  newsapi : nat -> result (list article);
  (* model.generate_content(prompt), then response.text *)
  generate_content : nat -> prompt -> result string;
  (* random.random() as the integer k of k / 2^53 *)
  random_bits : nat -> N;
  (* requests.post to the image service, raise_for_status, response.json():
     the url of the first item of 'data', or None when there is none *)
  together : nat -> result (option string);
  (* requests.get of the image url, raise_for_status, .content *)
  download : nat -> string -> result string;
  (* Image.open and the pixel work up to the 1200x675 picture *)
  decode_image : string -> result unit;
  (* the branding logo, when BRANDING_LOGO_PATH is set, the file exists and
     it loads and resizes: its width once scaled to the logo height *)
  branding_logo : option Z;
  (* font.getbbox(text) of the selected font as (left, top, right, bottom) *)
  getbbox : string -> Z * Z * Z * Z;
  (* int(time.time()) *)
  clock : nat -> Z;
  (* JPEG bytes of the finished picture and their Base64 text *)
  jpeg_bytes : list layer -> string;
  b64encode : string -> string;
  (* open(path, 'w').write(...) *)
  write_file : nat -> string -> result unit;
  (* blogger_service.posts().insert(...).execute() *)
  blogger : nat -> result unit;
  (* unicodedata.normalize('NFKD', _) *)
  normalize : ustr -> ustr;
  (* json.loads: None stands for JSONDecodeError *)
  json_loads : string -> option json;
  (* str(v) of a value that is not a string, as an f-string formats it *)
  str_of_value : json -> string;
  (* datetime.now().strftime('%Y-%m-%d') *)
  today : string;
  (* whether the expressions generate_content_agent evaluates on the
     research object before its request (keyword lists joined and sliced)
     evaluate without an exception *)
  content_inputs_ok : json -> bool;
  (* the metadata block generate_content_agent puts in front of a text that
     lacks one: a function of the topic, the description, the category, the
     research object and the image path *)
  metadata_block : json -> string -> string -> json -> option string -> string;
  (* generate_enhanced_html_template: the fixed page around the title, the
     description, the keywords, the image source, the rendered body, the
     category, the source url and the date *)
  html_template : string -> string -> string -> string -> string -> string
                  -> option string -> string -> string
}.

(** The module-level settings read from the environment.
    [validate_environment] fails when a key or the blog id is missing, so
    a run of the script passes the first check of [main] only with both
    keys and the blog id set.  The record keeps the outcome of the
    validation apart from the keys: what is proved for every
    configuration also covers the branches [main] has for a missing key
    (lines 1696-1697 and 1728-1744). *)
Record Config := {
  GEMINI_API_KEY : bool;        (* set and non-empty *)
  TOGETHER_API_KEY : bool;
  environment_valid : bool;     (* validate_environment() *)
  blog_id_configured : bool;    (* BLOGGER_BLOG_ID set and not the placeholder *)
  credentials : option bool     (* the OAuth credentials and their .valid *)
}.

(** [RESEARCH_MODEL] and [CONTENT_MODEL] exist exactly when the key is
    set. *)
Definition RESEARCH_MODEL (cfg : Config) : option model :=
  if GEMINI_API_KEY cfg then Some RESEARCH_MODEL_ else None.
Definition CONTENT_MODEL (cfg : Config) : option model :=
  if GEMINI_API_KEY cfg then Some CONTENT_MODEL_ else None.

(** A computation: it reads the world, advances the tick, appends to the
    trace, and returns or raises. *)
Definition M (A : Type) : Type := World -> nat -> result A * nat * list event.

Definition ret {A} (a : A) : M A := fun _ n => (Ok a, n, []).

Definition raise {A} (e : exn) : M A := fun _ n => (Raise e, n, []).

Definition bind {A B} (c : M A) (k : A -> M B) : M B :=
  fun w n =>
    match c w n with
    | (Ok a, n1, t1) =>
        match k a w n1 with
        | (r, n2, t2) => (r, n2, t1 ++ t2)
        end
    | (Raise e, n1, t1) => (Raise e, n1, t1)
    end.

(** [try: c  except <classes>: h e]: [h e = None] when no [except] clause
    takes [e], which then propagates. *)
Definition try_ {A} (c : M A) (h : exn -> option (M A)) : M A :=
  fun w n =>
    match c w n with
    | (Ok a, n1, t1) => (Ok a, n1, t1)
    | (Raise e, n1, t1) =>
        match h e with
        | Some k =>
            match k w n1 with
            | (r, n2, t2) => (r, n2, t1 ++ t2)
            end
        | None => (Raise e, n1, t1)
        end
    end.

Definition emit (e : event) : M unit := fun _ n => (Ok tt, n, [e]).

(** Asking the world: the event is recorded, the tick advances. *)
Definition ask {A} (e : event) (f : World -> nat -> result A) : M A :=
  fun w n => (f w n, S n, [e]).

(** Asking without a trace (the random source, the clock). *)
Definition ask_quiet {A} (f : World -> nat -> A) : M A :=
  fun w n => (Ok (f w n), S n, []).

(** Reading a fixed part of the world. *)
Definition reading {A} (f : World -> A) : M A := fun w n => (Ok (f w), n, []).

Declare Scope m_scope.
Delimit Scope m_scope with m.
Notation "x <- c ;; k" := (bind c (fun x => k))
  (at level 61, c at next level, right associativity) : m_scope.
Notation "c ;; k" := (bind c (fun _ => k))
  (at level 61, right associativity) : m_scope.
Local Open Scope m_scope.

(** A computation without effects: a value, or an exception. *)
Definition lift {A} (r : result A) : M A := fun _ n => (r, n, []).

Definition trace_of {A} (x : result A * nat * list event) : list event := snd x.
Definition value_of {A} (x : result A * nat * list event) : result A := fst (fst x).

(** ** Floats

    A Python [float] is an IEEE 754 binary64 number: 53 bits of
    significand, results rounded to the nearest float, ties to the even
    significand.  A finite float is held as the rational it denotes. *)

(** The integer nearest to [q], ties to the even one. *)
Definition round_half_even (q : Q) : Z :=
  let f := Qfloor q in
  match (q - inject_Z f ?= 1 # 2)%Q with
  | Lt => f
  | Eq => if Z.even f then f else (f + 1)%Z
  | Gt => (f + 1)%Z
  end.

(** [floor (log2 q)] for a positive [q]. *)
Definition ilog2 (q : Q) : Z :=
  if Qle_bool 1 q then Z.log2 (Qfloor q)
  else (- Z.log2_up (Qceiling (/ q)))%Z.

(** The exponent of the last bit of the significand of the float nearest
    to [q]; -1074 is the exponent of the subnormal floats. *)
Definition binary64_exponent (q : Q) : Z :=
  Z.max (ilog2 (Qabs q) - 52) (-1074).

(** [q] rounded to 53 bits.  This is the float nearest to [q] when that
    float is finite. *)
Definition nearest_finite (q : Q) : Q :=
  if Qeq_bool q 0 then 0%Q
  else
    let e := binary64_exponent q in
    (inject_Z (round_half_even (q / 2 ^ e)) * 2 ^ e)%Q.

(** A float that is not a NaN. *)
Inductive float :=
| Finite (q : Q)
| Infinity (negative : bool).

(** The float nearest to [q]: from 2^1024 on the rounded value is an
    infinity. *)
Definition binary64 (q : Q) : float :=
  let r := nearest_finite q in
  if Qle_bool (2 ^ 1024) (Qabs r) then Infinity (Qle_bool r 0) else Finite r.

(** [x < n] for a float [x] and an integer [n]; Python compares the exact
    values. *)
Definition float_lt_int (x : float) (n : Z) : bool :=
  match x with
  | Finite q => negb (Qle_bool (inject_Z n) q)
  | Infinity negative => negative
  end.

(** [n + x] for an integer [n] and a float [x]: [n] is converted to a
    float and the sum is rounded.  (An integer from 2^1024 on has no float
    and Python raises [OverflowError] there; the integers of the script
    are delays of at most 80 seconds.) *)
Definition int_plus_float (n : Z) (x : Q) : Q :=
  nearest_finite (nearest_finite (inject_Z n) + x).

(** [time.sleep(seconds)] *)
Definition sleep (seconds : Q) : M unit := emit (Sleep seconds).

(** [random.uniform(a, b)]: [a + (b - a) * random()], with [random()] a
    multiple of 2^-53 below 1.  The script draws between 0 and 2, where
    the product and the sum are exact in binary64. *)
Definition random_uniform (a b : Q) : M Q :=
  k <- ask_quiet random_bits ;;
  ret (a + (b - a) * (Z.of_N (k mod 2 ^ 53)%N # 2 ^ 53))%Q.

(** ** The retry wrapper of the text model *)

Definition retryable (e : exn) : bool :=
  match e with
  | InternalServerError | ResourceExhausted | DeadlineExceeded => true
  | _ => is_RequestException e || is_ValueError e
  end.

(** One pass of the body of the [for attempt in range(max_retries)] loop
    and the passes after it; [remaining] counts the passes left.  The
    function returns [None] when the loop ends without a [return]. *)
Fixpoint gemini_attempts (remaining attempt max_retries initial_delay : nat)
  (m : model) (p : prompt) : M (option string) :=
  match remaining with
  | 0 => ret None
  | S remaining' =>
      try_
        (text <- ask (GeminiGenerate m p) (fun w n => generate_content w n p) ;;
         if negb (Py.truthy text) || (Py.strip text =? "")%string
         then raise ValueError
         else ret (Some text))
        (fun e =>
           if retryable e
           then Some
                  (if attempt <? max_retries - 1
                   then
                     jitter <- random_uniform 0 2 ;;
                     sleep (int_plus_float (Z.of_nat (initial_delay * 2 ^ attempt)) jitter) ;;
                     gemini_attempts remaining' (S attempt) max_retries initial_delay m p
                   else raise e)
           else None)
  end.

Definition _gemini_generate_content_with_retry_ (m : model) (p : prompt)
  (max_retries initial_delay : nat) : M (option string) :=
  gemini_attempts max_retries 0 max_retries initial_delay m p.

(** The call with the default arguments, as every caller makes it. *)
Definition _gemini_generate_content_with_retry (m : model) (p : prompt)
  : M (option string) :=
  _gemini_generate_content_with_retry_ m p
    LLM_MAX_RETRIES LLM_INITIAL_RETRY_DELAY_SECONDS.

(** ** Fetching the articles *)

Definition NUM_SOURCE_ARTICLES_TO_FETCH : nat := 100.
Definition CRYPTO_QUERY_TERM : string := "cryptocurrency".

Fixpoint newsapi_attempts (remaining attempt max_retries : nat)
  (query : string) (max_articles_to_fetch : nat) : M (option (list article)) :=
  match remaining with
  | 0 => ret None
  | S remaining' =>
      try_
        (articles <- ask (NewsApiGet query max_articles_to_fetch)
                       (fun w n => newsapi w n) ;;
         match articles with
         | [] => ret (Some [])
         | _ => ret (Some articles)
         end)
        (fun e =>
           if is_RequestException e
           then Some
                  (if attempt <? max_retries - 1
                   then
                     sleep (inject_Z (2 ^ Z.of_nat attempt)) ;;
                     newsapi_attempts remaining' (S attempt) max_retries
                       query max_articles_to_fetch
                   else ret (Some []))
           else if is_JSONDecodeError e then Some (ret (Some []))
           else None)
  end.

(** [fetch_newsapi_articles(query, max_articles_to_fetch, max_retries)];
    [None] is what the function returns when the loop makes no pass. *)
Definition fetch_newsapi_articles_ (query : string)
  (max_articles_to_fetch max_retries : nat) : M (option (list article)) :=
  newsapi_attempts max_retries 0 max_retries query max_articles_to_fetch.

Definition fetch_newsapi_articles (query : string) (max_articles_to_fetch : nat)
  : M (option (list article)) :=
  fetch_newsapi_articles_ query max_articles_to_fetch 3.

(** ** The image request *)

Fixpoint together_attempts (remaining attempt max_retries initial_delay : nat)
  (formatted_prompt : string) : M (option string) :=
  match remaining with
  | 0 => ret None
  | S remaining' =>
      try_
        (found <- ask (TogetherPost formatted_prompt) (fun w n => together w n) ;;
         match found with
         | Some image_url =>
             bytes <- ask (ImageDownload image_url)
                        (fun w n => download w n image_url) ;;
             ret (Some bytes)
         | None => raise ValueError
         end)
        (fun e =>
           if is_RequestException e
           then Some
                  (if attempt <? max_retries - 1
                   then
                     jitter <- random_uniform 0 2 ;;
                     sleep (int_plus_float (Z.of_nat (initial_delay * 2 ^ attempt)) jitter) ;;
                     together_attempts remaining' (S attempt) max_retries
                       initial_delay formatted_prompt
                   else ret None)
           else Some (ret None))
  end.

(** [generate_image_from_hf(prompt_text, max_retries, initial_delay)]: the
    bytes of the picture, or [None]. *)
Definition generate_image_from_hf_ (cfg : Config) (prompt_text : string)
  (max_retries initial_delay : nat) : M (option string) :=
  if negb (TOGETHER_API_KEY cfg) then ret None
  else
    let formatted_prompt := (prompt_text ++ " --ar 16:9")%string in
    together_attempts max_retries 0 max_retries initial_delay formatted_prompt.

Definition generate_image_from_hf (cfg : Config) (prompt_text : string)
  : M (option string) :=
  generate_image_from_hf_ cfg prompt_text 3 5.

(** ** A reader of JSON text

    A reading of the JSON grammar, used where a concrete [json_loads] is
    needed.  Escapes above code point 255 are outside the strings of this
    model and make the reader fail; the constants [NaN], [Infinity] and
    [-Infinity] are not read either. *)

Module Json.

Definition is_ws (c : ascii) : bool :=
  Ascii.eqb c " " || Ascii.eqb c "009" || Ascii.eqb c "010" || Ascii.eqb c "013".

Fixpoint skip_ws (l : list ascii) : list ascii :=
  match l with
  | c :: tl => if is_ws c then skip_ws tl else l
  | [] => []
  end.

Definition hex_digit (c : ascii) : option nat :=
  let n := Py.ord c in
  if Py.between 48 57 n then Some (n - 48)
  else if Py.between 97 102 n then Some (n - 87)
  else if Py.between 65 70 n then Some (n - 55)
  else None.

Definition quote : ascii := ascii_of_nat 34.
Definition backslash : ascii := ascii_of_nat 92.

(** The characters of a string after its opening quote, up to the closing
    one. *)
Fixpoint string_body (l : list ascii) (acc : list ascii)
  : option (string * list ascii) :=
  match l with
  | [] => None
  | c :: tl =>
      if Ascii.eqb c quote then Some (Py.str (rev acc), tl)
      else if Ascii.eqb c backslash then
        match tl with
        | e :: tl' =>
            if Ascii.eqb e "u" then
              match tl' with
              | a :: b :: x :: y :: tl'' =>
                  match hex_digit a, hex_digit b, hex_digit x, hex_digit y with
                  | Some 0, Some 0, Some h, Some k =>
                      string_body tl'' (ascii_of_nat (16 * h + k) :: acc)
                  | _, _, _, _ => None
                  end
              | _ => None
              end
            else
              let plain (r : ascii) := string_body tl' (r :: acc) in
              if Ascii.eqb e quote then plain quote
              else if Ascii.eqb e backslash then plain backslash
              else if Ascii.eqb e "/" then plain "/"%char
              else if Ascii.eqb e "b" then plain "008"%char
              else if Ascii.eqb e "f" then plain "012"%char
              else if Ascii.eqb e "n" then plain "010"%char
              else if Ascii.eqb e "r" then plain "013"%char
              else if Ascii.eqb e "t" then plain "009"%char
              else None
        | [] => None
        end
      else if Py.ord c <? 32 then None
      else string_body tl (c :: acc)
  end.

(** A number: an optional minus, [0] or a digit from 1 to 9 followed by
    digits, an optional fraction [\.[0-9]+], an optional exponent
    [[eE][-+]?[0-9]+]. *)
Definition number_re : regex :=
  let digit := Cls false [Rng "0" "9"] in
  Seq [ Opt (Lit "-");
        Or (Lit "0") (Cat (Cls false [Rng "1" "9"]) (Star true digit));
        Opt (Cat (Lit ".") (Plus true digit));
        Opt (Seq [ Cls false [Chr "e"; Chr "E"];
                   Opt (Cls false [Chr "-"; Chr "+"]);
                   Plus true digit ]) ].

Definition number (l : list ascii) : option (string * list ascii) :=
  match try_at F0 number_re (start l) with
  | Some st => Some (Py.str (firstn (pos st) l), rest st)
  | None => None
  end.

Fixpoint value (fuel : nat) (l : list ascii) {struct fuel}
  : option (json * list ascii) :=
  match fuel with
  | 0 => None
  | S f =>
      match skip_ws l with
      | [] => None
      | c :: tl =>
          if Ascii.eqb c quote then
            match string_body tl [] with
            | Some (s, r) => Some (JStr s, r)
            | None => None
            end
          else if Ascii.eqb c "[" then
            match skip_ws tl with
            | "]"%char :: r => Some (JArr [], r)
            | _ =>
                (fix items (n : nat) (l : list ascii) (acc : list json) {struct n}
                   : option (json * list ascii) :=
                   match n with
                   | 0 => None
                   | S n' =>
                       match value f l with
                       | Some (v, r) =>
                           match skip_ws r with
                           | ","%char :: r' => items n' r' (v :: acc)
                           | "]"%char :: r' => Some (JArr (rev (v :: acc)), r')
                           | _ => None
                           end
                       | None => None
                       end
                   end) (S (length tl)) tl []
            end
          else if Ascii.eqb c "{" then
            match skip_ws tl with
            | "}"%char :: r => Some (JObj [], r)
            | _ =>
                (fix members (n : nat) (l : list ascii) (acc : list (string * json))
                   {struct n} : option (json * list ascii) :=
                   match n with
                   | 0 => None
                   | S n' =>
                       match skip_ws l with
                       | q :: l1 =>
                           if Ascii.eqb q quote then
                             match string_body l1 [] with
                             | Some (key, l2) =>
                                 match skip_ws l2 with
                                 | ":"%char :: l3 =>
                                     match value f l3 with
                                     | Some (v, r) =>
                                         match skip_ws r with
                                         | ","%char :: r' => members n' r' ((key, v) :: acc)
                                         | "}"%char :: r' =>
                                             Some (JObj (rev ((key, v) :: acc)), r')
                                         | _ => None
                                         end
                                     | None => None
                                     end
                                 | _ => None
                                 end
                             | None => None
                             end
                           else None
                       | [] => None
                       end
                   end) (S (length tl)) tl []
            end
          else
            match Py.prefix_chars (Py.chars "null") (c :: tl),
                  Py.prefix_chars (Py.chars "true") (c :: tl),
                  Py.prefix_chars (Py.chars "false") (c :: tl) with
            | Some r, _, _ => Some (JNull, r)
            | _, Some r, _ => Some (JBool true, r)
            | _, _, Some r => Some (JBool false, r)
            | _, _, _ =>
                match number (c :: tl) with
                | Some (lit, r) => Some (JNum lit, r)
                | None => None
                end
            end
      end
  end.

(** The whole text must be one value between optional white space. *)
Definition loads (s : string) : option json :=
  match value (S (String.length s)) (Py.chars s) with
  | Some (v, r) => match skip_ws r with [] => Some v | _ => None end
  | None => None
  end.

End Json.

(** ** Trending topics *)

(** A topic is an item of the array the text model answered: any JSON
    value.  An f-string formats a string as it is and another value by
    [str]. *)
Definition topic_text (w : World) (topic : json) : string :=
  match topic with
  | JStr s => s
  | _ => str_of_value w topic
  end.

Definition fallback_topic : string := "Latest Cryptocurrency News".

(** [["Latest Cryptocurrency News"] * num_topics] *)
Definition fallback_topics (num_topics : nat) : list json :=
  repeat (JStr fallback_topic) num_topics.

(** The text built from the first 50 articles. *)
Definition text_to_analyze_of (articles_list : list article) : string :=
  fold_left
    (fun text a =>
       let text :=
         match get (title a) "" with
         | Some t => if Py.truthy t && negb (t =? removed_marker)%string
                     then (text ++ "Title: " ++ t ++ Py.NL)%string else text
         | None => text
         end in
       match get (description a) "" with
       | Some d => if Py.truthy d && negb (d =? removed_marker)%string
                   then (text ++ "Description: " ++ d ++ Py.NL ++ Py.NL)%string else text
       | None => text
       end)
    (firstn 50 articles_list) "".

(** A quote, then group 1 = one or more characters that are not quotes,
    then a quote. *)
Definition quoted_re : regex :=
  Seq [ Lit Json.quote; Grp 1 (Plus true (Cls true [Chr Json.quote])); Lit Json.quote ].

(** [response.text] of what the wrapper returned; the wrapper returns
    [None] only when it makes no attempt. *)
Definition response_text (response : option string) : M string :=
  match response with
  | Some text => ret text
  | None => raise (OtherException "AttributeError")
  end.

Definition extract_multiple_trending_topics (cfg : Config)
  (articles_list : list article) (num_topics : nat) : M (list json) :=
  match RESEARCH_MODEL cfg with
  | None => ret (fallback_topics num_topics)
  | Some research_model =>
      match articles_list with
      | [] => ret (fallback_topics num_topics)
      | _ =>
          let text_to_analyze := text_to_analyze_of articles_list in
          if negb (Py.truthy text_to_analyze) then ret (fallback_topics num_topics)
          else
            let prompt := TopicsPrompt num_topics (Py.strip text_to_analyze) in
            try_
              (response <- _gemini_generate_content_with_retry research_model prompt ;;
               text <- response_text response ;;
               loaded <- reading (fun w => json_loads w (Py.strip text)) ;;
               match loaded with
               | Some (JArr topics) =>
                   if num_topics <=? length topics
                   then ret (firstn num_topics topics)
                   else ret (fallback_topics num_topics)
               | Some _ => ret (fallback_topics num_topics)
               | None =>
                   let topics := findall1 F0 quoted_re text in
                   if num_topics <=? length topics
                   then ret (map JStr (firstn num_topics topics))
                   else ret (fallback_topics num_topics)
               end)
              (fun _ => Some (ret (fallback_topics num_topics)))
      end
  end.

(** ** Picking the articles of a topic *)

(** An integer literal as Python reads it from JSON; a literal with a
    fraction or an exponent is a float and gives [None]. *)
Fixpoint digits_value (l : list ascii) (acc : Z) : option Z :=
  match l with
  | [] => Some acc
  | c :: tl =>
      if Py.isdecimal c
      then digits_value tl (10 * acc + Z.of_nat (Py.ord c - 48))
      else None
  end.

Definition int_of_literal (lit : string) : option Z :=
  match Py.chars lit with
  | "-"%char :: tl => option_map Z.opp (digits_value tl 0)
  | l => digits_value l 0
  end.

(** The exact value of a number literal with a fraction or an exponent;
    Python holds the float nearest to it. *)
Fixpoint split_at (stop : ascii -> bool) (l : list ascii) : list ascii * list ascii :=
  match l with
  | [] => ([], [])
  | c :: tl =>
      if stop c then ([], tl)
      else let '(a, b) := split_at stop tl in (c :: a, b)
  end.

Definition literal_value (lit : string) : option Q :=
  let '(mantissa, exponent) :=
    split_at (fun c => Ascii.eqb c "e" || Ascii.eqb c "E") (Py.chars lit) in
  let '(negative, mantissa) :=
    match mantissa with
    | "-"%char :: tl => (true, tl)
    | _ => (false, mantissa)
    end in
  let '(whole_part, fraction) := split_at (fun c => Ascii.eqb c ".") mantissa in
  let exponent_value :=
    match exponent with
    | [] => Some 0%Z
    | "+"%char :: tl => digits_value tl 0
    | "-"%char :: tl => option_map Z.opp (digits_value tl 0)
    | _ => digits_value exponent 0
    end in
  match digits_value (whole_part ++ fraction) 0, exponent_value with
  | Some digits, Some e =>
      let e := (e - Z.of_nat (length fraction))%Z in
      let magnitude :=
        if (0 <=? e)%Z then inject_Z (digits * 10 ^ e)
        else (digits # Z.to_pos (10 ^ (- e)))%Q in
      Some (if negative then (- magnitude)%Q else magnitude)
  | _, _ => None
  end.

(** Truthiness of a number: an integer is falsy when it is zero, a float
    when the double nearest to its literal is zero (so [1e-400] is falsy);
    [NaN] and the infinities are truthy. *)
Definition number_truthy (lit : string) : bool :=
  match int_of_literal lit with
  | Some z => negb (z =? 0)%Z
  | None =>
      match literal_value lit with
      | Some q =>
          match binary64 q with
          | Finite r => negb (Qeq_bool r 0)
          | Infinity _ => true
          end
      | None => true
      end
  end.

(** Truthiness of a value: [if not research_output]. *)
Definition json_truthy (v : json) : bool :=
  match v with
  | JNull => false
  | JBool b => b
  | JNum lit => number_truthy lit
  | JStr s => Py.truthy s
  | JArr items => match items with [] => false | _ => true end
  | JObj members => match members with [] => false | _ => true end
  end.

(** [[articles[i] for i in relevant_indices if i < len(articles)]]; [None]
    when the comparison or the indexing raises: a float below the length
    is no index.  [NaN] and [Infinity] are below no length and are passed
    over; [-Infinity] is below every length. *)
Fixpoint pick_articles (articles : list article) (relevant_indices : list json)
  : option (list article) :=
  match relevant_indices with
  | [] => Some []
  | i :: tl =>
      let picked (z : Z) :=
        if (z <? Z.of_nat (length articles))%Z
        then
          let k := if (z <? 0)%Z then (z + Z.of_nat (length articles))%Z else z in
          if (k <? 0)%Z then None
          else match nth_error articles (Z.to_nat k), pick_articles articles tl with
               | Some a, Some r => Some (a :: r)
               | _, _ => None
               end
        else pick_articles articles tl in
      match i with
      | JNum lit =>
          match int_of_literal lit with
          | Some z => picked z
          | None =>
              match literal_value lit with
              | Some q =>
                  if float_lt_int (binary64 q) (Z.of_nat (length articles))
                  then None
                  else pick_articles articles tl
              | None =>
                  if (lit =? "NaN")%string || (lit =? "Infinity")%string
                  then pick_articles articles tl
                  else None
              end
          end
      | JBool b => picked (if b then 1 else 0)%Z
      | _ => None
      end
  end.

Definition filter_articles_by_topic (cfg : Config) (articles : list article)
  (topic : json) : M (list article) :=
  match RESEARCH_MODEL cfg with
  | None => ret (firstn 10 articles)
  | Some research_model =>
      topic <- reading (fun w => topic_text w topic) ;;
      let prompt := FilterPrompt topic (map (fun a => get (title a) "") articles) in
      try_
        (response <- _gemini_generate_content_with_retry research_model prompt ;;
         text <- response_text response ;;
         loaded <- reading (fun w => json_loads w (Py.strip text)) ;;
         match loaded with
         | Some (JArr relevant_indices) =>
             match pick_articles articles relevant_indices with
             | Some picked => ret picked
             | None => raise (OtherException "TypeError")
             end
         | Some _ => ret (firstn 10 articles)
         | None => raise JSONDecodeError
         end)
        (fun _ => Some (ret (firstn 10 articles)))
  end.

(** ** The research agent *)

(** Three backquotes and [json], [\s*], group 1 = [.*?], [\s*], three
    backquotes. *)
Definition json_fence_re : regex :=
  Seq [ Str "```json"; Star true s_; Grp 1 (Star false Dot); Star true s_; Str "```" ].

(** [perform_research_agent]: the parsed value, [JNull] being Python's
    [None].  The first statement under [try] logs [target_topic[:70]]. *)
Definition perform_research_agent (cfg : Config) (target_topic : json)
  (competitors : list string) : M json :=
  match RESEARCH_MODEL cfg with
  | None => ret JNull
  | Some research_model =>
      topic <- reading (fun w => topic_text w target_topic) ;;
      let prompt := ResearchPrompt topic (firstn 5 competitors) in
      try_
        ((if sliceable target_topic then ret tt
          else raise (OtherException "TypeError")) ;;
         response <- _gemini_generate_content_with_retry research_model prompt ;;
         text <- response_text response ;;
         match search (DOTALL F0) json_fence_re text with
         | Some json_match =>
             let json_str := Py.strip (group 1 json_match) in
             loaded <- reading (fun w => json_loads w json_str) ;;
             match loaded with
             | Some research_data => ret research_data
             | None => raise JSONDecodeError
             end
         | None =>
             loaded <- reading (fun w => json_loads w (Py.strip text)) ;;
             match loaded with
             | Some research_data => ret research_data
             | None => ret JNull
             end
         end)
        (fun _ => Some (ret JNull))
  end.

(** ** The content agent *)

(** [title:\s*.*\n.*?tags:\s*\[.*\]] *)
Definition has_metadata_re : regex :=
  Seq [ Str "title:"; Star true s_; Star true Dot; Lit Py.nl; Star false Dot;
        Str "tags:"; Star true s_; Lit "["; Star true Dot; Lit "]" ].

(** The values of [consolidated_article_data_for_ai] the agent reads. *)
Record article_data := ArticleData {
  ad_topic : json;
  ad_description : string;
  ad_content : string;
  ad_category : string
}.

Definition generate_content_agent (cfg : Config)
  (consolidated_article_data : article_data) (research_output : json)
  (transformed_image_filepath : option string) : M (option string) :=
  match CONTENT_MODEL cfg with
  | None => ret None
  | Some content_model =>
      ok <- reading (fun w => content_inputs_ok w research_output) ;;
      if negb ok then raise (OtherException "TypeError")
      else
        let combined_content_for_prompt :=
          let c := ad_content consolidated_article_data in
          if 4000 <? Py.len c
          then (Py.take 4000 c ++ Py.NL ++ Py.NL
                ++ "[...Content truncated for prompt brevity...]")%string
          else c in
        let prompt :=
          ContentPrompt (ad_topic consolidated_article_data)
            (ad_description consolidated_article_data)
            combined_content_for_prompt
            (ad_category consolidated_article_data)
            research_output transformed_image_filepath in
        let new_blog_title :=
          match research_output with
          | JObj members =>
              match json_get "suggested_blog_title" members with
              | Some v => v
              | None => ad_topic consolidated_article_data
              end
          | _ => ad_topic consolidated_article_data
          end in
        try_
          ((if sliceable new_blog_title then ret tt
            else raise (OtherException "TypeError")) ;;
           response <- _gemini_generate_content_with_retry content_model prompt ;;
           text <- response_text response ;;
           let content := Py.strip text in
           block <- reading (fun w =>
                      metadata_block w (ad_topic consolidated_article_data)
                        (ad_description consolidated_article_data)
                        (ad_category consolidated_article_data)
                        research_output transformed_image_filepath) ;;
           let content :=
             match search (DOTALL F0) has_metadata_re content with
             | Some _ => content
             | None => (block ++ content)%string
             end in
           ret (Some (clean_ai_artifacts content)))
          (fun _ => Some (ret None))
  end.

(** ** The image compositor *)

Definition IMAGE_OUTPUT_FOLDER : string := "transformed_images".
Definition BLOG_OUTPUT_FOLDER : string := "blog_drafts".

(** [int(x * num / den)] for the non-negative sizes below; the products
    by 0.25, 0.05, 0.08, 0.02, 0.035, 0.45 and 0.2 the script takes in
    floating point truncate to the same integers. *)
Definition scaled (x num den : Z) : Z := (x * num / den)%Z.

Definition target_content_width : Z := 1200.
Definition target_content_height : Z := 675.
Definition extended_area_height : Z := scaled target_content_height 25 100.
Definition final_canvas_height : Z := (target_content_height + extended_area_height)%Z.
Definition final_canvas_width : Z := target_content_width.
Definition strip_from_original_height : Z := scaled target_content_height 5 100.
Definition logo_height : Z := scaled target_content_height 8 100.
Definition padding : Z := scaled target_content_width 2 100.
Definition title_font_size : Z := Z.max (scaled target_content_height 35 1000) 20.
Definition max_text_width_for_title : Z := scaled target_content_width 45 100.
Definition horizontal_padding_text : Z := scaled target_content_width 2 100.

(** [int(255 * (y / extended_area_height) * 0.95)]: the exact quotient is
    323 y / 224, an integer only at [y = 0], so the floating-point value
    truncates to the same integer. *)
Definition gradient_alpha (y : Z) : Z :=
  (255 * y * 95 / (extended_area_height * 100))%Z.

(** The lines of the gradient, one for each row of the extension. *)
Definition gradient_lines : list layer :=
  map (fun y : nat =>
         let y := Z.of_nat y in
         GradientLine 0 (target_content_height + y) final_canvas_width
           (gradient_alpha y))
    (List.seq 0 (Z.to_nat extended_area_height)).

Definition bbox_width (b : Z * Z * Z * Z) : Z :=
  let '(l, _, r, _) := b in (r - l)%Z.
Definition bbox_height (b : Z * Z * Z * Z) : Z :=
  let '(_, t, _, bt) := b in (bt - t)%Z.

(** The loop of [get_wrapped_text_lines] over the words after the first. *)
Fixpoint wrap_words (bbox : string -> Z * Z * Z * Z) (max_width : Z)
  (words : list string) (current_line : string) (lines : list string)
  : list string :=
  match words with
  | [] => lines ++ [current_line]
  | word :: tl =>
      let test_line := Py.strip (current_line ++ " " ++ word) in
      if (bbox_width (bbox test_line) <=? max_width)%Z
      then wrap_words bbox max_width tl test_line lines
      else wrap_words bbox max_width tl word (lines ++ [current_line])
  end.

Definition get_wrapped_text_lines (bbox : string -> Z * Z * Z * Z)
  (text : string) (max_width : Z) : list string :=
  if negb (Py.truthy text) then []
  else
    match Py.split_ws text with
    | [] => []
    | first :: others => wrap_words bbox max_width others first []
    end.

(** The drawing loop over the wrapped lines: a shadow two pixels down and
    right, then the line itself, right-aligned. *)
Fixpoint draw_lines (bbox : string -> Z * Z * Z * Z) (lines : list string)
  (line_height_list : list Z) (current_y_text_draw : Z) : list layer :=
  match lines, line_height_list with
  | line :: tl, h :: hs =>
      let line_width := bbox_width (bbox line) in
      let x_text_draw := (target_content_width - horizontal_padding_text - line_width)%Z in
      TextShadow (x_text_draw + 2) (current_y_text_draw + 2) line
      :: TextMain x_text_draw current_y_text_draw line
      :: draw_lines bbox tl hs (current_y_text_draw + h)%Z
  | _, _ => []
  end.

(** Steps 4 to 6 of [transform_image] on the enhanced 1200x675 picture. *)
Definition compose (logo : option Z) (bbox : string -> Z * Z * Z * Z)
  (title_text : string) : list layer :=
  let base :=
    ContentPicture target_content_width target_content_height
    :: (if (0 <? strip_from_original_height)%Z
        then [StretchedStrip target_content_height extended_area_height] else [])
    ++ gradient_lines in
  let logo_layers :=
    match logo with
    | Some logo_width =>
        let logo_x := (target_content_width - logo_width - padding)%Z in
        let logo_y := padding in
        [LogoOverlay logo_x logo_y logo_width logo_height]
    | None => []
    end in
  let wrapped_title_lines :=
    get_wrapped_text_lines bbox title_text max_text_width_for_title in
  let line_height_list :=
    map (fun line => (bbox_height (bbox line) + scaled title_font_size 2 10)%Z)
      wrapped_title_lines in
  let total_text_height_for_placement := fold_right Z.add 0%Z line_height_list in
  let bottom_align_y_coord := (final_canvas_height - horizontal_padding_text)%Z in
  let current_y_text_draw := (bottom_align_y_coord - total_text_height_for_placement)%Z in
  let min_y_for_text := (target_content_height + horizontal_padding_text)%Z in
  let current_y_text_draw :=
    if (current_y_text_draw <? min_y_for_text)%Z then min_y_for_text
    else current_y_text_draw in
  base ++ logo_layers
  ++ draw_lines bbox wrapped_title_lines line_height_list current_y_text_draw.

Definition is_logo (l : layer) : bool :=
  match l with LogoOverlay _ _ _ _ => true | _ => false end.
Definition is_text (l : layer) : bool :=
  match l with TextMain _ _ _ => true | _ => false end.
Definition is_shadow (l : layer) : bool :=
  match l with TextShadow _ _ _ => true | _ => false end.

Definition decimal (z : Z) : string := NilZero.string_of_int (Z.to_int z).

(** [transform_image]: the path of the saved picture and its data URI, or
    [(None, None)]. *)
Definition transform_image (image_input_bytes title_text category_text
  output_category_folder safe_filename : string)
  : M (option string * option string) :=
  if negb (Py.truthy image_input_bytes) then ret (None, None)
  else
    try_
      (ask_decode <- reading (fun w => decode_image w image_input_bytes) ;;
       match ask_decode with
       | Raise e => raise e
       | Ok _ =>
           logo <- reading branding_logo ;;
           bbox <- reading getbbox ;;
           let layers := compose logo bbox title_text in
           emit (Composite title_text layers) ;;
           now <- ask_quiet clock ;;
           let output_filename := (safe_filename ++ "_" ++ decimal now ++ ".jpg")%string in
           let output_full_path :=
             (IMAGE_OUTPUT_FOLDER ++ "/" ++ output_category_folder ++ "/"
              ++ output_filename)%string in
           image_bytes_output <- reading (fun w => jpeg_bytes w layers) ;;
           base64_encoded_image <- reading (fun w => b64encode w image_bytes_output) ;;
           let base64_data_uri :=
             ("data:image/jpeg;base64," ++ base64_encoded_image)%string in
           ask (WriteImage output_full_path)
             (fun w n => write_file w n output_full_path) ;;
           ret (Some output_full_path, Some base64_data_uri)
       end)
      (fun _ => Some (ret (None, None))).

(** ** The metadata block of a generated text *)

(** A Python [dict] with string keys, as the list of its items. *)
Definition dict := list (string * string).

Fixpoint dict_set (k v : string) (d : dict) : dict :=
  match d with
  | [] => [(k, v)]
  | (k', v') :: tl =>
      if (k =? k')%string then (k, v) :: tl else (k', v') :: dict_set k v tl
  end.

Fixpoint dict_get (k : string) (d : dict) : option string :=
  match d with
  | [] => None
  | (k', v') :: tl => if (k =? k')%string then Some v' else dict_get k tl
  end.

(** [d.get(k, default)] *)
Definition dict_get_or (k : string) (d : dict) (default : string) : string :=
  match dict_get k d with Some v => v | None => default end.

(** [s.split(':', 1)] when [s] holds a colon. *)
Definition split_colon (s : string) : option (string * string) :=
  if existsb (Ascii.eqb ":") (Py.chars s)
  then let '(a, b) := split_at (Ascii.eqb ":") (Py.chars s) in
       Some (Py.str a, Py.str b)
  else None.

(** The loop over the leading lines: the metadata read and the lines that
    are left for the content. *)
Fixpoint metadata_lines (lines : list string) (metadata : dict)
  : dict * list string :=
  match lines with
  | [] => (metadata, [])
  | line :: tl =>
      let stripped_line := Py.strip line in
      if negb (Py.truthy stripped_line) then (metadata, tl)
      else
        match split_colon stripped_line with
        | Some (key, value) =>
            metadata_lines tl (dict_set (Py.strip key) (Py.strip value) metadata)
        | None => (metadata, line :: tl)
        end
  end.

(** [s.find('\n')] *)
Fixpoint find_nl (l : list ascii) (i : nat) : option nat :=
  match l with
  | [] => None
  | c :: tl => if Ascii.eqb c Py.nl then Some i else find_nl tl (S i)
  end.

Definition parse_markdown_metadata (markdown_content : string) : dict * string :=
  let lines := Py.split Py.nl markdown_content in
  let '(metadata, content_lines) := metadata_lines lines [] in
  let blog_content_only := Py.strip (Py.join Py.NL content_lines) in
  if Py.startswith "# " blog_content_only
  then
    let with_title (h1_title : string) :=
      match dict_get "title" metadata with
      | Some _ => metadata
      | None => dict_set "title" h1_title metadata
      end in
    match find_nl (Py.chars blog_content_only) 0 with
    | Some h1_line_end =>
        let h1_title := Py.strip (Py.drop 2 (Py.take h1_line_end blog_content_only)) in
        (with_title h1_title, Py.strip (Py.drop h1_line_end blog_content_only))
    | None =>
        let h1_title := Py.strip (Py.drop 2 blog_content_only) in
        (with_title h1_title, "")
    end
  else (metadata, blog_content_only).

(** ** Saving and publishing *)

(** [sanitize_filename(v)] for a value that need not be a string:
    [unicodedata.normalize] takes strings only. *)
Definition sanitize_filename_of (v : json) : M string :=
  match v with
  | JStr s => reading (fun w => sanitize_filename (normalize w) (ustr_of_string s))
  | _ => raise (OtherException "TypeError")
  end.

Definition save_blog_post (consolidated_topic_for_fallback : json)
  (generated_markdown_content category : string)
  (transformed_image_filepath transformed_image_b64 : option string)
  (primary_source_url : option string) : M (string * string) :=
  let '(metadata, blog_content_only_markdown) :=
    parse_markdown_metadata generated_markdown_content in
  let title :=
    match dict_get "title" metadata with
    | Some t => JStr t
    | None => consolidated_topic_for_fallback
    end in
  title_text <- reading (fun w => topic_text w title) ;;
  let description_fallback :=
    ("A comprehensive look at the latest news in " ++ category
     ++ " related to '" ++ title_text ++ "'.")%string in
  let description :=
    Py.replace "'" "&apos;"
      (Py.take 155
         (Py.strip
            (Py.replace Py.NL " "
               (Py.replace Py.DQ "&quot;"
                  (dict_get_or "description" metadata description_fallback))))) in
  let keywords_from_meta :=
    Py.replace " " "_" (Py.replace ", " "," (dict_get_or "tags" metadata "")) in
  keywords <-
    (if negb (Py.truthy keywords_from_meta)
     then
       safe_title <- sanitize_filename_of title ;;
       ret (Py.join "," [category; "crypto news"; "latest crypto";
                         Py.take 30 safe_title])
     else ret (Py.lower keywords_from_meta)) ;;
  let image_src_for_html_body :=
    match transformed_image_b64 with
    | Some b => if Py.truthy b then b else ""
    | None => ""
    end in
  now <- reading today ;;
  let published_date := dict_get_or "date" metadata now in
  emit (MarkdownToHtml blog_content_only_markdown) ;;
  let html_blog_content :=
    markdown_to_html blog_content_only_markdown
      transformed_image_filepath transformed_image_b64 in
  safe_title_for_file <- sanitize_filename_of title ;;
  let folder := (BLOG_OUTPUT_FOLDER ++ "/" ++ category)%string in
  let file_path := (folder ++ "/" ++ safe_title_for_file ++ ".html")%string in
  final_html_output <-
    reading (fun w =>
               html_template w title_text description keywords image_src_for_html_body
                 html_blog_content category primary_source_url published_date) ;;
  ask (WriteHtml file_path final_html_output)
    (fun w n => write_file w n file_path) ;;
  ret (file_path, final_html_output).

(** [post_to_blogger]; [full_html_content] is what reading the file at
    [html_file_path] gives, the page [save_blog_post] has just written. *)
Definition post_to_blogger (cfg : Config) (html_file_path full_html_content : string)
  : M bool :=
  match credentials cfg with
  | Some true =>
      try_
        (let '(post_title, post_labels) := post_title_and_labels full_html_content in
         ask (BloggerInsert post_title post_labels) (fun w n => blogger w n) ;;
         ret true)
        (fun _ => Some (ret false))
  | _ => ret false
  end.

(** ** The main workflow *)

Definition global_competitors : list string :=
  [ "cointelegraph.com"; "coindesk.com"; "decrypt.co"; "theblockcrypto.com";
    "binance.com/blog"; "ethereum.org"; "bitcoin.org"; "forbes.com/crypto";
    "bloomberg.com/crypto"; "cryptoslate.com"; "blockworks.co";
    "investopedia.com/cryptocurrency" ].

Definition together_image_prompt (trending_topic : string) : string :=
  "A futuristic representation of " ++ trending_topic
  ++ " in the world of cryptocurrency, "
  ++ "digital art style, high contrast, vibrant colors, blockchain background, "
  ++ "intricate details, concept art, 8k".

(** The text main uses when the text model is not configured. *)
Definition placeholder_markdown (consolidated_topic consolidated_description
  current_category consolidated_content_for_ai today_ : string)
  (transformed_image_filepath : option string) : string :=
  let nl := Py.NL in
  let image :=
    match transformed_image_filepath with
    | Some p => if Py.truthy p then p else "None"
    | None => "None"
    end in
  "title: " ++ consolidated_topic ++ nl
  ++ "description: "
  ++ Py.replace "'" "&apos;"
       (Py.take 155
          (Py.strip
             (Py.replace "\n" " " (Py.replace Py.DQ "&quot;" consolidated_description))))
  ++ nl
  ++ "date: " ++ today_ ++ nl
  ++ "categories: [" ++ current_category ++ "]" ++ nl
  ++ "tags: [" ++ current_category ++ ", news]" ++ nl
  ++ "featuredImage: " ++ image ++ nl ++ nl
  ++ "# " ++ consolidated_topic ++ nl ++ nl
  ++ "<p>This is a placeholder blog post because AI generation was skipped due to missing API key.</p>"
  ++ nl
  ++ "<p>Original aggregated content details (first 500 chars): "
  ++ Py.take 500 consolidated_content_for_ai ++ "...</p>" ++ nl.

(** Steps 6 and 7 of the loop body and the pause after them. *)
Definition publish (cfg : Config) (topic_index : nat) (consolidated_topic : json)
  (generated_blog_markdown current_category : string)
  (transformed_image_filepath transformed_image_b64 : option string)
  (primary_source_url_for_disclaimer : option string) : M unit :=
  saved <- save_blog_post consolidated_topic generated_blog_markdown current_category
             transformed_image_filepath transformed_image_b64
             primary_source_url_for_disclaimer ;;
  let '(saved_html_file_path, written) := saved in
  (if Py.truthy saved_html_file_path
      && match credentials cfg with Some _ => true | None => false end
      && blog_id_configured cfg
   then posted <- post_to_blogger cfg saved_html_file_path written ;; ret tt
   else ret tt) ;;
  if topic_index <? NUM_BLOGS_TO_CREATE then sleep 30 else ret tt.

(** Step 3 of the loop body: the generated picture, composited, or
    [(None, None)]. *)
Definition featured_image (cfg : Config) (trending_topic consolidated_topic : json)
  (current_category : string) : M (option string * option string) :=
  if TOGETHER_API_KEY cfg
  then
    topic <- reading (fun w => topic_text w trending_topic) ;;
    together_image_bytes <-
      generate_image_from_hf cfg (together_image_prompt topic) ;;
    match together_image_bytes with
    | Some bytes =>
        if Py.truthy bytes
        then
          safe_image_filename <- sanitize_filename_of consolidated_topic ;;
          title_text <- reading (fun w => topic_text w consolidated_topic) ;;
          transform_image bytes title_text current_category
            current_category safe_image_filename
        else ret (None, None)
    | None => ret (None, None)
    end
  else ret (None, None).

(** What the loop body does with the answer of the research agent:
    [continue] when it is falsy, otherwise step 5 and then steps 6 and 7. *)
Definition after_research (cfg : Config) (topic_index : nat)
  (consolidated_article_data_for_ai : article_data) (research_output : json)
  (transformed_image_filepath transformed_image_b64 : option string)
  (primary_source_url_for_disclaimer : option string) : M unit :=
  if negb (json_truthy research_output) then ret tt
  else
    (if is_dict research_output then ret tt
     else raise (OtherException "AttributeError")) ;;
    generated_blog_markdown <-
      generate_content_agent cfg consolidated_article_data_for_ai
        research_output transformed_image_filepath ;;
    match generated_blog_markdown with
    | Some markdown =>
        if Py.truthy markdown
        then publish cfg topic_index (ad_topic consolidated_article_data_for_ai)
               markdown (ad_category consolidated_article_data_for_ai)
               transformed_image_filepath transformed_image_b64
               primary_source_url_for_disclaimer
        else ret tt
    | None => ret tt
    end.

(** Steps 4 to 7, the part of the loop body under [try]. *)
Definition write_post (cfg : Config) (topic_index : nat)
  (consolidated_article_data_for_ai : article_data)
  (effective_competitors : list string)
  (transformed_image_filepath transformed_image_b64 : option string)
  (primary_source_url_for_disclaimer : option string) : M unit :=
  let consolidated_topic := ad_topic consolidated_article_data_for_ai in
  match GEMINI_API_KEY cfg, RESEARCH_MODEL cfg with
  | true, Some _ =>
      research_output <-
        perform_research_agent cfg consolidated_topic effective_competitors ;;
      after_research cfg topic_index consolidated_article_data_for_ai
        research_output transformed_image_filepath transformed_image_b64
        primary_source_url_for_disclaimer
  | _, _ =>
      now <- reading today ;;
      topic <- reading (fun w => topic_text w consolidated_topic) ;;
      publish cfg topic_index consolidated_topic
        (placeholder_markdown topic
           (ad_description consolidated_article_data_for_ai)
           (ad_category consolidated_article_data_for_ai)
           (ad_content consolidated_article_data_for_ai) now
           transformed_image_filepath)
        (ad_category consolidated_article_data_for_ai)
        transformed_image_filepath transformed_image_b64
        primary_source_url_for_disclaimer
  end.

(** The body of the loop of [main] for one topic; [continue] and the end
    of the body both return.  The aggregation and the picture are outside
    the [try]: what they raise leaves [main]. *)
Definition process_topic (cfg : Config) (raw_articles : list article)
  (topic_index : nat) (trending_topic : json) : M unit :=
  let current_category := BLOG_CATEGORY in
  topic_articles <- filter_articles_by_topic cfg raw_articles trending_topic ;;
  consolidated_data <- lift (aggregate_articles topic_articles current_category) ;;
  match consolidated_data with
  | None => ret tt
  | Some consolidated_data =>
      let consolidated_topic := trending_topic in
      let consolidated_description := combined_description consolidated_data in
      let consolidated_content_for_ai := combined_content consolidated_data in
      let primary_source_url_for_disclaimer := primary_source_url consolidated_data in
      let effective_competitors :=
        list_set (global_competitors ++ competitors consolidated_data) in
      image <- featured_image cfg trending_topic consolidated_topic current_category ;;
      let '(transformed_image_filepath, transformed_image_b64) := image in
      try_
        (write_post cfg topic_index
           (ArticleData consolidated_topic consolidated_description
              consolidated_content_for_ai current_category)
           effective_competitors transformed_image_filepath transformed_image_b64
           primary_source_url_for_disclaimer)
        (fun _ => Some (ret tt))
  end.

(** [for topic_index, trending_topic in enumerate(trending_topics, 1)] *)
Fixpoint process_topics (cfg : Config) (raw_articles : list article)
  (topic_index : nat) (trending_topics : list json) : M unit :=
  match trending_topics with
  | [] => ret tt
  | trending_topic :: tl =>
      process_topic cfg raw_articles topic_index trending_topic ;;
      process_topics cfg raw_articles (S topic_index) tl
  end.

Definition main (cfg : Config) : M unit :=
  if negb (environment_valid cfg) then ret tt
  else if blog_id_configured cfg
          && match credentials cfg with Some _ => false | None => true end
  then ret tt
  else
    raw_articles <- fetch_newsapi_articles CRYPTO_QUERY_TERM
                      NUM_SOURCE_ARTICLES_TO_FETCH ;;
    match raw_articles with
    | None | Some [] => ret tt
    | Some raw_articles =>
        trending_topics <-
          extract_multiple_trending_topics cfg raw_articles NUM_BLOGS_TO_CREATE ;;
        process_topics cfg raw_articles 1 trending_topics
    end.

(** * Vocabulary of the statements *)

Definition ascii_alnum (c : ascii) : bool :=
  Py.isdecimal c || Py.isupper_ascii c || Py.islower_ascii c.

(** What a file name may hold: a lowercase ASCII letter, a digit or an
    underscore. *)
Definition fname_char (c : ascii) : bool :=
  Py.islower_ascii c || Py.isdecimal c || Ascii.eqb c "_".

(** ** The steps of a file name, in the words of their description *)

(** An underscore, a space or a dash. *)
Definition is_separator (c : ascii) : bool :=
  Ascii.eqb c "_" || Ascii.eqb c " " || Ascii.eqb c "-".

(** A character that is not alphanumeric, a space, a dash or an underscore
    becomes an underscore. *)
Definition replace_unsafe (c : ascii) : ascii :=
  if ascii_alnum c || is_separator c then c else "_"%char.

(** The list without the separators at its head. *)
Fixpoint drop_run (l : list ascii) : list ascii :=
  match l with
  | [] => []
  | c :: tl => if is_separator c then drop_run tl else l
  end.

(** Every run of separators becomes one underscore; [in_run] tells that
    the character before was a separator. *)
Fixpoint collapse_runs (in_run : bool) (l : list ascii) : list ascii :=
  match l with
  | [] => []
  | c :: tl =>
      if is_separator c
      then if in_run then collapse_runs true tl
           else "_"%char :: collapse_runs true tl
      else c :: collapse_runs false tl
  end.

(** An ASCII capital becomes its small letter. *)
Definition ascii_lower (c : ascii) : ascii :=
  if Py.isupper_ascii c then ascii_of_nat (Py.ord c + 32) else c.

(** The steps: the code points the normalisation leaves below 128, the
    unsafe characters replaced, the ends treated by [trim], the runs
    collapsed, the capitals lowered, the first 100 characters kept. *)
Definition filename_steps (trim : list ascii -> list ascii)
  (normalize : ustr -> ustr) (filename : ustr) : string :=
  let ascii_part := map ascii_of_N (filter (fun n => (n <? 128)%N) (normalize filename)) in
  Py.str
    (firstn 100
       (map ascii_lower
          (collapse_runs false (trim (map replace_unsafe ascii_part))))).

(** The steps as the sentence lists them: nothing is done to the ends. *)
Definition described_filename : (ustr -> ustr) -> ustr -> string :=
  filename_steps (fun l => l).

(** An article whose [source] the aggregation reads without an
    exception: the key is absent, or its value is an object. *)
Definition readable_source (a : article) : bool :=
  match source a with
  | None => true
  | Some v => is_dict v
  end.

(** The pieces one article adds to the combined content. *)
Definition article_pieces (a : article) : list string :=
  (match get (title a) "" with
   | Some t => if Py.truthy t then [("### Source: " ++ t ++ Py.NL ++ Py.NL)%string] else []
   | None => []
   end)
  ++ (match get (description a) "" with
      | Some d => if Py.truthy d then [(d ++ Py.NL)%string] else []
      | None => []
      end)
  ++ (match get (content a) "" with
      | Some c =>
          if Py.truthy c && negb (Py.strip c =? removed_marker)%string
             && (50 <? Py.len (Py.strip c))
          then [(c ++ Py.NL)%string] else []
      | None => []
      end).

(** The description of an article when it is usable: present, not empty
    and not the marker of a removed article. *)
Definition usable_description (a : article) : list string :=
  match get (description a) "" with
  | Some d => if Py.truthy d && negb (d =? removed_marker)%string then [d] else []
  | None => []
  end.

(** The descriptions the articles carry, whatever they say. *)
Definition descriptions_of (l : list article) : list string :=
  flat_map (fun a => match description a with Text d => [d] | _ => [] end) l.

(** A string that [lower] leaves as it is. *)
Definition is_lowercase (s : string) : Prop := Py.lower s = s.

(** The stripped, lowercased, non-blank labels before [set] removes the
    repetitions. *)
Definition normalized_labels (post_labels : list string) : list string :=
  map (fun label => Py.lower (Py.strip label))
    (filter (fun label => Py.truthy (Py.strip label)) post_labels).


(** The row at which the first line of the title is drawn. *)
Definition first_text_row (layers : list layer) : option Z :=
  match filter is_text layers with
  | TextMain _ y _ :: _ => Some y
  | _ => None
  end.

(** The layers of the picture a run of [transform_image] composites. *)
Definition composited (t : list event) : list (list layer) :=
  flat_map (fun e => match e with Composite _ layers => [layers] | _ => [] end) t.

(** What one attempt of the text wrapper comes to at tick [n]: the text,
    or the exception the handler sees (an empty text counts as
    [ValueError]). *)
Definition text_attempt (w : World) (n : nat) (p : prompt) : result string :=
  match generate_content w n p with
  | Ok text =>
      if negb (Py.truthy text) || (Py.strip text =? "")%string
      then Raise ValueError else Ok text
  | Raise e => Raise e
  end.


Definition is_generate (e : event) : bool :=
  match e with GeminiGenerate _ _ => true | _ => false end.







(** The jitter drawn at tick [n]. *)
Definition jitter_at (w : World) (n : nat) : Q :=
  (0 + (2 - 0) * (Z.of_N (random_bits w n mod 2 ^ 53)%N # 2 ^ 53))%Q.

(** ** Sample worlds *)

Definition quoted (s : string) : string := (Py.DQ ++ s ++ Py.DQ)%string.

Definition sample_articles : list article :=
  [ Article (Text "Bitcoin hits record") (Text "Price surges") Null
      (Text "https://a.com/x") Null
      (Some (JObj [("id", JNull); ("name", JStr "A")])) ].

(** The answers of a text model that does what its prompts ask. *)
Definition sample_answers (p : prompt) : result string :=
  match p with
  | TopicsPrompt _ _ =>
      Ok ("[" ++ quoted "Bitcoin" ++ ", " ++ quoted "Ethereum" ++ ", "
          ++ quoted "DeFi" ++ "]")%string
  | FilterPrompt _ _ => Ok "[0]"
  | ResearchPrompt _ _ =>
      Ok ("```json" ++ Py.NL ++ "{" ++ quoted "suggested_blog_title" ++ ": "
          ++ quoted "T" ++ "}" ++ Py.NL ++ "```")%string
  | ContentPrompt _ _ _ _ _ _ =>
      Ok ("title: T" ++ Py.NL ++ "tags: [a]" ++ Py.NL ++ Py.NL ++ "# T"
          ++ Py.NL ++ Py.NL ++ "Body.")%string
  end.

(** A world in which every request succeeds at once, but for the three
    services given as arguments; no branding logo unless one is given. *)
Definition scripted_world (news : nat -> result (list article))
  (text : nat -> prompt -> result string)
  (image : nat -> result (option string)) (logo : option Z) : World := {|
  newsapi := news;
  generate_content := text;
  random_bits := fun _ => 0%N;
  together := image;
  download := fun _ _ => Ok "PNG";
  decode_image := fun _ => Ok tt;
  branding_logo := logo;
  getbbox := fun s => (0, 0, 10 * Z.of_nat (String.length s), 20)%Z;
  clock := fun _ => 1700000000%Z;
  jpeg_bytes := fun _ => "JPEG";
  b64encode := fun s => s;
  write_file := fun _ _ => Ok tt;
  blogger := fun _ => Ok tt;
  normalize := fun u => u;
  json_loads := Json.loads;
  str_of_value := fun _ => "";
  today := "2025-01-01";
  content_inputs_ok := is_dict;
  metadata_block := fun _ _ _ _ _ => "";
  html_template := fun title _ _ _ body _ _ _ =>
                     ("<html><h1>" ++ title ++ "</h1>" ++ body ++ "</html>")%string
|}.

Definition smooth_world : World :=
  scripted_world (fun _ => Ok sample_articles) (fun _ => sample_answers)
    (fun _ => Ok (Some "https://img.test/1.png")) None.

(** A text model that answers the request for topics with an array of
    numbers, and the other requests as asked. *)
Definition number_topics_world : World :=
  scripted_world (fun _ => Ok sample_articles)
    (fun _ p => match p with
                | TopicsPrompt _ _ => Ok "[1, 2, 3]"
                | _ => sample_answers p
                end)
    (fun _ => Ok (Some "https://img.test/1.png")) None.

(** The same text model, and an image service that answers without a
    picture. *)
Definition number_topics_no_picture_world : World :=
  scripted_world (fun _ => Ok sample_articles)
    (fun _ p => match p with
                | TopicsPrompt _ _ => Ok "[1, 2, 3]"
                | _ => sample_answers p
                end)
    (fun _ => Ok None) None.

(** Every service answers with an error of the kind a retry is made for. *)
Definition failing_world : World :=
  scripted_world (fun _ => Raise RequestException)
    (fun _ _ => Raise ResourceExhausted)
    (fun _ => Raise RequestException) None.

Definition full_config : Config := {|
  GEMINI_API_KEY := true;
  TOGETHER_API_KEY := true;
  environment_valid := true;
  blog_id_configured := true;
  credentials := Some true
|}.

(** The topics read from the text of a response: the first [num_topics]
    items of the array it parses to, else the first [num_topics] quoted
    strings when it is not JSON at all, else the fallback topics. *)
Definition topics_of_response (w : World) (num_topics : nat) (text : string)
  : list json :=
  match json_loads w (Py.strip text) with
  | Some (JArr items) =>
      if num_topics <=? length items then firstn num_topics items
      else fallback_topics num_topics
  | Some _ => fallback_topics num_topics
  | None =>
      let found := findall1 F0 quoted_re text in
      if num_topics <=? length found then map JStr (firstn num_topics found)
      else fallback_topics num_topics
  end.

(** The research value read from the text of a response: what the first
    fenced block parses to when there is a fenced block, what the whole
    text parses to when there is none, [JNull] when that does not parse. *)
Definition research_of_response (w : World) (text : string) : json :=
  match search (DOTALL F0) json_fence_re text with
  | Some json_match =>
      match json_loads w (Py.strip (group 1 json_match)) with
      | Some research_data => research_data
      | None => JNull
      end
  | None =>
      match json_loads w (Py.strip text) with
      | Some research_data => research_data
      | None => JNull
      end
  end.

(** A text model that answers every prompt with the same text. *)
Definition parrot_world (text : string) : World :=
  scripted_world (fun _ => Ok sample_articles) (fun _ _ => Ok text)
    (fun _ => Ok (Some "https://img.test/1.png")) None.

(** A research answer that is a JSON object whose outline quotes a fenced
    block. *)
Definition outline_with_fence : string :=
  ("{" ++ quoted "blog_outline" ++ ": " ++ quoted "```json x ```" ++ "}")%string.

(** ** The stages of the workflow *)

(** The steps a trace is read as; a sleep is no step. *)
Inductive stage :=
| SFetch        (* a request to NewsAPI *)
| STopics       (* a text request: topic extraction *)
| SFilter       (* a text request: the articles of a topic *)
| SImage        (* a request to the image service *)
| SDownload     (* the download of the generated picture *)
| SComposite    (* the compositing of the picture *)
| SWriteImage   (* the picture written to disk *)
| SResearch     (* a text request: research *)
| SContent      (* a text request: the post *)
| SRender       (* Markdown to HTML *)
| SWrite        (* the HTML file written *)
| SPost.        (* the request to the blog host *)

Definition prompt_stage (p : prompt) : stage :=
  match p with
  | TopicsPrompt _ _ => STopics
  | FilterPrompt _ _ => SFilter
  | ResearchPrompt _ _ => SResearch
  | ContentPrompt _ _ _ _ _ _ => SContent
  end.

Definition stage_of (e : event) : list stage :=
  match e with
  | NewsApiGet _ _ => [SFetch]
  | GeminiGenerate _ p => [prompt_stage p]
  | TogetherPost _ => [SImage]
  | ImageDownload _ => [SDownload]
  | Sleep _ => []
  | Composite _ _ => [SComposite]
  | WriteImage _ => [SWriteImage]
  | MarkdownToHtml _ => [SRender]
  | WriteHtml _ _ => [SWrite]
  | BloggerInsert _ _ => [SPost]
  end.

Definition stages (t : list event) : list stage := flat_map stage_of t.

Definition is_text_stage (s : stage) : bool :=
  match s with STopics | SFilter | SResearch | SContent => true | _ => false end.

Definition is_post_stage (s : stage) : bool :=
  match s with SPost => true | _ => false end.

(** The stages up to and including the first request to the blog host. *)
Fixpoint until_post (l : list stage) : list stage :=
  match l with
  | [] => []
  | SPost :: _ => [SPost]
  | s :: tl => s :: until_post tl
  end.

(** The number of requests to the image service. *)
Definition image_requests (l : list stage) : nat :=
  length (filter (fun s => match s with SImage => true | _ => false end) l).

(** The image part of an iteration: requests and downloads, at most three
    requests, then nothing, or the compositing and the write of the
    picture. *)
Definition image_part (l : list stage) : Prop :=
  exists requests finish,
    l = requests ++ finish
    /\ Forall (fun s => s = SImage \/ s = SDownload) requests
    /\ image_requests requests <= 3
    /\ (finish = [] \/ finish = [SComposite; SWriteImage]).

(** How an iteration ends: it stops early, or stops after the rendering,
    or renders and writes the page, or goes on to post it. *)
Definition closing_part (l : list stage) : Prop :=
  l = [] \/ l = [SRender] \/ l = [SRender; SWrite] \/ l = [SRender; SWrite; SPost].

(** The stages of the loop body for one topic. *)
Definition iteration (l : list stage) : Prop :=
  exists filters image researches contents closing,
    l = repeat SFilter filters ++ image ++ repeat SResearch researches
        ++ repeat SContent contents ++ closing
    /\ filters <= 5 /\ researches <= 5 /\ contents <= 5
    /\ image_part image /\ closing_part closing.

(** The stages of the loop body that ends with a post.  With the text
    model configured there are between one and five requests of each of
    the three kinds, and none without it; with the image service
    configured there is at least one request to it, and no image part
    without it. *)
Definition publishing_iteration (cfg : Config) (l : list stage) : Prop :=
  exists filters image researches contents,
    l = repeat SFilter filters ++ image ++ repeat SResearch researches
        ++ repeat SContent contents ++ [SRender; SWrite; SPost]
    /\ image_part image
    /\ (if GEMINI_API_KEY cfg
        then 1 <= filters <= 5 /\ 1 <= researches <= 5 /\ 1 <= contents <= 5
        else filters = 0 /\ researches = 0 /\ contents = 0)
    /\ (if TOGETHER_API_KEY cfg then 1 <= image_requests image else image = []).

(** The stages that come after the research of a topic. *)
Definition after_research_stage (s : stage) : bool :=
  match s with
  | SContent | SRender | SWrite | SPost => true
  | _ => false
  end.

(** The research agent of a run answers nothing usable: whatever the
    topic and the tick, what it returns is falsy. *)
Definition research_fails (cfg : Config) (w : World) : Prop :=
  forall target_topic competitors n r,
    value_of (perform_research_agent cfg target_topic competitors w n) = Ok r ->
    json_truthy r = false.

(** The sequence of the sentence of the specification: fetch, two text
    requests, one image request, compositing, rendering, the file, the
    post. *)
Definition specified_sequence : list stage -> Prop :=
  fun l => exists t1 t2,
    is_text_stage t1 = true /\ is_text_stage t2 = true
    /\ filter (fun s => match s with SDownload | SWriteImage => false | _ => true end) l
       = [SFetch; t1; t2; SImage; SComposite; SRender; SWrite; SPost].

Definition tick_of {A} (x : result A * nat * list event) : nat := snd (fst x).

(** A computation that leaves no event in the trace. *)
Definition silent {A} (c : M A) : Prop := forall w n, trace_of (c w n) = [].

(** * The helpers around the workflow *)

(** ** The font of the title *)





(** ** The environment *)

(** The messages [validate_environment] collects, in order.  A key is
    given by whether it is set and not empty; [import_error] is the message
    of the [ImportError] when a package does not import. *)
Definition validation_errors (newsapi_key together_key gemini_key : bool)
  (blogger_blog_id : string) (import_error : option string) : list string :=
  let errors := [] in
  let errors :=
    if negb newsapi_key
    then errors ++ ["NEWSAPI_API_KEY not found in environment variables."]
    else errors in
  let errors :=
    if negb together_key
    then errors ++ ["TOGETHER_API_KEY not found in environment variables. Together AI functions will be skipped."]
    else errors in
  let errors :=
    if negb gemini_key
    then errors ++ ["GEMINI_API_KEY not found in environment variables. Gemini functions will be skipped."]
    else errors in
  let errors :=
    if negb (Py.truthy blogger_blog_id) || (blogger_blog_id =? "YOUR_BLOG_ID_HERE")%string
    then errors ++ ["BLOGGER_BLOG_ID not set or is placeholder. Cannot post to Blogger."]
    else errors in
  match import_error with
  | Some e =>
      errors ++ [("Missing required package: " ++ e
                  ++ ". Please run 'pip install -r requirements.txt'.")%string]
  | None => errors
  end.

Definition validate_environment (newsapi_key together_key gemini_key : bool)
  (blogger_blog_id : string) (import_error : option string) : bool :=
  match validation_errors newsapi_key together_key gemini_key
          blogger_blog_id import_error with
  | [] => true
  | _ :: _ => false
  end.

(** ** Trimming uniform borders *)

(** An RGB picture: its size and [pixels[x, y]]. *)
Record image := Image {
  width : nat;
  height : nat;
  pixels : nat -> nat -> Z * Z * Z
}.

Definition is_similar (pixel1 pixel2 : Z * Z * Z) (tol : Z) : bool :=
  let '(r1, g1, b1) := pixel1 in
  let '(r2, g2, b2) := pixel2 in
  (Z.abs (r1 - r2) <=? tol)%Z && (Z.abs (g1 - g2) <=? tol)%Z
  && (Z.abs (b1 - b2) <=? tol)%Z.

Definition is_border_pixel_group (tolerance : Z)
  (border_colors_to_trim : list (Z * Z * Z)) (pixel : Z * Z * Z) : bool :=
  existsb (fun bc => is_similar pixel bc tolerance) border_colors_to_trim.

(** [all(is_border_pixel_group(pixels[x, y]) for x in range(width))] *)
Definition border_row (img : image) (tolerance : Z)
  (border_colors_to_trim : list (Z * Z * Z)) (y : nat) : bool :=
  forallb (fun x => is_border_pixel_group tolerance border_colors_to_trim
                      (pixels img x y))
    (List.seq 0 (width img)).

(** [all(is_border_pixel_group(pixels[x, y]) for y in range(height))] *)
Definition border_column (img : image) (tolerance : Z)
  (border_colors_to_trim : list (Z * Z * Z)) (x : nat) : bool :=
  forallb (fun y => is_border_pixel_group tolerance border_colors_to_trim
                      (pixels img x y))
    (List.seq 0 (height img)).

(** [range(hi, lo, -1)]: [hi], [hi - 1], ... down to [lo + 1]. *)
Definition range_down (hi lo : nat) : list nat := rev (List.seq (S lo) (hi - lo)).

(** A loop [for i in candidates: if not border(i): found = i; break]. *)
Fixpoint first_content (border : nat -> bool) (candidates : list nat) : option nat :=
  match candidates with
  | [] => None
  | i :: tl => if negb (border i) then Some i else first_content border tl
  end.

(** The four loops: the box of [left], [top], [right] and [bottom]. *)
Definition content_bbox (img : image) (tolerance : Z)
  (border_colors_to_trim : list (Z * Z * Z)) : nat * nat * nat * nat :=
  let row := border_row img tolerance border_colors_to_trim in
  let column := border_column img tolerance border_colors_to_trim in
  let top :=
    match first_content row (List.seq 0 (height img)) with
    | Some y => y
    | None => 0
    end in
  let bottom :=
    match first_content row (range_down (height img - 1) top) with
    | Some y => y + 1
    | None => height img
    end in
  let left_ :=
    match first_content column (List.seq 0 (width img)) with
    | Some x => x
    | None => 0
    end in
  let right_ :=
    match first_content column (range_down (width img - 1) left_) with
    | Some x => x + 1
    | None => width img
    end in
  (left_, top, right_, bottom).

(** [img.crop(box)] for a box inside the picture. *)
Definition crop (img : image) (box : nat * nat * nat * nat) : image :=
  let '(left_, top, right_, bottom) := box in
  Image (right_ - left_) (bottom - top)
    (fun x y => pixels img (x + left_) (y + top)).

Definition same_box (a b : nat * nat * nat * nat) : bool :=
  let '(a1, a2, a3, a4) := a in
  let '(b1, b2, b3, b4) := b in
  (a1 =? b1) && (a2 =? b2) && (a3 =? b3) && (a4 =? b4).

(** [find_content_bbox_and_trim] on an RGB picture.  The script compares
    a size with 0.75 times a size in floating point; a picture's sizes and
    three quarters of them are exact there, so the comparison is the one
    on the integers below. *)
Definition find_content_bbox_and_trim_ (img : image) (tolerance : Z)
  (border_colors_to_trim : list (Z * Z * Z)) : image :=
  let '(left_, top, right_, bottom) :=
    content_bbox img tolerance border_colors_to_trim in
  if negb (same_box (left_, top, right_, bottom) (0, 0, width img, height img))
  then
    let trimmed_width := right_ - left_ in
    let trimmed_height := bottom - top in
    if (3 * width img <? 4 * trimmed_width) && (3 * height img <? 4 * trimmed_height)
    then crop img (left_, top, right_, bottom)
    else img
  else img.

(** The call with the default arguments. *)
Definition find_content_bbox_and_trim (img : image) : image :=
  find_content_bbox_and_trim_ img 20 [(0, 0, 0); (255, 255, 255)]%Z.

(** ** The description of a page *)

(** The value [save_blog_post] puts into the description of the page:
    quotes replaced, line ends blanked, stripped, cut at 155 characters,
    apostrophes replaced. *)
Definition page_description (raw : string) : string :=
  Py.replace "'" "&apos;"
    (Py.take 155 (Py.strip (Py.replace Py.NL " " (Py.replace Py.DQ "&quot;" raw)))).

(** * Vocabulary of the further statements *)

(** A text without white space at its ends. *)
Definition stripped (s : string) : Prop := Py.strip s = s.

(** A text in which the character [c] does not occur. *)
Definition free_of (c : ascii) (s : string) : Prop :=
  Forall (fun x => x <> c) (Py.chars s).

(** Whatever the world answers, the computation returns, and what it
    returns satisfies [P]. *)
Definition always_returns {A} (c : M A) (P : A -> Prop) : Prop :=
  forall w n, exists a, value_of (c w n) = Ok a /\ P a.

(** Whenever the computation returns, what it returns satisfies [P]. *)
Definition ensures {A} (c : M A) (P : A -> Prop) : Prop :=
  forall w n a, value_of (c w n) = Ok a -> P a.

(** No event of the kind [kind] in any trace of the computation. *)
Definition never {A} (kind : event -> bool) (c : M A) : Prop :=
  forall w n, Forall (fun e => kind e = false) (trace_of (c w n)).

Definition is_blogger_insert (e : event) : bool :=
  match e with BloggerInsert _ _ => true | _ => false end.

(** The events of the picture of a post: the request, the download, the
    compositing and the file. *)
Definition is_image_event (e : event) : bool :=
  match e with
  | TogetherPost _ | ImageDownload _ | Composite _ _ | WriteImage _ => true
  | _ => false
  end.

(** The titles the aggregation counts: present, not empty, not the marker
    of a removed article. *)
Definition usable_title (a : article) : list string :=
  match get (title a) "" with
  | Some t => if Py.truthy t && negb (t =? removed_marker)%string then [t] else []
  | None => []
  end.

(** The articles that carry a picture. *)
Definition has_picture (a : article) : bool := truthy_opt (get (urlToImage a) "").










(** No two underscores side by side. *)
Fixpoint single_underscores (l : list ascii) : Prop :=
  match l with
  | a :: (b :: _) as tl => ~ (a = "_"%char /\ b = "_"%char) /\ single_underscores tl
  | _ => True
  end.

(** * Properties *)

Unset Implicit Arguments.

(** ** Strings and characters *)

Lemma chars_str (l : list ascii) : Py.chars (Py.str l) = l.
Proof. apply list_ascii_of_string_of_list_ascii. Qed.


Lemma length_chars (s : string) : length (Py.chars s) = String.length s.
Proof. induction s; simpl; congruence. Qed.

Lemma length_str (l : list ascii) : String.length (Py.str l) = length l.
Proof. rewrite <- length_chars. now rewrite chars_str. Qed.

Lemma chars_append (a b : string) : Py.chars (a ++ b) = Py.chars a ++ Py.chars b.
Proof. induction a; simpl; [reflexivity | now f_equal]. Qed.

Lemma Forall_lstrip (P : ascii -> Prop) (l : list ascii) :
  Forall P l -> Forall P (Py.lstrip_chars l).
Proof.
  induction 1 as [|c tl Hc Htl IH]; simpl; [constructor|].
  destruct (Py.isspace c); [assumption | now constructor].
Qed.

Lemma Forall_firstn (P : ascii -> Prop) (n : nat) (l : list ascii) :
  Forall P l -> Forall P (firstn n l).
Proof.
  intros H. revert n. induction H; intros [|n]; simpl; constructor; auto.
Qed.

Lemma Forall_strip (P : ascii -> Prop) (l : list ascii) :
  Forall P l -> Forall P (Py.strip_chars l).
Proof.
  intros H. unfold Py.strip_chars, Py.rstrip_chars.
  apply Forall_rev, Forall_lstrip, Forall_rev, Forall_lstrip, H.
Qed.

(** ** The matcher on a run of one character class *)

Section ClassRun.

Variable p : ascii -> bool.
Variable ma : (mstate -> option mstate) -> mstate -> option mstate.
Hypothesis ma_one : forall k st, ma k st = one p k st.

Lemma star_loop_class_run (n : nat) :
  forall st st',
    star_loop ma true Some n st = Some st' ->
    pos st <= pos st' /\ exists pre, rest st = pre ++ rest st'.
Proof.
  induction n as [|n IH]; intros st st'; cbn.
  - intros [= <-]. split; [lia | now exists []].
  - rewrite ma_one. unfold one.
    destruct (rest st) as [|c tl] eqn:Er.
    + intros [= <-]. split; [lia | exists []; now rewrite Er].
    + destruct (p c).
      * cbn [step pos].
        rewrite (proj2 (Nat.eqb_neq (S (pos st)) (pos st))) by lia.
        destruct (star_loop ma true Some n (step c tl st)) as [st1|] eqn:E1.
        -- intros [= <-]. apply IH in E1. simpl in E1.
           destruct E1 as [Hp [pre Hpre]].
           split; [lia | exists (c :: pre); simpl; now rewrite Hpre].
        -- intros [= <-]. split; [lia | exists []; now rewrite Er].
      * intros [= <-]. split; [lia | exists []; now rewrite Er].
Qed.

(** With enough iterations the greedy loop takes the whole run. *)
Lemma star_loop_class_exact (n : nat) :
  forall st,
    length (rest st) <= n ->
    exists st',
      star_loop ma true Some n st = Some st'
      /\ pos st <= pos st'
      /\ rest st' = (fix drop (l : list ascii) : list ascii :=
                       match l with
                       | [] => []
                       | c :: tl => if p c then drop tl else l
                       end) (rest st).
Proof.
  induction n as [|n IH]; intros st Hn; cbn.
  - destruct (rest st) as [|c tl] eqn:Er; [|cbn in Hn; lia].
    exists st. rewrite Er. repeat split. lia.
  - rewrite ma_one. unfold one.
    destruct (rest st) as [|c tl] eqn:Er.
    + exists st. rewrite Er. repeat split. lia.
    + destruct (p c) eqn:Ep.
      * cbn [step pos].
        rewrite (proj2 (Nat.eqb_neq (S (pos st)) (pos st))) by lia.
        destruct (IH (step c tl st)) as [st1 [E1 [Hp Hr]]];
          [cbn in *; lia|].
        rewrite E1. exists st1. cbn [step pos rest] in Hp, Hr.
        split; [reflexivity|]. split; [lia | exact Hr].
      * exists st. rewrite Er. repeat split. lia.
Qed.

Lemma star_loop_greedy_some (n : nat) (st : mstate) :
  star_loop ma true Some n st <> None.
Proof.
  destruct n; cbn; [discriminate|].
  destruct (ma _ st); discriminate.
Qed.

End ClassRun.

Lemma scan_S (fl : flags) (r : regex) (f : nat) (st : mstate) :
  scan fl r (S f) st
  = match try_at fl r st with
    | Some st' =>
        if pos st' =? pos st
        then inr (mk_obj st st') ::
             match rest st with
             | [] => []
             | c :: tl => inl c :: scan fl r f (step c tl st)
             end
        else inr (mk_obj st st') :: scan fl r f st'
    | None =>
        match rest st with
        | [] => []
        | c :: tl => inl c :: scan fl r f (step c tl st)
        end
    end.
Proof. reflexivity. Qed.

Lemma try_at_class_plus (items : list citem) (st : mstate) :
  try_at F0 (Plus true (Cls false items)) st
  = match rest st with
    | [] => None
    | c :: tl =>
        if cls_has F0 false items c
        then star_loop (one (cls_has F0 false items)) true Some (S (length tl))
               (MState (S (pos st)) (Some c) tl [])
        else None
    end.
Proof.
  unfold try_at, Plus. cbn [m]. unfold one at 1. cbn [rest].
  destruct (rest st) as [|c tl]; [reflexivity|].
  destruct (cls_has F0 false items c); reflexivity.
Qed.

(** What [scan] leaves outside the matches of a one-or-more class pattern:
    characters of the input that are not in the class. *)
Lemma scan_class_plus (items : list citem) (Q : ascii -> Prop) (fuel : nat) :
  forall st,
    Forall Q (rest st) ->
    Forall (fun x => match x with
                     | inl c => Q c /\ cls_has F0 false items c = false
                     | inr _ => True
                     end)
      (scan F0 (Plus true (Cls false items)) fuel st).
Proof.
  induction fuel as [|fuel IH]; intros st HQ; [constructor|].
  rewrite scan_S, try_at_class_plus.
  destruct (rest st) as [|c tl] eqn:Er; [constructor|].
  inversion HQ as [|? ? Hc Htl]; subst.
  destruct (cls_has F0 false items c) eqn:Ec.
  - destruct (star_loop _ true Some (S (length tl)) _) as [st'|] eqn:E.
    + pose proof E as E'.
      eapply star_loop_class_run in E'; [|intros; reflexivity].
      destruct E' as [Hp [pre Hpre]]. cbn [pos rest] in Hp, Hpre.
      rewrite (proj2 (Nat.eqb_neq (pos st') (pos st))) by lia.
      constructor; [exact I|]. apply IH.
      subst tl. now apply Forall_app in Htl.
    + exfalso. revert E. apply star_loop_greedy_some.
  - constructor; [now split|]. apply IH. exact Htl.
Qed.

Lemma chars_render (repl : mobj -> string) (l : list (ascii + mobj)) :
  Py.chars (render repl l)
  = concat (map (fun x => match x with
                          | inl c => [c]
                          | inr mo => Py.chars (repl mo)
                          end) l).
Proof.
  induction l as [|[c|mo] tl IH]; simpl; [reflexivity | now f_equal |].
  now rewrite chars_append, IH.
Qed.

(** ** [sanitize_filename] *)

Lemma safe_char_ascii (c : ascii) :
  Py.ord c < 128 ->
  ascii_alnum (safe_char c) || cls_has F0 false [Chr "_"; Chr " "; Chr "-"] (safe_char c)
  = true.
Proof.
  intros H. apply Nat.ltb_lt in H. revert H.
  destruct c as [[] [] [] [] [] [] [] []]; vm_compute; congruence.
Qed.

Lemma lower_char_fname (c : ascii) :
  ascii_alnum c || Ascii.eqb c "_" = true -> fname_char (Py.lower_char c) = true.
Proof.
  destruct c as [[] [] [] [] [] [] [] []]; vm_compute; congruence.
Qed.

Lemma encode_ascii_ignore_ascii (u : ustr) :
  Forall (fun c => Py.ord c < 128) (Py.chars (encode_ascii_ignore u)).
Proof.
  unfold encode_ascii_ignore. rewrite chars_str.
  apply Forall_forall. intros c Hc.
  apply in_map_iff in Hc. destruct Hc as [n [<- Hn]].
  apply filter_In in Hn. destruct Hn as [_ Hn]. apply N.ltb_lt in Hn.
  unfold Py.ord, nat_of_ascii. rewrite N_ascii_embedding by lia. lia.
Qed.

Lemma sub_separators_chars (s : string) :
  Forall (fun c => ascii_alnum c
                   || cls_has F0 false [Chr "_"; Chr " "; Chr "-"] c = true)
    (Py.chars s) ->
  Forall (fun c => ascii_alnum c || Ascii.eqb c "_" = true)
    (Py.chars (sub F0 separators_re [T "_"] s)).
Proof.
  intros H. unfold sub, sub_fn. rewrite chars_render.
  apply Forall_concat. apply Forall_map.
  unfold pieces, separators_re.
  eapply Forall_impl;
    [|apply (scan_class_plus [Chr "_"; Chr " "; Chr "-"] _ (S (String.length s))
               (start (Py.chars s)) H)].
  intros [c|mo]; simpl.
  - intros [Hc Hn]. constructor; [|constructor].
    rewrite Hn in Hc. rewrite orb_false_r in Hc. now rewrite Hc.
  - intros _. repeat constructor.
Qed.

Lemma separators_class (c : ascii) :
  cls_has F0 false [Chr "_"; Chr " "; Chr "-"] c = is_separator c.
Proof. destruct c as [[] [] [] [] [] [] [] []]; reflexivity. Qed.

Lemma collapse_runs_in_run (l : list ascii) :
  collapse_runs true l = collapse_runs false (drop_run l).
Proof.
  induction l as [|c tl IH]; [reflexivity|]. cbn [collapse_runs drop_run].
  destruct (is_separator c) eqn:E; [exact IH|].
  cbn [collapse_runs]. now rewrite E.
Qed.

(** The substitution of one underscore for every match of [[_ -]+] is the
    collapse of the runs. *)
Lemma scan_separators_collapse (fuel : nat) :
  forall st,
    length (rest st) < fuel ->
    Py.chars (render (expand [T "_"])
                (scan F0 (Plus true (Cls false [Chr "_"; Chr " "; Chr "-"])) fuel st))
    = collapse_runs false (rest st).
Proof.
  induction fuel as [|fuel IH]; intros st Hf; [lia|].
  rewrite scan_S, try_at_class_plus.
  destruct (rest st) as [|c tl] eqn:Er; [reflexivity|].
  cbn [length] in Hf. cbn [collapse_runs].
  rewrite separators_class. destruct (is_separator c) eqn:Ec.
  - destruct (star_loop_class_exact
                (cls_has F0 false [Chr "_"; Chr " "; Chr "-"])
                (one (cls_has F0 false [Chr "_"; Chr " "; Chr "-"]))
                (fun _ _ => eq_refl) (S (length tl))
                (MState (S (pos st)) (Some c) tl []))
      as [st' [E [Hp Hr]]]; [cbn; lia|].
    rewrite E. cbn [pos rest] in Hp, Hr.
    rewrite (proj2 (Nat.eqb_neq (pos st') (pos st))) by lia.
    cbn [render]. rewrite chars_append.
    change (Py.chars (expand [T "_"] (mk_obj st st'))) with ["_"%char].
    cbn [app]. f_equal. rewrite collapse_runs_in_run.
    assert (Hd : rest st' = drop_run tl).
    { rewrite Hr. clear. induction tl as [|x tl IH]; [reflexivity|].
      cbn [drop_run]. rewrite separators_class.
      destruct (is_separator x); [exact IH | reflexivity]. }
    rewrite <- Hd. apply IH.
    rewrite Hd. clear -Hf.
    assert (H : length (drop_run tl) <= length tl).
    { clear. induction tl as [|x tl IH]; [cbn; lia|].
      cbn [drop_run]. destruct (is_separator x); cbn [length] in *; lia. }
    lia.
  - cbn [render Py.chars list_ascii_of_string]. f_equal.
    apply IH. cbn [step rest]. lia.
Qed.

Lemma sub_separators_collapse (s : string) :
  Py.chars (sub F0 separators_re [T "_"] s) = collapse_runs false (Py.chars s).
Proof.
  unfold sub, sub_fn, pieces, separators_re.
  rewrite scan_separators_collapse; [reflexivity|].
  cbn [start rest]. rewrite length_chars. lia.
Qed.

Lemma safe_char_replace_unsafe (c : ascii) :
  Py.ord c < 128 -> safe_char c = replace_unsafe c /\ Py.ord (safe_char c) < 128.
Proof.
  intros H. apply Nat.ltb_lt in H. revert H.
  destruct c as [[] [] [] [] [] [] [] []]; vm_compute;
    try congruence; intros _; split; try reflexivity; lia.
Qed.

Lemma lower_char_ascii_lower (c : ascii) :
  Py.ord c < 128 -> Py.lower_char c = ascii_lower c.
Proof.
  intros H. apply Nat.ltb_lt in H. revert H.
  destruct c as [[] [] [] [] [] [] [] []]; vm_compute; congruence.
Qed.

Lemma Forall_collapse_runs (P : ascii -> Prop) (l : list ascii) :
  P "_"%char -> Forall P l -> forall in_run, Forall P (collapse_runs in_run l).
Proof.
  intros Hu H. induction H as [|c tl Hc Htl IH]; intros in_run; cbn [collapse_runs];
    [constructor|].
  destruct (is_separator c); [destruct in_run|]; auto.
Qed.

(** The file name the code computes, step by step. *)
Lemma sanitize_filename_steps (normalize : ustr -> ustr) (filename : ustr) :
  sanitize_filename normalize filename
  = filename_steps Py.strip_chars normalize filename.
Proof.
  unfold sanitize_filename, filename_steps, Py.take, Py.lower, Py.strip.
  rewrite !chars_str, sub_separators_collapse, chars_str.
  pose proof (encode_ascii_ignore_ascii (normalize filename)) as Ha.
  unfold encode_ascii_ignore in *. rewrite chars_str in *.
  set (ascii_part := map ascii_of_N (filter (fun n => (n <? 128)%N) (normalize filename)))
    in *.
  assert (E : map safe_char ascii_part = map replace_unsafe ascii_part).
  { apply map_ext_in. intros c Hc.
    apply safe_char_replace_unsafe. rewrite Forall_forall in Ha. now apply Ha. }
  assert (Hb : Forall (fun c => Py.ord c < 128) (map safe_char ascii_part)).
  { apply Forall_map. eapply Forall_impl; [|exact Ha].
    intros c Hc. now apply safe_char_replace_unsafe. }
  rewrite <- E. do 2 f_equal.
  apply map_ext_in. intros c Hc. apply lower_char_ascii_lower.
  revert c Hc. apply Forall_forall.
  apply Forall_collapse_runs; [vm_compute; lia|].
  apply Forall_strip, Hb.
Qed.

(** C9, as the code has it.  For every input string and every
    normalisation table, [sanitize_filename] returns the outcome of these
    steps: the code points the normalisation leaves below 128 are kept and
    the others dropped; every character that is not an ASCII letter, a
    digit, a space, a dash or an underscore becomes an underscore; the
    white space at the two ends is stripped; every run of underscores,
    spaces and dashes becomes one underscore; capitals are lowered; the
    first 100 characters are kept.  The outcome has at most 100
    characters, each a lowercase ASCII letter, a digit or an underscore. *)
Theorem sanitize_filename_spec (normalize : ustr -> ustr) (filename : ustr) :
  sanitize_filename normalize filename
  = filename_steps Py.strip_chars normalize filename
  /\ String.length (sanitize_filename normalize filename) <= 100
  /\ Forall (fun c => fname_char c = true)
       (Py.chars (sanitize_filename normalize filename)).
Proof.
  split; [apply sanitize_filename_steps|].
  unfold sanitize_filename, Py.take. split.
  - rewrite length_str. apply firstn_le_length.
  - rewrite chars_str. apply Forall_firstn.
    unfold Py.lower. rewrite chars_str. apply Forall_map.
    eapply Forall_impl; [intros c; apply lower_char_fname|].
    apply sub_separators_chars.
    unfold Py.strip. rewrite !chars_str. apply Forall_strip, Forall_map.
    eapply Forall_impl; [intros c; apply safe_char_ascii|].
    apply encode_ascii_ignore_ascii.
Qed.

(** C9, as the sentence has it, fails on a name with a space at an end:
    the sentence turns the space into an underscore, the code strips it
    before the runs are collapsed. *)
Lemma sanitize_filename_strips_ends :
  let filename := ustr_of_string " DeFi  news " in
  sanitize_filename (fun u => u) filename = "defi_news"
  /\ described_filename (fun u => u) filename = "_defi_news_"
  /\ sanitize_filename (fun u => u) filename
     <> described_filename (fun u => u) filename.
Proof. cbv zeta. repeat split; try (vm_compute; reflexivity). vm_compute. discriminate. Qed.

(** ** The renderer on links, images and headings *)

Example clean_ai_artifacts_drops_link_text :
  clean_ai_artifacts "Read [CoinDesk](https://www.coindesk.com/markets) today"
  = "Read (https://www.coindesk.com/markets) today".
Proof. vm_compute. reflexivity. Qed.

(** C1.  On a Markdown link and on a Markdown image the renderer emits no
    anchor and no image tag: the cleaning pass at its start removes the
    bracketed text, and the link and image passes find nothing to
    rewrite. *)
Theorem markdown_to_html_loses_links :
  markdown_to_html "[CoinDesk](https://www.coindesk.com/markets)" None None
  = "<p>(https://www.coindesk.com/markets)</p>"
  /\ markdown_to_html "![chart](https://cdn.coindesk.com/chart.png)" None None
     = "<p>!(https://cdn.coindesk.com/chart.png)</p>".
Proof. split; vm_compute; reflexivity. Qed.

Example markdown_heading_is_demoted :
  markdown_to_html "# Market Update" None None = "<h2>Market Update</h2>".
Proof. vm_compute. reflexivity. Qed.

(** C10.  A level-one heading written as HTML whose closing tag stands on
    a later line passes through the renderer: the output still holds
    [<h1>]. *)
Theorem markdown_to_html_keeps_raw_h1 :
  let html :=
    markdown_to_html ("<h1>" ++ Py.NL ++ "Market Update" ++ Py.NL ++ "</h1>")%string
      None None in
  html = ("<h1>" ++ Py.NL ++ "<p>Market Update </h1></p>")%string
  /\ Py.contains "<h1>" html = true.
Proof. split; vm_compute; reflexivity. Qed.

(** ** [aggregate_articles] *)

Lemma aggregate_update_content (st : agg_state) (a : article) :
  acc_content (aggregate_update st a) = acc_content st ++ article_pieces a.
Proof.
  unfold aggregate_update, article_pieces. cbn [acc_content].
  destruct (get (title a) "") as [t|]; [destruct (Py.truthy t)|];
    (destruct (get (description a) "") as [d|]; [destruct (Py.truthy d)|]);
    (destruct (get (content a) "") as [c|];
     [destruct (Py.truthy c && negb (Py.strip c =? removed_marker)%string
                && (50 <? Py.len (Py.strip c)))|]);
    cbn [app]; rewrite <- ?app_assoc, ?app_nil_r; reflexivity.
Qed.

Lemma aggregate_update_descriptions (st : agg_state) (a : article) :
  acc_descriptions (aggregate_update st a) = acc_descriptions st ++ usable_description a.
Proof.
  unfold aggregate_update, usable_description. cbn [acc_descriptions].
  destruct (get (description a) "") as [d|];
    [destruct (Py.truthy d && negb (d =? removed_marker)%string)|];
    now rewrite ?app_nil_r.
Qed.

Lemma aggregate_fold_content (l : list article) :
  forall st,
    acc_content (fold_left aggregate_update l st)
    = acc_content st ++ flat_map article_pieces l.
Proof.
  induction l as [|a l IH]; intros st; simpl.
  - now rewrite app_nil_r.
  - now rewrite IH, aggregate_update_content, <- app_assoc.
Qed.

Lemma aggregate_fold_descriptions (l : list article) :
  forall st,
    acc_descriptions (fold_left aggregate_update l st)
    = acc_descriptions st ++ flat_map usable_description l.
Proof.
  induction l as [|a l IH]; intros st; simpl.
  - now rewrite app_nil_r.
  - now rewrite IH, aggregate_update_descriptions, <- app_assoc.
Qed.

Lemma aggregate_step_readable (st : agg_state) (a : article) :
  aggregate_step st a
  = if readable_source a then Ok (aggregate_update st a)
    else Raise (OtherException "AttributeError").
Proof.
  unfold aggregate_step, source_name, readable_source.
  destruct (source a) as [[| | | | |]|]; reflexivity.
Qed.

(** The loop ends in the state the updates give when every [source] is
    readable, and raises at the first one that is not. *)
Lemma aggregate_loop_fold (l : list article) :
  forall st,
    aggregate_loop l st
    = if forallb readable_source l then Ok (fold_left aggregate_update l st)
      else Raise (OtherException "AttributeError").
Proof.
  induction l as [|a l IH]; intros st; [reflexivity|].
  cbn [aggregate_loop forallb fold_left]. rewrite aggregate_step_readable.
  destruct (readable_source a); [apply IH | reflexivity].
Qed.

Lemma aggregate_articles_readable (a : article) (l : list article) (category : string) :
  aggregate_articles (a :: l) category
  = if forallb readable_source (a :: l)
    then Ok (Some (consolidate a category
                     (fold_left aggregate_update (a :: l)
                        (AggState [] [] [] None [] None))))
    else Raise (OtherException "AttributeError").
Proof.
  unfold aggregate_articles. rewrite aggregate_loop_fold.
  now destruct (forallb readable_source (a :: l)).
Qed.

Lemma length_lstrip (l : list ascii) : length (Py.lstrip_chars l) <= length l.
Proof.
  induction l as [|c tl IH]; simpl; [lia|].
  destruct (Py.isspace c); simpl; lia.
Qed.

Lemma length_strip (s : string) : String.length (Py.strip s) <= String.length s.
Proof.
  unfold Py.strip, Py.strip_chars, Py.rstrip_chars.
  rewrite length_str, length_rev.
  etransitivity; [apply length_lstrip|]. rewrite length_rev.
  etransitivity; [apply length_lstrip|]. now rewrite length_chars.
Qed.

Lemma length_take (n : nat) (s : string) : String.length (Py.take n s) <= n.
Proof. unfold Py.take. rewrite length_str. apply firstn_le_length. Qed.

(** C6, as the code has it.  The empty list gives [None].  A list with at
    least one article, each with a [source] that is absent or an object,
    gives a record whose combined content joins, with the separator line
    of three dashes, the title, description and substantial-content pieces
    of the articles, or is a fixed placeholder sentence when there is no
    piece; and whose combined description is the usable descriptions (a
    default sentence naming the category when there is none) joined by
    spaces, cut at 300 characters and stripped.  A list with an article
    whose [source] is [null] or another value that is not an object gives
    no record: the function raises [AttributeError]. *)
Theorem aggregate_articles_spec :
  (forall category, aggregate_articles [] category = Ok None)
  /\ (forall a l category,
        forallb readable_source (a :: l) = true ->
        exists r,
          aggregate_articles (a :: l) category = Ok (Some r)
          /\ combined_content r
             = match flat_map article_pieces (a :: l) with
               | [] => no_content_placeholder
               | pieces => Py.join content_separator pieces
               end
          /\ combined_description r
             = Py.strip
                 (Py.take 300
                    (Py.join " "
                       match flat_map usable_description (a :: l) with
                       | [] => [default_description category]
                       | ds => ds
                       end))
          /\ String.length (combined_description r) <= 300)
  /\ (forall a l category,
        forallb readable_source (a :: l) = false ->
        aggregate_articles (a :: l) category
        = Raise (OtherException "AttributeError")).
Proof.
  split; [reflexivity|]. split; intros a l category H;
    rewrite aggregate_articles_readable, H; [|reflexivity].
  eexists. split; [reflexivity|].
  unfold consolidate. cbn [combined_content combined_description].
  rewrite aggregate_fold_content, aggregate_fold_descriptions.
  cbn [acc_content acc_descriptions app].
  repeat split.
  etransitivity; [apply length_strip | apply length_take].
Qed.

Lemma aggregate_articles_witness :
  (exists r,
     aggregate_articles sample_articles "crypto" = Ok (Some r)
     /\ combined_content r
        = ("### Source: Bitcoin hits record" ++ Py.NL ++ Py.NL ++ content_separator
           ++ "Price surges" ++ Py.NL)%string
     /\ combined_description r = "Price surges")
  /\ aggregate_articles
       [Article (Text "Bitcoin rallies") Null Null Missing Missing (Some JNull)]
       "crypto"
     = Raise (OtherException "AttributeError").
Proof.
  destruct aggregate_articles_spec as [_ [Hrecord Hraise]]. split.
  - destruct (Hrecord (hd (Article Null Null Null Null Null None) sample_articles)
                (tl sample_articles) "crypto" eq_refl)
      as [r [Hr [Hc [Hd _]]]].
    exists r. split; [exact Hr|]. split; [rewrite Hc | rewrite Hd];
      vm_compute; reflexivity.
  - apply Hraise. reflexivity.
Defined.

(** C6, as the sentence has it, fails on an article without a
    description: the combined description is then a default sentence, not
    the (empty) join of the descriptions. *)
Lemma aggregate_articles_default_description :
  let l := [Article (Text "Bitcoin rallies") Null Null Missing Missing None] in
  exists r,
    aggregate_articles l "crypto" = Ok (Some r)
    /\ combined_description r = "A deep dive into recent developments in crypto."
    /\ combined_description r <> Py.take 300 (Py.join " " (descriptions_of l)).
Proof.
  eexists. split; [reflexivity|]. split; [vm_compute; reflexivity|].
  vm_compute. discriminate.
Qed.

Example aggregate_articles_removed_description :
  let l := [Article (Text "Bitcoin rallies") (Text "[Removed]") Null Missing Missing
              None] in
  match aggregate_articles l "crypto" with
  | Ok (Some r) =>
      combined_description r = "A deep dive into recent developments in crypto."
      /\ combined_content r
         = ("### Source: Bitcoin rallies" ++ Py.NL ++ Py.NL ++ content_separator
            ++ "[Removed]" ++ Py.NL)%string
  | _ => False
  end.
Proof. vm_compute. split; reflexivity. Qed.

(** ** The labels of a post *)

Lemma lower_char_idem (c : ascii) : Py.lower_char (Py.lower_char c) = Py.lower_char c.
Proof. destruct c as [[] [] [] [] [] [] [] []]; vm_compute; reflexivity. Qed.

Lemma lower_is_lowercase (s : string) : is_lowercase (Py.lower s).
Proof.
  unfold is_lowercase, Py.lower. rewrite chars_str, map_map. f_equal.
  apply map_ext. intros c. apply lower_char_idem.
Qed.

Lemma In_firstn {A : Type} (x : A) (n : nat) (l : list A) :
  In x (firstn n l) -> In x l.
Proof.
  revert n. induction l as [|a l IH]; intros [|n]; simpl; try tauto.
  intros [H|H]; [now left | right; eauto].
Qed.

Lemma existsb_eqb_In (x : string) (l : list string) :
  existsb (String.eqb x) l = true <-> In x l.
Proof.
  rewrite existsb_exists. split.
  - intros [y [Hy Heq]]. apply String.eqb_eq in Heq. now subst.
  - intros H. exists x. split; [assumption | apply String.eqb_refl].
Qed.

Lemma clean_labels_lowercase (raw : list string) :
  Forall is_lowercase (clean_labels raw).
Proof.
  apply Forall_forall. intros x Hx. unfold clean_labels, list_set in Hx.
  apply nodup_In, in_map_iff in Hx. destruct Hx as [y [<- _]].
  apply lower_is_lowercase.
Qed.

Lemma default_labels_lowercase (post_title : string) :
  Forall is_lowercase (default_labels post_title).
Proof.
  apply Forall_forall. intros x Hx. unfold default_labels in Hx.
  apply In_firstn, in_map_iff in Hx. destruct Hx as [y [<- _]].
  apply lower_is_lowercase.
Qed.

Lemma with_category_spec (labels : list string) :
  let sent := if existsb (String.eqb BLOG_CATEGORY) labels
              then labels else labels ++ [BLOG_CATEGORY] in
  In BLOG_CATEGORY sent
  /\ (forall x, In x sent <-> In x labels \/ x = BLOG_CATEGORY)
  /\ (NoDup labels -> NoDup sent)
  /\ exists suffix, sent = labels ++ suffix
                    /\ (suffix = [] \/ suffix = [BLOG_CATEGORY]).
Proof.
  cbv zeta. destruct (existsb (String.eqb BLOG_CATEGORY) labels) eqn:E.
  - apply existsb_eqb_In in E. repeat split.
    + assumption.
    + tauto.
    + intros [H| ->]; assumption.
    + tauto.
    + exists []. rewrite app_nil_r. tauto.
  - assert (Hn : ~ In BLOG_CATEGORY labels).
    { intros H. apply existsb_eqb_In in H. congruence. }
    repeat split.
    + apply in_or_app. right. now left.
    + intros H. apply in_app_or in H. destruct H as [H|[H|[]]]; auto.
    + intros [H| ->]; apply in_or_app; [now left | right; now left].
    + intros H. apply NoDup_app; [assumption | repeat constructor; auto |].
      intros x Hx [<-|[]]. contradiction.
    + exists [BLOG_CATEGORY]. tauto.
Qed.

(** X20.  The labels [post_to_blogger] sends always hold the category
    label and are all lowercase.  When the page yields tags or categories,
    the labels are these, stripped, lowercased and without repetition,
    with the category label added when it is missing.  When it yields
    none, the labels are at most five words of the title, lowercased (a
    word may repeat), followed by the category label when it is not among
    them. *)
Lemma post_title_and_labels_spec (full_html_content : string) :
  let post_title := fst (read_title_and_tags full_html_content) in
  let raw := snd (read_title_and_tags full_html_content) in
  let labels := snd (post_title_and_labels full_html_content) in
  In BLOG_CATEGORY labels
  /\ Forall is_lowercase labels
  /\ match clean_labels raw with
     | [] =>
         length (default_labels post_title) <= 5
         /\ exists suffix,
              labels = default_labels post_title ++ suffix
              /\ (suffix = [] \/ suffix = [BLOG_CATEGORY])
     | _ :: _ =>
         NoDup labels
         /\ forall x, In x labels <-> In x (normalized_labels raw) \/ x = BLOG_CATEGORY
     end.
Proof.
  cbv zeta. unfold post_title_and_labels.
  destruct (read_title_and_tags full_html_content) as [post_title raw].
  cbn [fst snd].
  set (base := match clean_labels raw with
               | [] => clean_labels raw ++ default_labels post_title
               | _ :: _ => clean_labels raw
               end).
  destruct (with_category_spec base) as [Hin [Hiff [Hnd Hsuf]]].
  cbv zeta in Hin, Hiff, Hnd, Hsuf.
  assert (Hbase : Forall is_lowercase base).
  { subst base. pose proof (clean_labels_lowercase raw) as Hc.
    destruct (clean_labels raw); [|exact Hc].
    apply default_labels_lowercase. }
  split; [exact Hin|]. split.
  - apply Forall_forall. intros x Hx. apply Hiff in Hx. destruct Hx as [Hx| ->].
    + revert x Hx. now apply Forall_forall.
    + reflexivity.
  - subst base. destruct (clean_labels raw) as [|c cs] eqn:Ec.
    + split; [apply firstn_le_length | exact Hsuf].
    + split.
      * apply Hnd. rewrite <- Ec. apply NoDup_nodup.
      * intros x. rewrite Hiff. rewrite <- Ec. unfold clean_labels, list_set.
        rewrite nodup_In. reflexivity.
Qed.

(** C7.  For a page without a metadata block whose heading is "Bitcoin
    and Bitcoin Cash Rally", the labels come from the words of the title,
    and the request to the blog host carries the label "bitcoin" twice:
    the repetitions are removed before the words of the title are taken,
    not after. *)
Theorem post_to_blogger_repeats_label :
  let html := "<html><h1>Bitcoin and Bitcoin Cash Rally</h1></html>" in
  let run := post_to_blogger full_config "blog_drafts/crypto/bitcoin.html" html
               smooth_world 0 in
  trace_of run
  = [BloggerInsert "Bitcoin and Bitcoin Cash Rally"
       ["bitcoin"; "bitcoin"; "cash"; "rally"; "crypto"]]
  /\ value_of run = Ok true
  /\ ~ NoDup ["bitcoin"; "bitcoin"; "cash"; "rally"; "crypto"].
Proof.
  cbv zeta. split; [vm_compute; reflexivity|]. split; [vm_compute; reflexivity|].
  intros H. inversion H as [|? ? Hn _]. apply Hn. now left.
Qed.

Example post_labels_from_metadata :
  post_title_and_labels
    ("title: Market Watch" ++ Py.NL ++ "categories: [Crypto, DeFi]" ++ Py.NL
     ++ "tags: [defi, Yield , defi]" ++ Py.NL)%string
  = ("Market Watch", ["yield"; "crypto"; "defi"]).
Proof. vm_compute. reflexivity. Qed.

(** ** Wrapping the title *)











Section Wrapping.

Variable bbox : string -> Z * Z * Z * Z.
Variable max_width : Z.






End Wrapping.

(** ** The image compositor *)












(** ** Running computations *)

Lemma bind_ok {A B} (c : M A) (k : A -> M B) (w : World) (n : nat)
  (a : A) (n1 : nat) (t1 : list event) :
  c w n = (Ok a, n1, t1) ->
  bind c k w n = (fst (fst (k a w n1)), snd (fst (k a w n1)), t1 ++ snd (k a w n1)).
Proof. intros H. unfold bind. rewrite H. now destruct (k a w n1) as [[? ?] ?]. Qed.

Lemma bind_raise {A B} (c : M A) (k : A -> M B) (w : World) (n : nat)
  (e : exn) (n1 : nat) (t1 : list event) :
  c w n = (Raise e, n1, t1) -> bind c k w n = (Raise e, n1, t1).
Proof. intros H. unfold bind. now rewrite H. Qed.

(** ** Floats *)








(** ** The retry loops *)





Lemma gemini_attempts_S (r i max d : nat) (m : model) (p : prompt)
  (w : World) (n : nat) :
  gemini_attempts (S r) i max d m p w n
  = match text_attempt w n p with
    | Ok text => (Ok (Some text), S n, [GeminiGenerate m p])
    | Raise e =>
        if retryable e && (i <? max - 1)
        then
          match gemini_attempts r (S i) max d m p w (S (S n)) with
          | (res, n', t) =>
              (res, n',
               GeminiGenerate m p
               :: Sleep (int_plus_float (Z.of_nat (d * 2 ^ i)) (jitter_at w (S n)))
               :: t)
          end
        else (Raise e, S n, [GeminiGenerate m p])
    end.
Proof.
  cbn [gemini_attempts].
  unfold text_attempt, random_uniform, sleep, jitter_at.
  unfold try_, bind, ask, ask_quiet, emit, ret, raise.
  destruct (generate_content w n p) as [text|e].
  - destruct (negb (Py.truthy text) || (Py.strip text =? "")%string);
      [|reflexivity].
    cbn [retryable is_RequestException is_ValueError orb andb].
    destruct (i <? max - 1); [|reflexivity].
    cbv beta iota zeta.
    now destruct (gemini_attempts r (S i) max d m p w (S (S n))) as [[? ?] ?].
  - destruct (retryable e); [|reflexivity]. cbn [andb].
    destruct (i <? max - 1); [|reflexivity].
    cbv beta iota zeta.
    now destruct (gemini_attempts r (S i) max d m p w (S (S n))) as [[? ?] ?].
Qed.



Lemma newsapi_attempts_S (r i max : nat) (query : string) (k : nat)
  (w : World) (n : nat) :
  newsapi_attempts (S r) i max query k w n
  = match newsapi w n with
    | Ok articles => (Ok (Some articles), S n, [NewsApiGet query k])
    | Raise e =>
        if is_RequestException e
        then
          if i <? max - 1
          then
            match newsapi_attempts r (S i) max query k w (S n) with
            | (res, n', t) =>
                (res, n',
                 NewsApiGet query k :: Sleep (inject_Z (2 ^ Z.of_nat i)) :: t)
            end
          else (Ok (Some []), S n, [NewsApiGet query k])
        else if is_JSONDecodeError e
             then (Ok (Some []), S n, [NewsApiGet query k])
             else (Raise e, S n, [NewsApiGet query k])
    end.
Proof.
  cbn [newsapi_attempts].
  unfold try_, bind, ask, sleep, emit, ret, raise.
  destruct (newsapi w n) as [[|a l]|e]; try reflexivity.
  destruct (is_RequestException e).
  - destruct (i <? max - 1); [|reflexivity].
    now destruct (newsapi_attempts r (S i) max query k w (S n)) as [[? ?] ?].
  - destruct (is_JSONDecodeError e); reflexivity.
Qed.



(** What the handler of the image loop does with an exception raised
    after the events [t1], at tick [n1]. *)
Lemma together_attempts_S (r i max d : nat) (fp : string) (w : World) (n : nat) :
  let handled (e : exn) (n1 : nat) (t1 : list event) :=
    if is_RequestException e && (i <? max - 1)
    then
      match together_attempts r (S i) max d fp w (S n1) with
      | (res, n', t) =>
          (res, n',
           t1 ++ Sleep (int_plus_float (Z.of_nat (d * 2 ^ i)) (jitter_at w n1)) :: t)
      end
    else (Ok None, n1, t1) in
  together_attempts (S r) i max d fp w n
  = match together w n with
    | Ok (Some image_url) =>
        match download w (S n) image_url with
        | Ok bytes =>
            (Ok (Some bytes), S (S n), [TogetherPost fp; ImageDownload image_url])
        | Raise e => handled e (S (S n)) [TogetherPost fp; ImageDownload image_url]
        end
    | Ok None => (Ok None, S n, [TogetherPost fp])
    | Raise e => handled e (S n) [TogetherPost fp]
    end.
Proof.
  cbv zeta. cbn [together_attempts].
  unfold random_uniform, sleep, jitter_at.
  unfold try_, bind, ask, ask_quiet, emit, ret, raise.
  destruct (together w n) as [[image_url|]|e].
  - destruct (download w (S n) image_url) as [bytes|e]; [reflexivity|].
    destruct (is_RequestException e); [|reflexivity]. cbn [andb].
    destruct (i <? max - 1); [|reflexivity].
    cbv beta iota zeta.
    now destruct (together_attempts r (S i) max d fp w (S (S (S n)))) as [[? ?] ?].
  - reflexivity.
  - destruct (is_RequestException e); [|reflexivity]. cbn [andb].
    destruct (i <? max - 1); [|reflexivity].
    cbv beta iota zeta.
    now destruct (together_attempts r (S i) max d fp w (S (S n))) as [[? ?] ?].
Qed.



(** The jitter can bring the sleep to two seconds above the delay: with
    the largest draw, the float sum of 5 and the jitter is 7. *)
Example int_plus_float_reaches_two :
  (int_plus_float 5 (0 + (2 - 0) * (Z.of_N (2 ^ 53 - 1) # 2 ^ 53)) == 7)%Q.
Proof. vm_compute. reflexivity. Qed.




(** ** Trending topics *)

Lemma length_fallback_topics (num_topics : nat) :
  length (fallback_topics num_topics) = num_topics.
Proof. apply repeat_length. Qed.

Lemma length_topics_of_response (w : World) (num_topics : nat) (text : string) :
  length (topics_of_response w num_topics text) = num_topics.
Proof.
  unfold topics_of_response.
  destruct (json_loads w (Py.strip text)) as [[| | | |items|]|];
    try apply length_fallback_topics.
  - destruct (Nat.leb_spec num_topics (length items));
      [now apply firstn_length_le | apply length_fallback_topics].
  - cbv zeta.
    destruct (Nat.leb_spec num_topics (length (findall1 F0 quoted_re text)));
      [|apply length_fallback_topics].
    rewrite length_map. now apply firstn_length_le.
Qed.

(** [extract_multiple_trending_topics] returns, and returns as many items
    as it is asked for. *)
Lemma extract_multiple_trending_topics_returns (cfg : Config)
  (articles_list : list article) (num_topics : nat) (w : World) (n : nat) :
  exists topics,
    value_of (extract_multiple_trending_topics cfg articles_list num_topics w n)
    = Ok topics
    /\ length topics = num_topics.
Proof.
  assert (Hfb : forall n' t,
            exists topics,
              value_of (@Ok (list json) (fallback_topics num_topics), n', t) = Ok topics
              /\ length topics = num_topics).
  { intros n' t. eexists. split; [reflexivity | apply length_fallback_topics]. }
  unfold extract_multiple_trending_topics, RESEARCH_MODEL.
  destruct (GEMINI_API_KEY cfg); [|apply Hfb].
  destruct articles_list as [|a l]; [apply Hfb|].
  destruct (Py.truthy (text_to_analyze_of (a :: l))); cbn [negb]; [|apply Hfb].
  unfold try_, bind, response_text, reading, ret, raise.
  destruct (_gemini_generate_content_with_retry RESEARCH_MODEL_ _ w n)
    as [[[[text|]|e] n1] t1]; try apply Hfb.
  destruct (json_loads w (Py.strip text)) as [[| | | |items|]|]; try apply Hfb.
  - destruct (Nat.leb_spec num_topics (length items)); [|apply Hfb].
    eexists. split; [reflexivity | now apply firstn_length_le].
  - cbv zeta.
    destruct (Nat.leb_spec num_topics (length (findall1 F0 quoted_re text)));
      [|apply Hfb].
    eexists. split; [reflexivity|]. rewrite length_map. now apply firstn_length_le.
Qed.

(** X19.  [extract_multiple_trending_topics] returns exactly [num_topics]
    items, and it never raises.  With a model, articles, usable text and
    a response from the wrapper, the items are those of
    [topics_of_response]: the first items of the parsed array, whatever
    they are, or the first quoted strings of a text that is not JSON; in
    every other case they are copies of the fallback topic. *)
Lemma extract_multiple_trending_topics_items (cfg : Config)
  (articles_list : list article) (num_topics : nat) (w : World) (n : nat) :
  let run := extract_multiple_trending_topics cfg articles_list num_topics w n in
  let asked :=
    _gemini_generate_content_with_retry RESEARCH_MODEL_
      (TopicsPrompt num_topics (Py.strip (text_to_analyze_of articles_list))) w n in
  exists topics,
    value_of run = Ok topics
    /\ length topics = num_topics
    /\ topics
       = match RESEARCH_MODEL cfg, articles_list,
               Py.truthy (text_to_analyze_of articles_list), value_of asked with
         | Some _, _ :: _, true, Ok (Some text) =>
             topics_of_response w num_topics text
         | _, _, _, _ => fallback_topics num_topics
         end.
Proof.
  cbv zeta. unfold extract_multiple_trending_topics, RESEARCH_MODEL.
  destruct (GEMINI_API_KEY cfg);
    [|eexists; split; [reflexivity | split; [apply length_fallback_topics | reflexivity]]].
  destruct articles_list as [|a l];
    [eexists; split; [reflexivity | split; [apply length_fallback_topics | reflexivity]]|].
  set (articles := a :: l).
  destruct (Py.truthy (text_to_analyze_of articles)); cbn [negb];
    [|eexists; split; [reflexivity | split; [apply length_fallback_topics | reflexivity]]].
  unfold try_, bind, response_text, reading, ret, raise, value_of.
  destruct (_gemini_generate_content_with_retry RESEARCH_MODEL_ _ w n)
    as [[[[text|]|e] n1] t1]; cbn [fst snd];
    try (eexists; split;
         [reflexivity | split; [apply length_fallback_topics | reflexivity]]).
  exists (topics_of_response w num_topics text).
  split; [|split; [apply length_topics_of_response | reflexivity]].
  unfold topics_of_response.
  destruct (json_loads w (Py.strip text)) as [[| | | |items|]|]; try reflexivity.
  - now destruct (num_topics <=? length items).
  - cbv zeta. now destruct (num_topics <=? length (findall1 F0 quoted_re text)).
Qed.

(** C4.  When the model answers the request for topics with the array
    [[1, 2, 3]], the function returns the three numbers: the items of the
    array are not checked to be strings.  [main] takes the first of them
    for a topic, asks for its articles and its picture, and stops with a
    [TypeError] when it makes a file name of the number. *)
Theorem extract_multiple_trending_topics_returns_numbers :
  value_of (extract_multiple_trending_topics full_config sample_articles 3
              number_topics_world 0)
  = Ok [JNum "1"; JNum "2"; JNum "3"]
  /\ value_of (main full_config number_topics_world 0)
     = Raise (OtherException "TypeError")
  /\ stages (trace_of (main full_config number_topics_world 0))
     = [SFetch; STopics; SFilter; SImage; SDownload].
Proof. repeat split; vm_compute; reflexivity. Qed.

(** When the image service delivers no picture the numbers go through the
    loop: for each of them the articles and the picture are asked for, the
    research agent fails on the slice of the topic without a request, and
    the run ends normally with nothing written. *)
Example main_number_topics_without_picture :
  value_of (main full_config number_topics_no_picture_world 0) = Ok tt
  /\ stages (trace_of (main full_config number_topics_no_picture_world 0))
     = [SFetch; STopics; SFilter; SImage; SFilter; SImage; SFilter; SImage].
Proof. split; vm_compute; reflexivity. Qed.

(** An index written with a fraction is compared as the float it is read
    to: twenty nines after the point are read as 1.0, which is not below
    the length of one article, so the index is skipped; 0.5 is below it
    and is no index. *)
Example pick_articles_float_index :
  pick_articles sample_articles [JNum "0.99999999999999999999"] = Some []
  /\ pick_articles sample_articles [JNum "0.5"] = None
  /\ pick_articles sample_articles [JNum "1e400"] = Some [].
Proof. repeat split; vm_compute; reflexivity. Qed.

(** The constants [json.loads] accepts beyond the grammar: [NaN] and
    [Infinity] are below no length and are passed over, [-Infinity] is
    below every length and is no index. *)
Example pick_articles_constants :
  pick_articles sample_articles [JNum "NaN"; JNum "Infinity"; JNum "0"]
  = Some sample_articles
  /\ pick_articles sample_articles [JNum "-Infinity"] = None.
Proof. split; vm_compute; reflexivity. Qed.

(** A number is falsy when the value Python holds is zero: the literal
    [1e-400] is read as the float 0.0, the smallest double is not zero. *)
Example json_truthy_numbers :
  json_truthy (JNum "0") = false
  /\ json_truthy (JNum "-0.0") = false
  /\ json_truthy (JNum "1e-400") = false
  /\ json_truthy (JNum "5e-324") = true
  /\ json_truthy (JNum "7") = true
  /\ json_truthy (JNum "NaN") = true.
Proof. repeat split; vm_compute; reflexivity. Qed.

Example extract_multiple_trending_topics_quoted :
  value_of (extract_multiple_trending_topics full_config sample_articles 2
              (parrot_world ("Topics: " ++ quoted "Bitcoin ETF" ++ " and "
                             ++ quoted "Layer 2" ++ ".")%string) 0)
  = Ok [JStr "Bitcoin ETF"; JStr "Layer 2"].
Proof. vm_compute. reflexivity. Qed.

(** ** The research agent *)

(** What the agent returns.  It never raises.  Without a model, and for
    a topic that takes no slice, it returns [None] without a request.
    With a response from the wrapper it returns the value of
    [research_of_response]; without a response it returns [None]. *)
Lemma perform_research_agent_value (cfg : Config) (target_topic : json)
  (competitors : list string) (w : World) (n : nat) :
  let asked :=
    _gemini_generate_content_with_retry RESEARCH_MODEL_
      (ResearchPrompt (topic_text w target_topic) (firstn 5 competitors)) w n in
  value_of (perform_research_agent cfg target_topic competitors w n)
  = Ok match RESEARCH_MODEL cfg, sliceable target_topic, value_of asked with
       | Some _, true, Ok (Some text) => research_of_response w text
       | _, _, _ => JNull
       end.
Proof.
  cbv zeta. unfold perform_research_agent, RESEARCH_MODEL.
  destruct (GEMINI_API_KEY cfg); [|reflexivity].
  unfold try_, bind, response_text, reading, ret, raise, value_of,
    research_of_response.
  destruct (sliceable target_topic); [|reflexivity].
  destruct (_gemini_generate_content_with_retry RESEARCH_MODEL_ _ w n)
    as [[[[text|]|e] n1] t1]; cbn [fst snd]; try reflexivity.
  destruct (search (DOTALL F0) json_fence_re text) as [json_match|]; cbn [fst snd].
  - now destruct (json_loads w (Py.strip (group 1 json_match))).
  - now destruct (json_loads w (Py.strip text)).
Qed.

(** C5, as the sentence has it, fails on a response that is valid JSON as
    raw text and quotes a fenced block inside a string: the content of the
    fence is tried, does not parse, and the agent returns [None]. *)
Lemma perform_research_agent_fence_first :
  let w := parrot_world outline_with_fence in
  json_loads w (Py.strip outline_with_fence)
  = Some (JObj [("blog_outline", JStr "```json x ```")])
  /\ value_of (perform_research_agent full_config (JStr "Bitcoin") [] w 0) = Ok JNull.
Proof. split; vm_compute; reflexivity. Qed.

Example perform_research_agent_null_is_none :
  value_of (perform_research_agent full_config (JStr "Bitcoin") []
              (parrot_world "null") 0)
  = Ok JNull.
Proof. vm_compute. reflexivity. Qed.

Example perform_research_agent_fenced :
  value_of (perform_research_agent full_config (JStr "Bitcoin") [] smooth_world 0)
  = Ok (JObj [("suggested_blog_title", JStr "T")]).
Proof. vm_compute. reflexivity. Qed.


Example transform_image_with_logo :
  let t := trace_of (transform_image "PNG" "Bitcoin hits record" "crypto" "crypto"
                       "bitcoin"
                       (scripted_world (fun _ => Ok sample_articles)
                          (fun _ => sample_answers)
                          (fun _ => Ok (Some "https://img.test/1.png")) (Some 120%Z))
                       0) in
  map (filter is_logo) (composited t) = [[LogoOverlay 1056 24 120 54]].
Proof. vm_compute. reflexivity. Qed.

(** A title of seven lines, each 24 rows high, begins at row 699 and
    puts its seventh line at row 843, the first row under the canvas. *)
Example transform_image_long_title :
  let word := "decentralised-finance-liquidity-providers-and-their-yields" in
  let title := Py.join " " (repeat word 7) in
  let t := trace_of (transform_image "PNG" title "crypto" "crypto" "x" smooth_world 0) in
  map (map (fun l => match l with TextMain _ y _ => y | _ => 0%Z end))
    (map (filter is_text) (composited t))
  = [[699; 723; 747; 771; 795; 819; 843]%Z]
  /\ final_canvas_height = 843%Z.
Proof. split; vm_compute; reflexivity. Qed.

(** ** Traces of composed computations *)

Lemma stages_app (a b : list event) : stages (a ++ b) = stages a ++ stages b.
Proof. apply flat_map_app. Qed.

Lemma trace_bind {A B} (c : M A) (k : A -> M B) (w : World) (n : nat) :
  trace_of (bind c k w n)
  = trace_of (c w n)
    ++ match value_of (c w n) with
       | Ok a => trace_of (k a w (tick_of (c w n)))
       | Raise _ => []
       end.
Proof.
  unfold bind, trace_of, value_of, tick_of.
  destruct (c w n) as [[[a|e] n1] t1]; cbn [fst snd].
  - now destruct (k a w n1) as [[? ?] ?].
  - now rewrite app_nil_r.
Qed.

Lemma trace_try {A} (c : M A) (h : exn -> option (M A)) (w : World) (n : nat) :
  trace_of (try_ c h w n)
  = trace_of (c w n)
    ++ match value_of (c w n) with
       | Ok _ => []
       | Raise e =>
           match h e with
           | Some k => trace_of (k w (tick_of (c w n)))
           | None => []
           end
       end.
Proof.
  unfold try_, trace_of, value_of, tick_of.
  destruct (c w n) as [[[a|e] n1] t1]; cbn [fst snd].
  - now rewrite app_nil_r.
  - destruct (h e) as [k|]; [|now rewrite app_nil_r].
    now destruct (k w n1) as [[? ?] ?].
Qed.

Lemma silent_ret {A} (a : A) : silent (ret a).
Proof. intros w n. reflexivity. Qed.

Lemma silent_raise {A} (e : exn) : silent (@raise A e).
Proof. intros w n. reflexivity. Qed.

Lemma silent_reading {A} (f : World -> A) : silent (reading f).
Proof. intros w n. reflexivity. Qed.

Lemma silent_bind {A B} (c : M A) (k : A -> M B) :
  silent c -> (forall a, silent (k a)) -> silent (bind c k).
Proof.
  intros Hc Hk w n. rewrite trace_bind, Hc.
  destruct (value_of (c w n)); [apply Hk | reflexivity].
Qed.

Lemma silent_response_text (response : option string) : silent (response_text response).
Proof. destruct response; [apply silent_ret | apply silent_raise]. Qed.

Lemma bind_reading {A B} (f : World -> A) (k : A -> M B) (w : World) (n : nat) :
  bind (reading f) k w n = k (f w) w n.
Proof. unfold bind, reading. now destruct (k (f w) w n) as [[? ?] ?]. Qed.

Lemma bind_ret {A B} (a : A) (k : A -> M B) (w : World) (n : nat) :
  bind (ret a) k w n = k a w n.
Proof. unfold bind, ret. now destruct (k a w n) as [[? ?] ?]. Qed.

Lemma bind_lift {A B} (r : result A) (k : A -> M B) (w : World) (n : nat) :
  bind (lift r) k w n
  = match r with
    | Ok a => k a w n
    | Raise e => (Raise e, n, [])
    end.
Proof.
  unfold bind, lift. destruct r as [a|e]; [|reflexivity].
  now destruct (k a w n) as [[? ?] ?].
Qed.

Lemma trace_try_silent {A} (c : M A) (h : exn -> option (M A)) (w : World) (n : nat) :
  (forall e k', h e = Some k' -> silent k') ->
  trace_of (try_ c h w n) = trace_of (c w n).
Proof.
  intros Hh. rewrite trace_try.
  destruct (value_of (c w n)) as [a|e]; [apply app_nil_r|].
  destruct (h e) as [k'|] eqn:Ee; [|apply app_nil_r].
  now rewrite (Hh e k' Ee), app_nil_r.
Qed.

Lemma trace_bind_silent {A B} (c : M A) (k : A -> M B) (w : World) (n : nat) :
  (forall a, silent (k a)) ->
  trace_of (bind c k w n) = trace_of (c w n).
Proof.
  intros Hk. rewrite trace_bind.
  destruct (value_of (c w n)); [rewrite Hk|]; apply app_nil_r.
Qed.

(** A [try] around a request followed by silent work, with silent
    handlers, leaves the trace of the request. *)
Lemma trace_try_bind_silent {A B} (c : M A) (k : A -> M B)
  (h : exn -> option (M B)) (w : World) (n : nat) :
  (forall a, silent (k a)) ->
  (forall e k', h e = Some k' -> silent k') ->
  trace_of (try_ (bind c k) h w n) = trace_of (c w n).
Proof.
  intros Hk Hh. rewrite trace_try, trace_bind.
  assert (E : match value_of (c w n) with
              | Ok a => trace_of (k a w (tick_of (c w n)))
              | Raise _ => []
              end = []).
  { destruct (value_of (c w n)); [apply Hk | reflexivity]. }
  rewrite E, app_nil_r.
  destruct (value_of (bind c k w n)) as [b|e]; [apply app_nil_r|].
  destruct (h e) as [k'|] eqn:Ee; [|apply app_nil_r].
  now rewrite (Hh e k' Ee), app_nil_r.
Qed.

(** ** The stages of the text requests *)

Lemma gemini_attempts_stages (max d : nat) (m : model) (p : prompt) (w : World)
  (r : nat) :
  forall i n,
    exists k, 1 <= k <= S r
              /\ stages (trace_of (gemini_attempts (S r) i max d m p w n))
                 = repeat (prompt_stage p) k.
Proof.
  induction r as [|r IH]; intros i n; rewrite gemini_attempts_S.
  - destruct (text_attempt w n p) as [text|e]; [exists 1; split; [lia | reflexivity]|].
    destruct (retryable e && (i <? max - 1)); exists 1; (split; [lia | reflexivity]).
  - destruct (text_attempt w n p) as [text|e]; [exists 1; split; [lia | reflexivity]|].
    destruct (retryable e && (i <? max - 1));
      [|exists 1; split; [lia | reflexivity]].
    destruct (IH (S i) (S (S n))) as [k [Hk E]].
    destruct (gemini_attempts (S r) (S i) max d m p w (S (S n))) as [[res n'] t].
    exists (S k). split; [lia|].
    unfold trace_of in *. cbn [snd] in *.
    change (stages (GeminiGenerate m p :: Sleep _ :: t))
      with (prompt_stage p :: stages t).
    now rewrite E.
Qed.

(** A call of the wrapper makes between one and five requests. *)
Lemma wrapper_stages (m : model) (p : prompt) (w : World) (n : nat) :
  exists k, 1 <= k <= 5
            /\ stages (trace_of (_gemini_generate_content_with_retry m p w n))
               = repeat (prompt_stage p) k.
Proof. apply (gemini_attempts_stages 5 5 m p w 4 0 n). Qed.

Lemma extract_multiple_trending_topics_stages (cfg : Config)
  (articles_list : list article) (num_topics : nat) (w : World) (n : nat) :
  exists k, k <= 5
            /\ stages (trace_of (extract_multiple_trending_topics cfg articles_list
                                   num_topics w n))
               = repeat STopics k.
Proof.
  unfold extract_multiple_trending_topics.
  destruct (RESEARCH_MODEL cfg) as [m|]; [|exists 0; split; [lia | reflexivity]].
  destruct articles_list as [|a l]; [exists 0; split; [lia | reflexivity]|].
  destruct (negb (Py.truthy (text_to_analyze_of (a :: l))));
    [exists 0; split; [lia | reflexivity]|].
  rewrite trace_try_bind_silent.
  - destruct (wrapper_stages m (TopicsPrompt num_topics
                                  (Py.strip (text_to_analyze_of (a :: l)))) w n)
      as [k [Hk E]].
    exists k. split; [lia | exact E].
  - intros response. apply silent_bind; [apply silent_response_text|].
    intros text. apply silent_bind; [apply silent_reading|].
    intros [[| | | |topics|]|]; try apply silent_ret.
    + destruct (num_topics <=? length topics); apply silent_ret.
    + cbv zeta. destruct (num_topics <=? _); apply silent_ret.
  - intros e k' [= <-]. apply silent_ret.
Qed.

(** The requests that pick the articles of a topic: between one and five
    with the text model, none without it. *)
Lemma filter_articles_by_topic_stages (cfg : Config) (articles : list article)
  (topic : json) (w : World) (n : nat) :
  exists k, (if GEMINI_API_KEY cfg then 1 <= k <= 5 else k = 0)
            /\ stages (trace_of (filter_articles_by_topic cfg articles topic w n))
               = repeat SFilter k.
Proof.
  unfold filter_articles_by_topic, RESEARCH_MODEL.
  destruct (GEMINI_API_KEY cfg); [|exists 0; split; reflexivity].
  rewrite bind_reading, trace_try_bind_silent.
  - apply (wrapper_stages RESEARCH_MODEL_ (FilterPrompt _ _)).
  - intros response. apply silent_bind; [apply silent_response_text|].
    intros text. apply silent_bind; [apply silent_reading|].
    intros [[| | | |indices|]|]; try apply silent_ret; try apply silent_raise.
    destruct (pick_articles articles indices); [apply silent_ret | apply silent_raise].
  - intros e k' [= <-]. apply silent_ret.
Qed.

(** The requests of the research agent: at most five, and at least one
    whenever the agent returns something other than [None]. *)
Lemma perform_research_agent_stages (cfg : Config) (target_topic : json)
  (competitors : list string) (w : World) (n : nat) :
  let run := perform_research_agent cfg target_topic competitors w n in
  exists k, k <= 5
            /\ stages (trace_of run) = repeat SResearch k
            /\ (k = 0 -> value_of run = Ok JNull).
Proof.
  cbv zeta. unfold perform_research_agent, RESEARCH_MODEL.
  destruct (GEMINI_API_KEY cfg); [|exists 0; repeat split; lia].
  rewrite bind_reading.
  destruct (sliceable target_topic); [|exists 0; repeat split; lia].
  rewrite trace_try_silent by (intros e k' [= <-]; apply silent_ret).
  rewrite bind_ret, trace_bind_silent.
  - destruct (wrapper_stages RESEARCH_MODEL_
                (ResearchPrompt (topic_text w target_topic) (firstn 5 competitors)) w n)
      as [k [Hk E]].
    exists k. split; [lia|]. split; [exact E | lia].
  - intros response. apply silent_bind; [apply silent_response_text|].
    intros text. destruct (search (DOTALL F0) json_fence_re text).
    + apply silent_bind; [apply silent_reading|].
      intros [v|]; [apply silent_ret | apply silent_raise].
    + apply silent_bind; [apply silent_reading|].
      intros [v|]; apply silent_ret.
Qed.

(** The requests of the content agent: at most five, and at least one
    whenever the agent returns a text. *)
Lemma generate_content_agent_stages (cfg : Config) (data : article_data)
  (research_output : json) (image_path : option string) (w : World) (n : nat) :
  let run := generate_content_agent cfg data research_output image_path w n in
  exists k, k <= 5
            /\ stages (trace_of run) = repeat SContent k
            /\ (k = 0 -> forall markdown, value_of run <> Ok (Some markdown)).
Proof.
  cbv zeta. unfold generate_content_agent, CONTENT_MODEL.
  destruct (GEMINI_API_KEY cfg);
    [|exists 0; repeat split; [lia | discriminate]].
  rewrite bind_reading.
  destruct (negb (content_inputs_ok w research_output));
    [exists 0; repeat split; [lia | discriminate]|].
  cbv zeta.
  match goal with
  | |- context [if sliceable ?t then _ else _] => destruct (sliceable t)
  end; [|exists 0; repeat split; [lia | discriminate]].
  rewrite trace_try_silent by (intros e k' [= <-]; apply silent_ret).
  rewrite bind_ret, trace_bind_silent.
  - match goal with
    | |- context [_gemini_generate_content_with_retry ?m ?p w n] =>
        destruct (wrapper_stages m p w n) as [k [Hk E]]
    end.
    exists k. split; [lia|]. split; [exact E | lia].
  - intros response. apply silent_bind; [apply silent_response_text|].
    intros text. apply silent_bind; [apply silent_reading|].
    intros block. apply silent_ret.
Qed.

(** ** The stages of the image part *)

Lemma together_attempts_stages (max d : nat) (fp : string) (w : World) (r : nat) :
  forall i n,
    let s := stages (trace_of (together_attempts r i max d fp w n)) in
    Forall (fun x => x = SImage \/ x = SDownload) s
    /\ image_requests s <= r.
Proof.
  unfold image_requests.
  induction r as [|r IH]; intros i n; cbv zeta.
  - split; [constructor | cbn; lia].
  - pose proof (together_attempts_S r i max d fp w n) as E. cbv zeta in E.
    rewrite E. clear E.
    assert (Hrec : forall e n1 t1,
              Forall (fun x => x = SImage \/ x = SDownload) (stages t1) ->
              length (filter (fun x => match x with SImage => true | _ => false end)
                        (stages t1)) = 1 ->
              let s :=
                stages (trace_of
                  (if is_RequestException e && (i <? max - 1)
                   then
                     match together_attempts r (S i) max d fp w (S n1) with
                     | (res, n', t) =>
                         (res, n',
                          t1 ++ Sleep (int_plus_float (Z.of_nat (d * 2 ^ i))
                                         (jitter_at w n1))
                             :: t)
                     end
                   else (@Ok (option string) None, n1, t1))) in
              Forall (fun x => x = SImage \/ x = SDownload) s
              /\ length (filter (fun x => match x with SImage => true | _ => false end) s)
                 <= S r).
    { intros e n1 t1 H1 H2. cbv zeta.
      destruct (is_RequestException e && (i <? max - 1)).
      - destruct (IH (S i) (S n1)) as [IH1 IH2]. cbv zeta in IH1, IH2.
        destruct (together_attempts r (S i) max d fp w (S n1)) as [[res n'] t].
        unfold trace_of in *. cbn [snd] in *.
        rewrite stages_app.
        change (stages (Sleep _ :: t)) with (stages t).
        split; [apply Forall_app; now split|].
        rewrite filter_app, length_app. lia.
      - unfold trace_of. cbn [snd]. split; [exact H1 | lia]. }
    destruct (together w n) as [[u|]|e].
    + destruct (download w (S n) u).
      * cbn. split; [repeat (apply Forall_cons; [auto|]); apply Forall_nil | lia].
      * apply Hrec; [repeat (apply Forall_cons; [auto|]); apply Forall_nil | reflexivity].
    + cbn. split; [repeat (apply Forall_cons; [auto|]); apply Forall_nil | lia].
    + apply Hrec; [repeat (apply Forall_cons; [auto|]); apply Forall_nil | reflexivity].
Qed.

(** A loop that makes a pass begins with a request. *)
Lemma together_attempts_first (max d : nat) (fp : string) (w : World) (r i n : nat) :
  exists t, trace_of (together_attempts (S r) i max d fp w n) = TogetherPost fp :: t.
Proof.
  pose proof (together_attempts_S r i max d fp w n) as E. cbv zeta in E.
  rewrite E. clear E.
  destruct (together w n) as [[u|]|e]; [destruct (download w (S n) u) as [?|e]| |];
    try (eexists; reflexivity);
    (destruct (is_RequestException e && (i <? max - 1));
     [destruct (together_attempts r (S i) max d fp w _) as [[res n'] t]|];
     eexists; reflexivity).
Qed.

Lemma transform_image_stages (bytes title_text category_text folder safe : string)
  (w : World) (n : nat) :
  let s := stages (trace_of (transform_image bytes title_text category_text folder
                               safe w n)) in
  s = [] \/ s = [SComposite; SWriteImage].
Proof.
  cbv zeta. unfold transform_image.
  destruct (Py.truthy bytes); [|now left]. cbn [negb].
  unfold try_, bind, reading, emit, ask, ask_quiet, ret, raise, trace_of.
  destruct (decode_image w bytes) as [[]|e]; cbn.
  - destruct (write_file w (S n) _); cbn; now right.
  - now left.
Qed.

Lemma image_requests_app (a b : list stage) :
  image_requests (a ++ b) = image_requests a + image_requests b.
Proof. unfold image_requests. now rewrite filter_app, length_app. Qed.

(** The image part of an iteration, with at least one request when the
    image service is configured and nothing at all when it is not. *)
Lemma featured_image_stages (cfg : Config) (trending_topic consolidated_topic : json)
  (current_category : string) (w : World) (n : nat) :
  let s := stages (trace_of (featured_image cfg trending_topic consolidated_topic
                               current_category w n)) in
  image_part s
  /\ (if TOGETHER_API_KEY cfg then 1 <= image_requests s else s = []).
Proof.
  assert (Hnone : image_part []).
  { exists [], []. repeat split; [constructor | cbn; lia | now left]. }
  cbv zeta. unfold featured_image.
  destruct (TOGETHER_API_KEY cfg) eqn:Hkey; [|split; [exact Hnone | reflexivity]].
  rewrite bind_reading, trace_bind, stages_app.
  unfold generate_image_from_hf, generate_image_from_hf_. rewrite Hkey. cbn [negb].
  set (fp := (together_image_prompt (topic_text w trending_topic) ++ " --ar 16:9")%string).
  destruct (together_attempts_stages 3 5 fp w 3 0 n) as [H1 H2].
  destruct (together_attempts_first 3 5 fp w 2 0 n) as [t0 H3].
  cbv zeta in H1, H2.
  set (run := together_attempts 3 0 3 5 fp w n) in *.
  assert (H4 : 1 <= image_requests (stages (trace_of run))).
  { rewrite H3. unfold image_requests. cbn. lia. }
  assert (Hreq : forall finish,
             finish = [] \/ finish = [SComposite; SWriteImage] ->
             image_part (stages (trace_of run) ++ finish)
             /\ 1 <= image_requests (stages (trace_of run) ++ finish)).
  { intros finish Hf. split.
    - exists (stages (trace_of run)), finish. repeat split; assumption.
    - rewrite image_requests_app. lia. }
  destruct (value_of run) as [[bytes|]|e]; try (apply Hreq; now left).
  destruct (Py.truthy bytes); [|apply Hreq; now left].
  destruct consolidated_topic; cbn [sanitize_filename_of];
    try (apply Hreq; now left).
  rewrite !bind_reading. apply Hreq, transform_image_stages.
Qed.

(** ** The stages of saving and posting *)

(** Saving renders and writes; with a title that is no string it stops
    before the rendering or before the file. *)
Lemma save_blog_post_stages (topic : json) (markdown category : string)
  (image_path image_b64 source_url : option string) (w : World) (n : nat) :
  let run := save_blog_post topic markdown category image_path image_b64
               source_url w n in
  let s := stages (trace_of run) in
  (s = [] \/ s = [SRender] \/ s = [SRender; SWrite])
  /\ (forall r, value_of run = Ok r -> s = [SRender; SWrite]).
Proof.
  cbv zeta. unfold save_blog_post.
  destruct (parse_markdown_metadata markdown) as [metadata body].
  set (title := match dict_get "title" metadata with
                | Some t => JStr t
                | None => topic
                end).
  rewrite bind_reading.
  destruct (negb (Py.truthy _));
    destruct title; cbn [sanitize_filename_of];
    unfold bind, reading, emit, ask, ret, raise, trace_of, value_of;
    cbn [fst snd app stages flat_map stage_of];
    try (destruct (write_file w n _));
    cbn [fst snd app stages flat_map stage_of];
    (split; [auto | intros r; try discriminate; auto]).
Qed.

Lemma post_to_blogger_stages (cfg : Config) (path html : string)
  (w : World) (n : nat) :
  let s := stages (trace_of (post_to_blogger cfg path html w n)) in
  s = [] \/ s = [SPost].
Proof.
  cbv zeta. unfold post_to_blogger.
  destruct (credentials cfg) as [[]|]; try now left.
  destruct (post_title_and_labels html) as [post_title post_labels].
  unfold try_, bind, ask, ret, trace_of.
  destruct (blogger w n); cbn; now right.
Qed.

Lemma publish_stages (cfg : Config) (topic_index : nat) (topic : json)
  (markdown category : string)
  (image_path image_b64 source_url : option string) (w : World) (n : nat) :
  closing_part (stages (trace_of (publish cfg topic_index topic markdown category
                                    image_path image_b64 source_url w n))).
Proof.
  unfold publish. rewrite trace_bind, stages_app.
  destruct (save_blog_post_stages topic markdown category image_path image_b64
              source_url w n) as [Hs Hok]. cbv zeta in Hs, Hok.
  set (saved := save_blog_post _ _ _ _ _ _ w n) in *.
  destruct (value_of saved) as [[path written]|e].
  2:{ rewrite app_nil_r. unfold closing_part. destruct Hs as [->|[->| ->]]; auto. }
  rewrite (Hok _ eq_refl).
  rewrite trace_bind, stages_app.
  match goal with
  | |- context [trace_of (?c w (tick_of saved))] => set (posting := c w (tick_of saved))
  end.
  assert (Hp : stages (trace_of posting) = [] \/ stages (trace_of posting) = [SPost]).
  { subst posting.
    destruct (Py.truthy path
              && match credentials cfg with Some _ => true | None => false end
              && blog_id_configured cfg); [|now left].
    rewrite trace_bind, stages_app.
    destruct (post_to_blogger_stages cfg path written w (tick_of saved)) as [E|E];
      cbv zeta in E; rewrite E;
      destruct (value_of (post_to_blogger cfg path written w (tick_of saved)));
      cbn; auto. }
  assert (Hsl : stages match value_of posting with
                       | Ok _ =>
                           trace_of ((if topic_index <? NUM_BLOGS_TO_CREATE
                                      then sleep 30 else ret tt) w (tick_of posting))
                       | Raise _ => []
                       end = []).
  { destruct (value_of posting); [|reflexivity].
    destruct (topic_index <? NUM_BLOGS_TO_CREATE); reflexivity. }
  rewrite Hsl, app_nil_r. unfold closing_part.
  destruct Hp as [-> | ->]; cbn [app]; auto.
Qed.

(** ** The stages of the loop body and of [main] *)

Lemma after_research_stages (cfg : Config) (topic_index : nat) (data : article_data)
  (research_output : json) (image_path image_b64 source_url : option string)
  (w : World) (n : nat) :
  exists contents closing,
    stages (trace_of (after_research cfg topic_index data research_output
                        image_path image_b64 source_url w n))
    = repeat SContent contents ++ closing
    /\ contents <= 5 /\ closing_part closing
    /\ (closing <> [] -> 1 <= contents)
    /\ (json_truthy research_output = false -> contents = 0 /\ closing = []).
Proof.
  assert (Hstop : exists contents closing,
             @nil stage = repeat SContent contents ++ closing
             /\ contents <= 5 /\ closing_part closing
             /\ (closing <> [] -> 1 <= contents)
             /\ (json_truthy research_output = false -> contents = 0 /\ closing = [])).
  { exists 0, []. repeat split; [lia | now left | congruence]. }
  unfold after_research.
  destruct (json_truthy research_output); [|exact Hstop]. cbn [negb].
  destruct (is_dict research_output); [|exact Hstop].
  rewrite bind_ret, trace_bind, stages_app.
  destruct (generate_content_agent_stages cfg data research_output image_path w n)
    as [k [Hk [E H0]]]. cbv zeta in E, H0.
  rewrite E. exists k.
  set (agent := generate_content_agent cfg data research_output image_path w n) in *.
  assert (Hend : exists closing,
             repeat SContent k ++ [] = repeat SContent k ++ closing
             /\ k <= 5 /\ closing_part closing
             /\ (closing <> [] -> 1 <= k)
             /\ (true = false -> k = 0 /\ closing = [])).
  { exists []. split; [reflexivity|]. split; [exact Hk|]. split; [now left|].
    split; [congruence | discriminate]. }
  destruct (value_of agent) as [[markdown|]|e]; try exact Hend.
  destruct (Py.truthy markdown); [|exact Hend].
  eexists. split; [reflexivity|]. split; [exact Hk|].
  split; [apply publish_stages|]. split; [|discriminate].
  intros _. destruct k; [|lia]. exfalso. now apply (H0 eq_refl markdown).
Qed.

Lemma write_post_stages (cfg : Config) (topic_index : nat) (data : article_data)
  (competitors : list string) (image_path image_b64 source_url : option string)
  (w : World) (n : nat) :
  exists researches contents closing,
    stages (trace_of (write_post cfg topic_index data competitors image_path
                        image_b64 source_url w n))
    = repeat SResearch researches ++ repeat SContent contents ++ closing
    /\ researches <= 5 /\ contents <= 5 /\ closing_part closing
    /\ (closing <> [] ->
        if GEMINI_API_KEY cfg then 1 <= researches /\ 1 <= contents
        else researches = 0 /\ contents = 0).
Proof.
  unfold write_post, RESEARCH_MODEL.
  destruct (GEMINI_API_KEY cfg).
  - rewrite trace_bind, stages_app.
    destruct (perform_research_agent_stages cfg (ad_topic data) competitors w n)
      as [k [Hk [E H0]]]. cbv zeta in E, H0.
    rewrite E. exists k.
    set (agent := perform_research_agent cfg (ad_topic data) competitors w n) in *.
    destruct (value_of agent) as [research_output|e].
    + destruct (after_research_stages cfg topic_index data research_output image_path
                  image_b64 source_url w (tick_of agent))
        as [c [cl [E' [Hc [Hcl [H1 H2]]]]]].
      exists c, cl. rewrite E'. repeat split; try assumption; try lia.
      * destruct k; [|lia]. specialize (H0 eq_refl). injection H0 as ->.
        destruct (H2 eq_refl) as [_ ->]. congruence.
      * now apply H1.
    + exists 0, []. repeat split; [lia | lia | now left | congruence | congruence].
  - rewrite !bind_reading. exists 0, 0. eexists. split; [reflexivity|].
    repeat split; try lia. apply publish_stages.
Qed.

(** When the research agent returns a falsy value, the part of the loop
    body under [try] is the run of the agent and nothing more. *)
Lemma write_post_skips (cfg : Config) (topic_index : nat) (data : article_data)
  (competitors : list string) (image_path image_b64 source_url : option string)
  (w : World) (n : nat) (r : json) :
  GEMINI_API_KEY cfg = true ->
  let research := perform_research_agent cfg (ad_topic data) competitors w n in
  value_of research = Ok r ->
  json_truthy r = false ->
  write_post cfg topic_index data competitors image_path image_b64 source_url w n
  = (Ok tt, tick_of research, trace_of research).
Proof.
  intros Hkey. cbv zeta. unfold write_post, RESEARCH_MODEL. rewrite Hkey.
  unfold bind, value_of, tick_of, trace_of.
  destruct (perform_research_agent cfg (ad_topic data) competitors w n)
    as [[[v|e] n1] t1]; cbn [fst snd]; [|discriminate].
  intros [= ->] Hr. unfold after_research. rewrite Hr. cbn [negb ret].
  now rewrite app_nil_r.
Qed.

(** The stages of the loop body: the requests that pick the articles, the
    image part, and then nothing when the body stops there, or the part
    under [try]. *)
Lemma process_topic_trace (cfg : Config) (raw_articles : list article)
  (topic_index : nat) (trending_topic : json) (w : World) (n : nat) :
  exists filters image rest_,
    stages (trace_of (process_topic cfg raw_articles topic_index trending_topic w n))
    = repeat SFilter filters ++ image ++ rest_
    /\ (if GEMINI_API_KEY cfg then 1 <= filters <= 5 else filters = 0)
    /\ image_part image
    /\ (rest_ = []
        \/ (if TOGETHER_API_KEY cfg then 1 <= image_requests image else image = [])
           /\ exists data competitors image_path image_b64 source_url n',
                ad_topic data = trending_topic
                /\ rest_ = stages (trace_of (write_post cfg topic_index data competitors
                                               image_path image_b64 source_url w n'))).
Proof.
  assert (Hnone : image_part []).
  { exists [], []. repeat split; [constructor | cbn; lia | now left]. }
  unfold process_topic. rewrite trace_bind, stages_app.
  destruct (filter_articles_by_topic_stages cfg raw_articles trending_topic w n)
    as [kf [Hkf Ef]].
  rewrite Ef.
  set (filtering := filter_articles_by_topic cfg raw_articles trending_topic w n).
  assert (Hearly : forall (t : list event) (image : list stage),
             stages t = [] -> image_part image ->
             exists filters image' rest_,
               repeat SFilter kf ++ image ++ stages t
               = repeat SFilter filters ++ image' ++ rest_
               /\ (if GEMINI_API_KEY cfg then 1 <= filters <= 5 else filters = 0)
               /\ image_part image'
               /\ (rest_ = []
                   \/ (if TOGETHER_API_KEY cfg then 1 <= image_requests image'
                       else image' = [])
                      /\ exists data competitors image_path image_b64 source_url n',
                           ad_topic data = trending_topic
                           /\ rest_ = stages (trace_of (write_post cfg topic_index data
                                                          competitors image_path
                                                          image_b64 source_url w n')))).
  { intros t image Ht Hi. exists kf, image, []. rewrite Ht.
    split; [reflexivity|]. split; [exact Hkf|]. split; [exact Hi|]. now left. }
  destruct (value_of filtering) as [topic_articles|e];
    [|apply (Hearly [] []); [reflexivity | exact Hnone]].
  rewrite bind_lift.
  destruct (aggregate_articles topic_articles BLOG_CATEGORY) as [[data|]|e];
    [|apply (Hearly [] []); [reflexivity | exact Hnone]
     |apply (Hearly [] []); [reflexivity | exact Hnone]].
  rewrite trace_bind, stages_app.
  destruct (featured_image_stages cfg trending_topic trending_topic BLOG_CATEGORY
              w (tick_of filtering)) as [Himg Hreq]. cbv zeta in Himg, Hreq.
  set (picture := featured_image cfg trending_topic trending_topic BLOG_CATEGORY
                    w (tick_of filtering)) in *.
  destruct (value_of picture) as [[image_path image_b64]|e];
    [|apply (Hearly [] (stages (trace_of picture))); [reflexivity | exact Himg]].
  rewrite trace_try_silent by (intros e k' [= <-]; apply silent_ret).
  exists kf, (stages (trace_of picture)). eexists.
  split; [reflexivity|]. split; [exact Hkf|]. split; [exact Himg|].
  right. split; [exact Hreq|].
  do 6 eexists. split; [|reflexivity]. reflexivity.
Qed.

Lemma in_repeat_eq {A : Type} (x y : A) (k : nat) : In x (repeat y k) -> x = y.
Proof. intros H. symmetry. now apply repeat_spec in H. Qed.

Lemma image_part_no_post (image : list stage) : image_part image -> ~ In SPost image.
Proof.
  intros [requests [finish [-> [Hreq [_ Hfin]]]]] H.
  apply in_app_or in H. destruct H as [H|H].
  - rewrite Forall_forall in Hreq. destruct (Hreq _ H); discriminate.
  - destruct Hfin as [-> | ->]; cbn in H; intuition discriminate.
Qed.

(** The loop body is an iteration, and one that reaches the blog host has
    run all its steps. *)
Lemma process_topic_stages (cfg : Config) (raw_articles : list article)
  (topic_index : nat) (trending_topic : json) (w : World) (n : nat) :
  let l := stages (trace_of (process_topic cfg raw_articles topic_index
                               trending_topic w n)) in
  iteration l /\ (publishing_iteration cfg l \/ ~ In SPost l).
Proof.
  cbv zeta.
  destruct (process_topic_trace cfg raw_articles topic_index trending_topic w n)
    as [kf [image [rest_ [E [Hkf [Himg Hrest]]]]]].
  rewrite E.
  assert (Hkf5 : kf <= 5) by (destruct (GEMINI_API_KEY cfg); lia).
  destruct Hrest as [-> | [Hreq [data [comps [ip [ib [su [n' [_ ->]]]]]]]]].
  - split.
    + exists kf, image, 0, 0, []. repeat split; auto; try lia. now left.
    + right. rewrite app_nil_r. intros H.
      apply in_app_or in H. destruct H as [H|H];
        [apply in_repeat_eq in H; discriminate | now apply image_part_no_post in H].
  - destruct (write_post_stages cfg topic_index data comps ip ib su w n')
      as [kr [kc [cl [E' [Hkr [Hkc [Hcl Hlow]]]]]]].
    rewrite E'. split.
    + exists kf, image, kr, kc, cl. repeat split; assumption.
    + destruct Hcl as [-> | [-> | [-> | ->]]].
      4:{ left. exists kf, image, kr, kc. split; [reflexivity|].
          split; [exact Himg|]. split; [|exact Hreq].
          specialize (Hlow ltac:(discriminate)).
          destruct (GEMINI_API_KEY cfg); lia. }
      all: right; intros H;
        repeat (apply in_app_or in H; destruct H as [H|H]);
        try (apply in_repeat_eq in H; discriminate);
        try (now apply image_part_no_post in H);
        cbn in H; intuition discriminate.
Qed.

Lemma process_topics_stages (cfg : Config) (raw_articles : list article)
  (w : World) (topics : list json) :
  forall topic_index n,
    exists iterations,
      stages (trace_of (process_topics cfg raw_articles topic_index topics w n))
      = concat iterations
      /\ length iterations <= length topics
      /\ Forall iteration iterations
      /\ Forall (fun l => publishing_iteration cfg l \/ ~ In SPost l) iterations.
Proof.
  induction topics as [|topic tl IH]; intros topic_index n.
  - exists []. repeat split; [cbn; lia | constructor | constructor].
  - cbn [process_topics]. rewrite trace_bind, stages_app.
    destruct (process_topic_stages cfg raw_articles topic_index topic w n) as [H1 H2].
    cbv zeta in H1, H2.
    set (first := process_topic cfg raw_articles topic_index topic w n) in *.
    destruct (value_of first).
    + destruct (IH (S topic_index) (tick_of first)) as [its [E [Hl [Hf Hp]]]].
      exists (stages (trace_of first) :: its). rewrite E.
      repeat split; [cbn; lia | now constructor | now constructor].
    + exists [stages (trace_of first)]. cbn [concat].
      repeat split; [cbn; lia | now constructor | now constructor].
Qed.

Lemma newsapi_attempts_stages (max : nat) (query : string) (k : nat) (w : World)
  (r : nat) :
  forall i n,
    exists j, j <= r
              /\ stages (trace_of (newsapi_attempts r i max query k w n))
                 = repeat SFetch j.
Proof.
  induction r as [|r IH]; intros i n.
  - exists 0. split; [lia | reflexivity].
  - rewrite newsapi_attempts_S.
    destruct (newsapi w n) as [?|e]; [exists 1; split; [lia | reflexivity]|].
    destruct (is_RequestException e);
      [|destruct (is_JSONDecodeError e); exists 1; split; (lia || reflexivity)].
    destruct (i <? max - 1); [|exists 1; split; [lia | reflexivity]].
    destruct (IH (S i) (S n)) as [j [Hj E]].
    destruct (newsapi_attempts r (S i) max query k w (S n)) as [[res n'] t].
    exists (S j). split; [lia|].
    unfold trace_of in *. cbn [snd] in *.
    change (stages (NewsApiGet query k :: Sleep _ :: t)) with (SFetch :: stages t).
    now rewrite E.
Qed.

(** C2, as the code has it.  The stages of a run of [main] are: the
    requests to NewsAPI (at most 3), the text requests that extract the
    topics (at most 5), then one iteration for each topic in turn (at most
    3).  An iteration that posts is made, in this order, of the text
    requests that pick the articles of the topic, the image requests with
    their downloads and the compositing, the text requests of the research
    agent, the text requests of the content agent, the rendering, the HTML
    file and the post; with the text model configured there are between
    one and five requests of each of the three kinds and none without it,
    and with the image service configured there are between one and three
    requests to it and no image part without it.  An iteration that does
    not run to its end posts nothing. *)
Theorem main_stages (cfg : Config) (w : World) (n : nat) :
  exists fetches topics iterations,
    stages (trace_of (main cfg w n))
    = repeat SFetch fetches ++ repeat STopics topics ++ concat iterations
    /\ fetches <= 3 /\ topics <= 5
    /\ length iterations <= NUM_BLOGS_TO_CREATE
    /\ Forall iteration iterations
    /\ Forall (fun l => publishing_iteration cfg l \/ ~ In SPost l) iterations.
Proof.
  assert (Hstop : forall fetches topics,
             fetches <= 3 -> topics <= 5 ->
             exists f t iterations,
               repeat SFetch fetches ++ repeat STopics topics
               = repeat SFetch f ++ repeat STopics t ++ concat iterations
               /\ f <= 3 /\ t <= 5
               /\ length iterations <= NUM_BLOGS_TO_CREATE
               /\ Forall iteration iterations
               /\ Forall (fun l => publishing_iteration cfg l \/ ~ In SPost l)
                    iterations).
  { intros f t Hf Ht. exists f, t, []. cbn [concat]. rewrite app_nil_r.
    repeat split; auto; try constructor. unfold NUM_BLOGS_TO_CREATE. cbn. lia. }
  unfold main.
  destruct (negb (environment_valid cfg)); [apply (Hstop 0 0); lia|].
  destruct (blog_id_configured cfg && _); [apply (Hstop 0 0); lia|].
  rewrite trace_bind, stages_app.
  destruct (newsapi_attempts_stages 3 CRYPTO_QUERY_TERM NUM_SOURCE_ARTICLES_TO_FETCH
              w 3 0 n) as [kf [Hkf Ef]].
  unfold fetch_newsapi_articles, fetch_newsapi_articles_. rewrite Ef.
  set (fetching := newsapi_attempts 3 0 3 _ _ w n).
  destruct (value_of fetching) as [[[|a raw]|]|e];
    try (cbn [ret trace_of snd stages flat_map]; apply (Hstop kf 0); lia).
  rewrite trace_bind, stages_app.
  destruct (extract_multiple_trending_topics_stages cfg (a :: raw)
              NUM_BLOGS_TO_CREATE w (tick_of fetching)) as [kt [Hkt Et]].
  rewrite Et.
  destruct (extract_multiple_trending_topics_returns cfg (a :: raw)
              NUM_BLOGS_TO_CREATE w (tick_of fetching)) as [found [Ev Hlen]].
  set (extracting := extract_multiple_trending_topics cfg (a :: raw)
                       NUM_BLOGS_TO_CREATE w (tick_of fetching)) in *.
  rewrite Ev.
  destruct (process_topics_stages cfg (a :: raw) w found 1 (tick_of extracting))
    as [its [E [Hl [Hf Hp]]]].
  exists kf, kt, its. rewrite E.
  repeat split; auto. lia.
Qed.

(** C2, as the sentence has it, fails on a run in which every request
    succeeds at once: before the first post there are four text requests,
    two of them before the image request and two after the compositing,
    and the whole run makes ten text requests for three posts. *)
Lemma main_smooth_run :
  let s := stages (trace_of (main full_config smooth_world 0)) in
  until_post s
  = [ SFetch; STopics; SFilter; SImage; SDownload; SComposite; SWriteImage;
      SResearch; SContent; SRender; SWrite; SPost ]
  /\ ~ specified_sequence (until_post s)
  /\ length (filter is_text_stage s) = 10
  /\ length (filter is_post_stage s) = 3.
Proof.
  assert (E : until_post (stages (trace_of (main full_config smooth_world 0)))
              = [ SFetch; STopics; SFilter; SImage; SDownload; SComposite;
                  SWriteImage; SResearch; SContent; SRender; SWrite; SPost ])
    by (vm_compute; reflexivity).
  cbv zeta. rewrite E. split; [reflexivity|]. split; [|split].
  - intros [t1 [t2 [_ [_ H]]]]. cbn in H. discriminate.
  - vm_compute. reflexivity.
  - vm_compute. reflexivity.
Qed.

(** ** Skipping a topic without research *)

Lemma filter_after_research_repeat (s : stage) (k : nat) :
  after_research_stage s = false -> filter after_research_stage (repeat s k) = [].
Proof. intros H. induction k as [|k IH]; cbn [repeat filter]; [|rewrite H]; auto. Qed.

Lemma image_part_before_research (image : list stage) :
  image_part image -> filter after_research_stage image = [].
Proof.
  intros [requests [finish [-> [Hreq [_ Hfin]]]]]. rewrite filter_app.
  assert (E : filter after_research_stage requests = []).
  { induction Hreq as [|s tl [-> | ->] _ IH]; cbn [filter after_research_stage]; auto. }
  rewrite E. destruct Hfin as [-> | ->]; reflexivity.
Qed.

Lemma process_topic_skips (cfg : Config) (w : World) (raw_articles : list article)
  (topic_index : nat) (trending_topic : json) (n : nat) :
  GEMINI_API_KEY cfg = true ->
  research_fails cfg w ->
  filter after_research_stage
    (stages (trace_of (process_topic cfg raw_articles topic_index trending_topic w n)))
  = [].
Proof.
  intros Hkey Hfail.
  destruct (process_topic_trace cfg raw_articles topic_index trending_topic w n)
    as [kf [image [rest_ [E [_ [Himg Hrest]]]]]].
  rewrite E, !filter_app, (filter_after_research_repeat SFilter kf eq_refl),
    (image_part_before_research image Himg).
  destruct Hrest as [-> | [_ [data [comps [ip [ib [su [n' [_ ->]]]]]]]]];
    [reflexivity|].
  pose proof (perform_research_agent_value cfg (ad_topic data) comps w n') as Hv.
  cbv zeta in Hv.
  rewrite (write_post_skips cfg topic_index data comps ip ib su w n' _ Hkey Hv
             (Hfail _ _ _ _ Hv)).
  destruct (perform_research_agent_stages cfg (ad_topic data) comps w n')
    as [k [_ [Ek _]]]. cbv zeta in Ek.
  unfold trace_of at 1. cbn [snd]. rewrite Ek.
  apply (filter_after_research_repeat SResearch k eq_refl).
Qed.

Lemma process_topics_skips (cfg : Config) (w : World) (raw_articles : list article)
  (topics : list json) :
  GEMINI_API_KEY cfg = true ->
  research_fails cfg w ->
  forall topic_index n,
    filter after_research_stage
      (stages (trace_of (process_topics cfg raw_articles topic_index topics w n)))
    = [].
Proof.
  intros Hkey Hfail.
  induction topics as [|topic tl IH]; intros topic_index n; [reflexivity|].
  cbn [process_topics]. rewrite trace_bind, stages_app, filter_app.
  rewrite (process_topic_skips cfg w raw_articles topic_index topic n Hkey Hfail).
  destruct (value_of _); [apply IH | reflexivity].
Qed.

Lemma main_skips (cfg : Config) (w : World) (n : nat) :
  GEMINI_API_KEY cfg = true ->
  research_fails cfg w ->
  filter after_research_stage (stages (trace_of (main cfg w n))) = [].
Proof.
  intros Hkey Hfail. unfold main.
  destruct (negb (environment_valid cfg)); [reflexivity|].
  destruct (blog_id_configured cfg && _); [reflexivity|].
  rewrite trace_bind, stages_app, filter_app.
  destruct (newsapi_attempts_stages 3 CRYPTO_QUERY_TERM NUM_SOURCE_ARTICLES_TO_FETCH
              w 3 0 n) as [kf [_ Ef]].
  unfold fetch_newsapi_articles, fetch_newsapi_articles_.
  rewrite Ef, (filter_after_research_repeat SFetch kf eq_refl).
  set (fetching := newsapi_attempts 3 0 3 _ _ w n).
  destruct (value_of fetching) as [[[|a raw]|]|e]; try reflexivity.
  rewrite trace_bind, stages_app, filter_app.
  destruct (extract_multiple_trending_topics_stages cfg (a :: raw)
              NUM_BLOGS_TO_CREATE w (tick_of fetching)) as [kt [_ Et]].
  rewrite Et, (filter_after_research_repeat STopics kt eq_refl).
  destruct (value_of _); [|reflexivity].
  now apply process_topics_skips.
Qed.

(** C5, as the code has it.  The agent never raises.  Without a model,
    and for a topic that is neither a string nor a list, it returns [None]
    without a request.  With a response from the wrapper it returns the
    value of [research_of_response]: the parsed content of the first
    fenced block when the text has one, the parsed text when it has none,
    and [None] when that does not parse; without a response it returns
    [None].  When the agent returns [None], or another falsy value, the
    part of the loop body of [main] under [try] ends with the run of the
    agent: no content request, no rendering, no file and no post follow.
    So a run of [main] in which the agent has nothing usable to return
    has none of these steps, for any topic. *)
Theorem perform_research_agent_spec (cfg : Config) (w : World) :
  (forall target_topic competitors n,
     let asked :=
       _gemini_generate_content_with_retry RESEARCH_MODEL_
         (ResearchPrompt (topic_text w target_topic) (firstn 5 competitors)) w n in
     value_of (perform_research_agent cfg target_topic competitors w n)
     = Ok match RESEARCH_MODEL cfg, sliceable target_topic, value_of asked with
          | Some _, true, Ok (Some text) => research_of_response w text
          | _, _, _ => JNull
          end)
  /\ (forall topic_index data competitors image_path image_b64 source_url n r,
        GEMINI_API_KEY cfg = true ->
        let research := perform_research_agent cfg (ad_topic data) competitors w n in
        value_of research = Ok r ->
        json_truthy r = false ->
        write_post cfg topic_index data competitors image_path image_b64 source_url
          w n
        = (Ok tt, tick_of research, trace_of research))
  /\ (GEMINI_API_KEY cfg = true ->
      research_fails cfg w ->
      (forall raw_articles topic_index trending_topic n,
         filter after_research_stage
           (stages (trace_of (process_topic cfg raw_articles topic_index
                                trending_topic w n))) = [])
      /\ forall n, filter after_research_stage (stages (trace_of (main cfg w n))) = []).
Proof.
  split; [|split].
  - intros target_topic competitors n. apply perform_research_agent_value.
  - intros topic_index data competitors image_path image_b64 source_url n r Hkey.
    now apply write_post_skips.
  - intros Hkey Hfail. split.
    + intros raw_articles topic_index trending_topic n. now apply process_topic_skips.
    + intros n. now apply main_skips.
Qed.

(** A text model that answers every request with a sentence that is no
    JSON leaves the research agent without a value. *)
Lemma research_fails_without_json : research_fails full_config (parrot_world "No JSON here.").
Proof.
  intros target_topic competitors n r.
  rewrite perform_research_agent_value. cbv zeta.
  unfold _gemini_generate_content_with_retry, _gemini_generate_content_with_retry_,
    LLM_MAX_RETRIES.
  rewrite gemini_attempts_S.
  change (text_attempt (parrot_world "No JSON here.") n
            (ResearchPrompt (topic_text (parrot_world "No JSON here.") target_topic)
               (firstn 5 competitors)))
    with (@Ok string "No JSON here.").
  unfold value_of. cbn [fst RESEARCH_MODEL full_config GEMINI_API_KEY].
  destruct (sliceable target_topic); intros [= <-]; reflexivity.
Qed.

Lemma perform_research_agent_witness :
  write_post full_config 1
    (ArticleData (JStr "Bitcoin") "Price surges" "Bitcoin hits record" "crypto")
    [] None None None (parrot_world "No JSON here.") 0
  = (Ok tt, 1, [GeminiGenerate RESEARCH_MODEL_ (ResearchPrompt "Bitcoin" [])])
  /\ filter after_research_stage
       (stages (trace_of (main full_config (parrot_world "No JSON here.") 0))) = [].
Proof.
  destruct (perform_research_agent_spec full_config (parrot_world "No JSON here."))
    as [_ [Hskip Hmain]].
  split.
  - apply (Hskip 1
             (ArticleData (JStr "Bitcoin") "Price surges" "Bitcoin hits record" "crypto")
             [] None None None 0 JNull eq_refl); reflexivity.
  - apply (Hmain eq_refl research_fails_without_json).
Defined.

(** * Further properties *)

(** ** Stripping and replacing *)

Lemma lstrip_chars_head (l : list ascii) :
  match Py.lstrip_chars l with
  | [] => True
  | c :: _ => Py.isspace c = false
  end.
Proof.
  induction l as [|c tl IH]; cbn [Py.lstrip_chars]; [exact I|].
  destruct (Py.isspace c) eqn:E; [exact IH | exact E].
Qed.

Lemma lstrip_chars_fixed (c : ascii) (tl : list ascii) :
  Py.isspace c = false -> Py.lstrip_chars (c :: tl) = c :: tl.
Proof. intros E; cbn [Py.lstrip_chars]; now rewrite E. Qed.

Lemma lstrip_chars_app (l r : list ascii) (c : ascii) :
  Py.isspace c = false ->
  Py.lstrip_chars (l ++ c :: r) = Py.lstrip_chars l ++ c :: r.
Proof.
  intros E; induction l as [|x tl IH]; cbn [Py.lstrip_chars app].
  - now rewrite E.
  - destruct (Py.isspace x); [exact IH | reflexivity].
Qed.

Lemma lstrip_chars_idem (l : list ascii) :
  Py.lstrip_chars (Py.lstrip_chars l) = Py.lstrip_chars l.
Proof.
  pose proof (lstrip_chars_head l) as H.
  destruct (Py.lstrip_chars l) as [|c tl]; [reflexivity|].
  now apply lstrip_chars_fixed.
Qed.

Lemma rstrip_chars_cons (c : ascii) (tl : list ascii) :
  Py.isspace c = false -> Py.rstrip_chars (c :: tl) = c :: Py.rstrip_chars tl.
Proof.
  intros E; unfold Py.rstrip_chars; cbn [rev].
  rewrite <- (app_nil_r (rev tl ++ [c])), <- app_assoc; cbn [app].
  rewrite (lstrip_chars_app (rev tl) [] c E), rev_app_distr; reflexivity.
Qed.

Lemma strip_chars_idem (l : list ascii) :
  Py.strip_chars (Py.strip_chars l) = Py.strip_chars l.
Proof.
  unfold Py.strip_chars.
  pose proof (lstrip_chars_head l) as H.
  destruct (Py.lstrip_chars l) as [|c tl]; [reflexivity|].
  rewrite (rstrip_chars_cons c tl H).
  rewrite (lstrip_chars_fixed c _ H), (rstrip_chars_cons c _ H).
  f_equal. unfold Py.rstrip_chars.
  now rewrite rev_involutive, lstrip_chars_idem.
Qed.

Lemma strip_stripped (s : string) : stripped (Py.strip s).
Proof.
  unfold stripped, Py.strip. now rewrite chars_str, strip_chars_idem.
Qed.

(** Replacing a single character: every occurrence goes, the other
    characters stay. *)
Lemma replace_chars_one (fuel : nat) (o : ascii) (new l : list ascii) :
  length l < fuel ->
  Py.replace_chars fuel [o] new l
  = flat_map (fun c => if Ascii.eqb o c then new else [c]) l.
Proof.
  revert l; induction fuel as [|f IH]; intros l Hl; [lia|].
  destruct l as [|c tl]; cbn [Py.replace_chars Py.prefix_chars flat_map].
  - reflexivity.
  - cbn [length] in Hl.
    destruct (Ascii.eqb o c); cbn [app]; rewrite IH by lia; reflexivity.
Qed.

Lemma replace_one_chars (o : ascii) (new s : string) :
  Py.chars (Py.replace (String o "") new s)
  = flat_map (fun c => if Ascii.eqb o c then Py.chars new else [c]) (Py.chars s).
Proof.
  unfold Py.replace. rewrite chars_str.
  apply replace_chars_one. unfold Py.len. rewrite length_chars. lia.
Qed.

Lemma replace_one_free (o : ascii) (new s : string) :
  free_of o new -> free_of o (Py.replace (String o "") new s).
Proof.
  unfold free_of; intros Hn. rewrite replace_one_chars.
  induction (Py.chars s) as [|c tl IH]; cbn [flat_map]; [constructor|].
  apply Forall_app; split; [|exact IH].
  destruct (Ascii.eqb o c) eqn:E; [exact Hn|].
  constructor; [|constructor]. intros ->. now rewrite Ascii.eqb_refl in E.
Qed.

Lemma replace_one_keeps_free (x o : ascii) (new s : string) :
  free_of x new -> free_of x s -> free_of x (Py.replace (String o "") new s).
Proof.
  unfold free_of; intros Hn Hs. rewrite replace_one_chars.
  induction Hs as [|c tl Hc _ IH]; cbn [flat_map]; [constructor|].
  apply Forall_app; split; [|exact IH].
  destruct (Ascii.eqb o c); [exact Hn | now constructor].
Qed.

Lemma strip_keeps_free (x : ascii) (s : string) :
  free_of x s -> free_of x (Py.strip s).
Proof.
  unfold free_of, Py.strip. rewrite chars_str. apply Forall_strip.
Qed.

Lemma take_keeps_free (x : ascii) (n : nat) (s : string) :
  free_of x s -> free_of x (Py.take n s).
Proof.
  unfold free_of, Py.take. rewrite chars_str. apply Forall_firstn.
Qed.

Lemma clean_ai_artifacts_clean (content : string) :
  stripped (clean_ai_artifacts content)
  /\ free_of Py.cr (clean_ai_artifacts content).
Proof.
  unfold clean_ai_artifacts; cbv zeta. split.
  - apply strip_stripped.
  - apply strip_keeps_free. apply (replace_one_free Py.cr Py.NL).
    repeat constructor. discriminate.
Qed.

(** X1.  The text [clean_ai_artifacts] returns has no white space at its
    ends and holds no carriage return: the line ends are normalised and
    the result is stripped, whatever the text was. *)
Theorem clean_ai_artifacts_normalised (content : string) :
  stripped (clean_ai_artifacts content)
  /\ free_of Py.cr (clean_ai_artifacts content).
Proof. apply clean_ai_artifacts_clean. Qed.

(** Quotes, apostrophes and line feeds do not survive the escaping of a
    description. *)
Lemma page_description_free (raw : string) :
  free_of (ascii_of_nat 34) (page_description raw)
  /\ free_of "'"%char (page_description raw)
  /\ free_of Py.nl (page_description raw).
Proof.
  assert (Hq : free_of (ascii_of_nat 34) (Py.replace Py.DQ "&quot;" raw)).
  { apply (replace_one_free (ascii_of_nat 34) "&quot;").
    repeat constructor; discriminate. }
  assert (Hn : free_of Py.nl (Py.replace Py.NL " " (Py.replace Py.DQ "&quot;" raw))).
  { apply (replace_one_free Py.nl " "). repeat constructor; discriminate. }
  unfold page_description. repeat split.
  - apply (replace_one_keeps_free (ascii_of_nat 34) "'" "&apos;").
    + repeat constructor; discriminate.
    + apply take_keeps_free, strip_keeps_free.
      apply (replace_one_keeps_free (ascii_of_nat 34) Py.nl " "); [|exact Hq].
      repeat constructor; discriminate.
  - apply (replace_one_free "'" "&apos;"). repeat constructor; discriminate.
  - apply (replace_one_keeps_free Py.nl "'" "&apos;").
    + repeat constructor; discriminate.
    + apply take_keeps_free, strip_keeps_free. exact Hn.
Qed.

(** ** What a computation returns *)

Lemma value_bind {A B} (c : M A) (k : A -> M B) (w : World) (n : nat) :
  value_of (bind c k w n)
  = match value_of (c w n) with
    | Ok a => value_of (k a w (tick_of (c w n)))
    | Raise e => Raise e
    end.
Proof.
  unfold bind, value_of, tick_of.
  destruct (c w n) as [[[a|e] n1] t1]; cbn [fst snd]; [|reflexivity].
  now destruct (k a w n1) as [[? ?] ?].
Qed.

Lemma value_try {A} (c : M A) (h : exn -> option (M A)) (w : World) (n : nat) :
  value_of (try_ c h w n)
  = match value_of (c w n) with
    | Ok a => Ok a
    | Raise e =>
        match h e with
        | Some k => value_of (k w (tick_of (c w n)))
        | None => Raise e
        end
    end.
Proof.
  unfold try_, value_of, tick_of.
  destruct (c w n) as [[[a|e] n1] t1]; cbn [fst snd]; [reflexivity|].
  destruct (h e) as [k|]; [|reflexivity].
  now destruct (k w n1) as [[? ?] ?].
Qed.

Lemma ensures_ret {A} (a : A) (P : A -> Prop) : P a -> ensures (ret a) P.
Proof. intros H w n b E. injection E as <-. exact H. Qed.

Lemma ensures_raise {A} (e : exn) (P : A -> Prop) : ensures (raise e) P.
Proof. intros w n b E. discriminate E. Qed.

Lemma ensures_reading {A} (f : World -> A) (P : A -> Prop) :
  (forall w, P (f w)) -> ensures (reading f) P.
Proof. intros H w n b E. injection E as <-. apply H. Qed.

Lemma ensures_any {A} (c : M A) : ensures c (fun _ => True).
Proof. intros w n a _. exact I. Qed.

Lemma ensures_bind {A B} (c : M A) (k : A -> M B) (Q : A -> Prop) (P : B -> Prop) :
  ensures c Q -> (forall a, Q a -> ensures (k a) P) -> ensures (bind c k) P.
Proof.
  intros Hc Hk w n b. rewrite value_bind.
  destruct (value_of (c w n)) as [a|e] eqn:E; [|discriminate].
  apply (Hk a (Hc w n a E)).
Qed.

Lemma ensures_try {A} (c : M A) (h : exn -> option (M A)) (P : A -> Prop) :
  ensures c P -> (forall e k, h e = Some k -> ensures k P) -> ensures (try_ c h) P.
Proof.
  intros Hc Hh w n b. rewrite value_try.
  destruct (value_of (c w n)) as [a|e] eqn:E.
  - intros E'. injection E' as <-. apply (Hc w n a E).
  - destruct (h e) as [k|] eqn:Ek; [|discriminate]. apply (Hh e k Ek).
Qed.

Lemma always_ret {A} (a : A) (P : A -> Prop) : P a -> always_returns (ret a) P.
Proof. intros H w n. exists a. split; [reflexivity | exact H]. Qed.

Lemma always_reading {A} (f : World -> A) (P : A -> Prop) :
  (forall w, P (f w)) -> always_returns (reading f) P.
Proof. intros H w n. exists (f w). split; [reflexivity | apply H]. Qed.

Lemma always_bind {A B} (c : M A) (k : A -> M B) (Q : A -> Prop) (P : B -> Prop) :
  always_returns c Q -> (forall a, Q a -> always_returns (k a) P) ->
  always_returns (bind c k) P.
Proof.
  intros Hc Hk w n. destruct (Hc w n) as [a [E Ha]].
  rewrite value_bind, E. apply (Hk a Ha).
Qed.

(** A [try] whose handlers take every exception and return. *)
Lemma always_try {A} (c : M A) (h : exn -> option (M A)) (P : A -> Prop) :
  ensures c P ->
  (forall e, exists k, h e = Some k /\ always_returns k P) ->
  always_returns (try_ c h) P.
Proof.
  intros Hc Hh w n. rewrite value_try.
  destruct (value_of (c w n)) as [a|e] eqn:E.
  - exists a. split; [reflexivity | apply (Hc w n a E)].
  - destruct (Hh e) as [k [-> Hk]]. apply Hk.
Qed.

Lemma always_weaken {A} (c : M A) (P Q : A -> Prop) :
  (forall a, P a -> Q a) -> always_returns c P -> always_returns c Q.
Proof.
  intros H Hc w n. destruct (Hc w n) as [a [E Ha]]. exists a. auto.
Qed.

Lemma always_ensures {A} (c : M A) (P : A -> Prop) :
  always_returns c P -> ensures c P.
Proof.
  intros Hc w n a E. destruct (Hc w n) as [b [E' Hb]]. congruence.
Qed.

(** ** The articles of a topic *)

Lemma pick_articles_incl (articles : list article) (relevant_indices : list json) :
  forall picked,
    pick_articles articles relevant_indices = Some picked -> incl picked articles.
Proof.
  induction relevant_indices as [|i tl IH]; intros picked; cbn [pick_articles].
  - intros E. injection E as <-. apply incl_nil_l.
  - assert (Hp : forall z,
               (if (z <? Z.of_nat (length articles))%Z
                then
                  let k := if (z <? 0)%Z then (z + Z.of_nat (length articles))%Z else z in
                  if (k <? 0)%Z then None
                  else match nth_error articles (Z.to_nat k), pick_articles articles tl with
                       | Some a, Some r => Some (a :: r)
                       | _, _ => None
                       end
                else pick_articles articles tl) = Some picked ->
               incl picked articles).
    { intros z. destruct (z <? Z.of_nat (length articles))%Z; [|apply IH].
      cbv zeta.
      destruct ((if (z <? 0)%Z then (z + Z.of_nat (length articles))%Z else z) <? 0)%Z;
        [discriminate|].
      destruct (nth_error articles _) as [a|] eqn:Ea; [|discriminate].
      destruct (pick_articles articles tl) as [r|]; [|discriminate].
      intros E. injection E as <-.
      apply incl_cons; [eapply nth_error_In; exact Ea | now apply IH]. }
    destruct i as [|b|lit| | |]; try discriminate.
    + apply Hp.
    + destruct (int_of_literal lit) as [z|]; [apply Hp|].
      destruct (literal_value lit) as [q|].
      * destruct (float_lt_int _ _); [discriminate | apply IH].
      * destruct (_ || _); [apply IH | discriminate].
Qed.

Lemma filter_articles_by_topic_always (cfg : Config) (articles : list article)
  (topic : json) :
  always_returns (filter_articles_by_topic cfg articles topic)
    (fun picked => incl picked articles).
Proof.
  assert (Hten : incl (firstn 10 articles) articles).
  { intros a Ha. rewrite <- (firstn_skipn 10 articles). apply in_or_app. now left. }
  unfold filter_articles_by_topic.
  destruct (RESEARCH_MODEL cfg) as [research_model|]; [|now apply always_ret].
  eapply always_bind;
    [apply (always_reading _ (fun _ => True)); intros; exact I|].
  intros text_of_topic _.
  apply always_try.
  - eapply ensures_bind; [apply ensures_any|]. intros response _.
    eapply ensures_bind; [apply ensures_any|]. intros text _.
    eapply ensures_bind; [apply ensures_any|]. intros loaded _.
    destruct loaded as [[| | | |relevant_indices|]|];
      try (now apply ensures_ret); try apply ensures_raise.
    destruct (pick_articles articles relevant_indices) as [picked|] eqn:E;
      [|apply ensures_raise].
    apply ensures_ret. now apply (pick_articles_incl articles relevant_indices).
  - intros e. eexists. split; [reflexivity|]. now apply always_ret.
Qed.

(** X3.  [filter_articles_by_topic] never raises, and the articles it
    returns are articles of the list it was given: the model's answer can
    select and repeat articles but not add any. *)
Theorem filter_articles_by_topic_safe (cfg : Config) (articles : list article)
  (topic : json) (w : World) (n : nat) :
  exists picked,
    value_of (filter_articles_by_topic cfg articles topic w n) = Ok picked
    /\ incl picked articles.
Proof. apply filter_articles_by_topic_always. Qed.

(** ** The saved page *)

(** X2.  For a topic that is a string, [save_blog_post] renders the body
    once and writes one file; the page it writes is the template around
    the title, the rendered body and a description that holds no double
    quote, no apostrophe and no line feed, so the description cannot end
    the attribute it is written into. *)
Theorem save_blog_post_description_safe (topic markdown category : string)
  (transformed_image_filepath transformed_image_b64 primary_source_url : option string)
  (w : World) (n : nat) :
  let parsed := parse_markdown_metadata markdown in
  exists file_path description keywords image_src published_date,
    trace_of (save_blog_post (JStr topic) markdown category transformed_image_filepath
                transformed_image_b64 primary_source_url w n)
    = [ MarkdownToHtml (snd parsed);
        WriteHtml file_path
          (html_template w (dict_get_or "title" (fst parsed) topic)
             description keywords image_src
             (markdown_to_html (snd parsed) transformed_image_filepath
                transformed_image_b64)
             category primary_source_url published_date) ]
    /\ free_of (ascii_of_nat 34) description
    /\ free_of "'"%char description
    /\ free_of Py.nl description.
Proof.
  cbv zeta. unfold save_blog_post.
  destruct (parse_markdown_metadata markdown) as [metadata body].
  assert (Et : match dict_get "title" metadata with
               | Some t => JStr t
               | None => JStr topic
               end = JStr (dict_get_or "title" metadata topic)).
  { unfold dict_get_or. now destruct (dict_get "title" metadata). }
  rewrite Et. cbn [sanitize_filename_of topic_text].
  destruct (negb (Py.truthy _));
    cbv beta iota zeta delta [bind reading emit ask ret trace_of fst snd app];
    (destruct (write_file w n _) as [[]|e]; cbv beta iota delta [snd app];
     (do 5 eexists; split; [reflexivity | apply page_description_free])).
Qed.

(** ** The metadata block *)

Lemma dict_get_set_other (k k' v : string) (d : dict) :
  k <> k' -> dict_get k' (dict_set k v d) = dict_get k' d.
Proof.
  intros Hk. induction d as [|[k0 v0] tl IH]; cbn [dict_set dict_get].
  - destruct (String.eqb_spec k' k); [congruence | reflexivity].
  - destruct (String.eqb_spec k k0) as [->|Hn]; cbn [dict_get].
    + destruct (String.eqb_spec k' k0); [congruence | reflexivity].
    + destruct (String.eqb_spec k' k0); [reflexivity | exact IH].
Qed.

(** X4.  [parse_markdown_metadata] returns a body without white space at
    its ends, and every key read from the header lines keeps its value: the
    first heading supplies the title only when the header has none. *)
Theorem parse_markdown_metadata_keeps_header (markdown_content : string) :
  stripped (snd (parse_markdown_metadata markdown_content))
  /\ forall k v,
       dict_get k (fst (metadata_lines (Py.split Py.nl markdown_content) [])) = Some v ->
       dict_get k (fst (parse_markdown_metadata markdown_content)) = Some v.
Proof.
  unfold parse_markdown_metadata.
  destruct (metadata_lines (Py.split Py.nl markdown_content) [])
    as [metadata content_lines].
  cbv zeta. cbn [fst].
  assert (Hkeep : forall h1_title k v,
            dict_get k metadata = Some v ->
            dict_get k match dict_get "title" metadata with
                       | Some _ => metadata
                       | None => dict_set "title" h1_title metadata
                       end = Some v).
  { intros h1_title k v H.
    destruct (dict_get "title" metadata) eqn:T; [exact H|].
    rewrite dict_get_set_other; [exact H|]. intros <-. congruence. }
  destruct (Py.startswith "# " (Py.strip (Py.join Py.NL content_lines))).
  - destruct (find_nl _ 0); cbn [fst snd]; split.
    + apply strip_stripped.
    + intros k v. apply Hkeep.
    + reflexivity.
    + intros k v. apply Hkeep.
  - cbn [fst snd]. split; [apply strip_stripped | auto].
Qed.

Lemma parse_markdown_metadata_keeps_header_witness :
  dict_get "title"
    (fst (parse_markdown_metadata ("title: A" ++ Py.NL ++ Py.NL ++ "# B" ++ Py.NL ++ "text")))
  = Some "A".
Proof.
  apply (proj2 (parse_markdown_metadata_keeps_header
                  ("title: A" ++ Py.NL ++ Py.NL ++ "# B" ++ Py.NL ++ "text"))).
  vm_compute. reflexivity.
Defined.

(** ** More of [aggregate_articles] *)

Lemma aggregate_update_titles (st : agg_state) (a : article) :
  acc_titles (aggregate_update st a) = acc_titles st ++ usable_title a.
Proof.
  unfold aggregate_update, usable_title. cbn [acc_titles].
  destruct (get (title a) "") as [t|];
    [destruct (Py.truthy t && negb (t =? removed_marker)%string)|];
    now rewrite ?app_nil_r.
Qed.

Lemma aggregate_fold_titles (l : list article) :
  forall st,
    acc_titles (fold_left aggregate_update l st)
    = acc_titles st ++ flat_map usable_title l.
Proof.
  induction l as [|a l IH]; intros st; simpl.
  - now rewrite app_nil_r.
  - now rewrite IH, aggregate_update_titles, <- app_assoc.
Qed.

Lemma prefix_chars_app (p r : list ascii) : Py.prefix_chars p (p ++ r) = Some r.
Proof.
  induction p as [|c p IH]; cbn [Py.prefix_chars app]; [reflexivity|].
  now rewrite Ascii.eqb_refl.
Qed.

Lemma prefix_chars_firstn (p r : list ascii) (k : nat) (tail : list ascii) :
  length p <= k ->
  Py.prefix_chars p (firstn k (p ++ r) ++ tail) <> None.
Proof.
  revert k; induction p as [|c p IH]; intros k Hk; cbn [Py.prefix_chars].
  - discriminate.
  - cbn [length] in Hk. destruct k as [|k]; [lia|].
    cbn [app firstn]. rewrite Ascii.eqb_refl. apply IH. lia.
Qed.

(** X5.  The topic [aggregate_articles] makes up for articles with
    readable sources: the fixed text without a usable title, the title
    when there is one, and with two or more a text of at most 153
    characters that starts with "Comprehensive Crypto: ". *)
Theorem aggregate_articles_topic (first : article) (others : list article)
  (category : string) :
  forallb readable_source (first :: others) = true ->
  exists c,
    aggregate_articles (first :: others) category = Ok (Some c)
    /\ match flat_map usable_title (first :: others) with
       | [] => consolidated_topic c = "Recent Cryptocurrency News"
       | [t] => consolidated_topic c = t
       | _ :: _ :: _ =>
           String.length (consolidated_topic c) <= 153
           /\ Py.startswith "Comprehensive Crypto: " (consolidated_topic c) = true
       end.
Proof.
  intros Hr. rewrite aggregate_articles_readable, Hr.
  eexists. split; [reflexivity|].
  unfold consolidate. cbv zeta. cbn [consolidated_topic].
  rewrite aggregate_fold_titles. cbn [acc_titles app].
  destruct (flat_map usable_title (first :: others)) as [|t [|t' rest]];
    [reflexivity | reflexivity |].
  set (topic := ("Comprehensive Crypto: " ++ t ++ " and more...")%string).
  destruct (Nat.ltb_spec 150 (Py.len topic)) as [Hlong|Hshort].
  - split.
    + rewrite <- length_chars, chars_append, length_app, !length_chars.
      pose proof (length_take 150 topic). cbn [String.length]. lia.
    + unfold Py.startswith, Py.take.
      rewrite chars_append, chars_str. unfold topic. rewrite chars_append.
      destruct (Py.prefix_chars _ _) eqn:E; [reflexivity|].
      exfalso. revert E. apply prefix_chars_firstn. cbn. lia.
  - split; [unfold Py.len in Hshort; lia|].
    unfold Py.startswith, topic. rewrite chars_append.
    now rewrite prefix_chars_app.
Qed.

Lemma aggregate_articles_topic_witness :
  exists c,
    aggregate_articles sample_articles "crypto" = Ok (Some c)
    /\ consolidated_topic c = "Bitcoin hits record".
Proof.
  exact (aggregate_articles_topic
           (hd (Article Null Null Null Null Null None) sample_articles)
           (tl sample_articles) "crypto" eq_refl).
Defined.

Lemma set_add_In (d x : string) (s : list string) :
  In x (set_add d s) <-> x = d \/ In x s.
Proof.
  unfold set_add. destruct (existsb (String.eqb d) s) eqn:E.
  - split; [now right|]. intros [->|H]; [|exact H].
    apply existsb_exists in E. destruct E as [y [Hy Ey]].
    apply String.eqb_eq in Ey. now subst.
  - rewrite in_app_iff. cbn [In]. intuition.
Qed.

Lemma set_add_NoDup (d : string) (s : list string) :
  NoDup s -> NoDup (set_add d s).
Proof.
  intros H. unfold set_add. destruct (existsb (String.eqb d) s) eqn:E; [exact H|].
  apply NoDup_app; [exact H | constructor; [intros [] | constructor] |].
  intros x Hx [->|[]].
  assert (existsb (String.eqb x) s = true); [|congruence].
  apply existsb_exists. exists x. split; [exact Hx | apply String.eqb_refl].
Qed.

Lemma aggregate_fold_domains (l : list article) :
  forall st,
    NoDup (acc_domains st) ->
    NoDup (acc_domains (fold_left aggregate_update l st))
    /\ forall d,
         In d (acc_domains (fold_left aggregate_update l st))
         <-> In d (acc_domains st)
             \/ (Py.truthy d = true
                 /\ exists a, In a l /\ source_domain_of (get (url a) "") = d).
Proof.
  induction l as [|a l IH]; intros st Hst; cbn [fold_left].
  - split; [exact Hst|]. intros d. split; [now left|].
    intros [H|[_ [a [[] _]]]]; exact H.
  - assert (Hstep : acc_domains (aggregate_update st a)
                    = if Py.truthy (source_domain_of (get (url a) ""))
                      then set_add (source_domain_of (get (url a) "")) (acc_domains st)
                      else acc_domains st) by reflexivity.
    destruct (IH (aggregate_update st a)) as [Hnd Hin].
    { rewrite Hstep. destruct (Py.truthy _); [now apply set_add_NoDup | exact Hst]. }
    split; [exact Hnd|]. intros d. rewrite Hin, Hstep. cbn [In].
    destruct (Py.truthy (source_domain_of (get (url a) ""))) eqn:Et.
    + rewrite set_add_In. split.
      * intros [[->|H]|[Hd [b [Hb Eb]]]].
        -- right. split; [exact Et|]. exists a. auto.
        -- now left.
        -- right. split; [exact Hd|]. exists b. auto.
      * intros [H|[Hd [b [[<-|Hb] Eb]]]].
        -- left. now right.
        -- left. left. now symmetry.
        -- right. split; [exact Hd|]. exists b. auto.
    + split.
      * intros [H|[Hd [b [Hb Eb]]]]; [now left|].
        right. split; [exact Hd|]. exists b. auto.
      * intros [H|[Hd [b [[<-|Hb] Eb]]]].
        -- now left.
        -- rewrite Eb in Et. congruence.
        -- right. split; [exact Hd|]. exists b. auto.
Qed.

(** X6.  The competitors [aggregate_articles] returns for articles with
    readable sources are exactly the non-empty domains of the articles'
    urls, each of them once. *)
Theorem aggregate_articles_competitors (first : article) (others : list article)
  (category : string) :
  forallb readable_source (first :: others) = true ->
  exists c,
    aggregate_articles (first :: others) category = Ok (Some c)
    /\ NoDup (competitors c)
    /\ forall d,
         In d (competitors c)
         <-> Py.truthy d = true
             /\ exists a, In a (first :: others)
                          /\ source_domain_of (get (url a) "") = d.
Proof.
  intros Hr. rewrite aggregate_articles_readable, Hr.
  eexists. split; [reflexivity|].
  unfold consolidate. cbv zeta. cbn [competitors].
  destruct (aggregate_fold_domains (first :: others) (AggState [] [] [] None [] None))
    as [Hnd Hin]; [constructor|].
  split; [exact Hnd|]. intros d. rewrite Hin. cbn [acc_domains In]. tauto.
Qed.

Lemma aggregate_articles_competitors_witness :
  exists c,
    aggregate_articles sample_articles "crypto" = Ok (Some c)
    /\ NoDup (competitors c)
    /\ forall d,
         In d (competitors c)
         <-> Py.truthy d = true
             /\ exists a, In a sample_articles
                          /\ source_domain_of (get (url a) "") = d.
Proof.
  exact (aggregate_articles_competitors
           (hd (Article Null Null Null Null Null None) sample_articles)
           (tl sample_articles) "crypto" eq_refl).
Defined.

Lemma aggregate_fold_picture (l : list article) :
  forall st,
    let st' := fold_left aggregate_update l st in
    if truthy_opt (acc_image_url st)
    then acc_image_url st' = acc_image_url st /\ acc_primary st' = acc_primary st
    else match find has_picture l with
         | Some a =>
             acc_image_url st' = get (urlToImage a) ""
             /\ acc_primary st' = get (url a) ""
         | None =>
             acc_image_url st' = acc_image_url st /\ acc_primary st' = acc_primary st
         end.
Proof.
  induction l as [|a l IH]; intros st; cbv zeta; cbn [fold_left find].
  - destruct (truthy_opt (acc_image_url st)); auto.
  - assert (Himg : acc_image_url (aggregate_update st a)
                   = if negb (truthy_opt (acc_image_url st)) && has_picture a
                     then get (urlToImage a) "" else acc_image_url st) by reflexivity.
    assert (Hsrc : acc_primary (aggregate_update st a)
                   = if negb (truthy_opt (acc_image_url st)) && has_picture a
                     then get (url a) "" else acc_primary st) by reflexivity.
    specialize (IH (aggregate_update st a)). cbv zeta in IH.
    rewrite Himg, Hsrc in IH.
    destruct (truthy_opt (acc_image_url st)) eqn:Est; cbn [negb andb] in IH.
    + rewrite Est in IH. exact IH.
    + destruct (has_picture a) eqn:Ea.
      * unfold has_picture in Ea. rewrite Ea in IH. exact IH.
      * rewrite Est in IH. exact IH.
Qed.

(** X7.  The picture and the source url [aggregate_articles] returns for
    articles with readable sources come from the same article, the first
    one that carries a picture; the source url falls back to the url of
    the first article when that article has none or no article carries a
    picture. *)
Theorem aggregate_articles_picture_source (first : article) (others : list article)
  (category : string) :
  forallb readable_source (first :: others) = true ->
  let fallback := get (url first) "https://news.example.com/source-unavailable" in
  exists c,
    aggregate_articles (first :: others) category = Ok (Some c)
    /\ match find has_picture (first :: others) with
       | Some a =>
           image_url c = get (urlToImage a) ""
           /\ primary_source_url c
              = (if truthy_opt (get (url a) "") then get (url a) "" else fallback)
       | None => image_url c = None /\ primary_source_url c = fallback
       end.
Proof.
  intros Hr. cbv zeta. rewrite aggregate_articles_readable, Hr.
  eexists. split; [reflexivity|].
  unfold consolidate. cbv zeta. cbn [image_url primary_source_url].
  pose proof (aggregate_fold_picture (first :: others)
                (AggState [] [] [] None [] None)) as H.
  cbv zeta in H. cbn [acc_image_url acc_primary truthy_opt] in H.
  destruct (find has_picture (first :: others)) as [a|];
    destruct H as [-> ->]; split; try reflexivity.
  destruct (truthy_opt (get (url a) "")); reflexivity.
Qed.

Lemma aggregate_articles_picture_source_witness :
  exists c,
    aggregate_articles sample_articles "crypto" = Ok (Some c)
    /\ image_url c = None
    /\ primary_source_url c = Some "https://a.com/x".
Proof.
  exact (aggregate_articles_picture_source
           (hd (Article Null Null Null Null Null None) sample_articles)
           (tl sample_articles) "crypto" eq_refl).
Defined.

(** ** The outcome of the requests *)

Lemma always_random_uniform (a b : Q) : always_returns (random_uniform a b) (fun _ => True).
Proof. intros w n. eexists. split; [reflexivity | exact I]. Qed.

Lemma always_sleep (seconds : Q) : always_returns (sleep seconds) (fun _ => True).
Proof. intros w n. eexists. split; [reflexivity | exact I]. Qed.

Lemma together_attempts_always (max d : nat) (fp : string) (r : nat) :
  forall i, always_returns (together_attempts r i max d fp) (fun _ => True).
Proof.
  induction r as [|r IH]; intros i; cbn [together_attempts].
  - now apply always_ret.
  - apply always_try; [apply ensures_any|].
    intros e. destruct (is_RequestException e); [destruct (i <? max - 1)|];
      eexists; (split; [reflexivity|]); try now apply always_ret.
    eapply always_bind; [apply always_random_uniform|]. intros jitter _.
    eapply always_bind; [apply always_sleep|]. intros _ _. apply IH.
Qed.

(** X8.  [generate_image_from_hf] never raises: every failure of the
    request or of the download ends in [None].  Without the key it makes
    no request at all. *)
Theorem generate_image_from_hf_never_raises (cfg : Config) (prompt_text : string)
  (w : World) (n : nat) :
  exists bytes,
    value_of (generate_image_from_hf cfg prompt_text w n) = Ok bytes
    /\ (TOGETHER_API_KEY cfg = false ->
        bytes = None /\ trace_of (generate_image_from_hf cfg prompt_text w n) = []).
Proof.
  unfold generate_image_from_hf, generate_image_from_hf_.
  destruct (TOGETHER_API_KEY cfg); cbn [negb].
  - destruct (together_attempts_always 3 5 (prompt_text ++ " --ar 16:9") 3 0 w n)
      as [bytes [E _]].
    exists bytes. split; [exact E | discriminate].
  - exists None. split; [reflexivity | intros _; split; reflexivity].
Qed.

Lemma transform_image_value (bytes title_text category_text folder safe : string)
  (w : World) (n : nat) :
  let path :=
    (IMAGE_OUTPUT_FOLDER ++ "/" ++ folder ++ "/" ++ safe ++ "_"
     ++ decimal (clock w n) ++ ".jpg")%string in
  transform_image bytes title_text category_text folder safe w n
  = if Py.truthy bytes
    then
      match decode_image w bytes with
      | Ok _ =>
          let layers := compose (branding_logo w) (getbbox w) title_text in
          match write_file w (S n) path with
          | Ok _ =>
              (Ok (Some path,
                   Some ("data:image/jpeg;base64,"
                         ++ b64encode w (jpeg_bytes w layers))%string),
               S (S n), [Composite title_text layers; WriteImage path])
          | Raise _ =>
              (Ok (None, None), S (S n),
               [Composite title_text layers; WriteImage path])
          end
      | Raise _ => (Ok (None, None), n, [])
      end
    else (Ok (None, None), n, []).
Proof.
  cbv zeta. unfold transform_image.
  destruct (Py.truthy bytes); [|reflexivity].
  cbv beta iota zeta delta [negb try_ bind reading].
  destruct (decode_image w bytes) as [u|e]; [|reflexivity].
  cbv beta iota zeta delta [try_ bind reading emit ask ask_quiet ret raise app].
  destruct (write_file w (S n) _) as [u'|e]; reflexivity.
Qed.



(** ** The text wrapper *)

Lemma gemini_attempts_outcome (max d : nat) (m : model) (p : prompt) (w : World)
  (r : nat) :
  forall i n,
    S r + i = max ->
    match value_of (gemini_attempts (S r) i max d m p w n) with
    | Ok res => exists text, res = Some text /\ Py.strip text <> ""
    | Raise e => exists k, text_attempt w k p = Raise e
    end.
Proof.
  induction r as [|r IH]; intros i n Hmax; rewrite gemini_attempts_S.
  - assert (Hlast : (i <? max - 1) = false) by (apply Nat.ltb_ge; lia).
    destruct (text_attempt w n p) as [text|e] eqn:E.
    + unfold value_of; cbn [fst]. exists text. split; [reflexivity|].
      unfold text_attempt in E. destruct (generate_content w n p) as [t|]; [|discriminate].
      destruct (negb (Py.truthy t) || (Py.strip t =? "")%string) eqn:B; [discriminate|].
      injection E as <-. apply orb_false_iff in B. destruct B as [_ B].
      now apply String.eqb_neq.
    + rewrite Hlast, andb_false_r. unfold value_of; cbn [fst]. now exists n.
  - destruct (text_attempt w n p) as [text|e] eqn:E.
    + unfold value_of; cbn [fst]. exists text. split; [reflexivity|].
      unfold text_attempt in E. destruct (generate_content w n p) as [t|]; [|discriminate].
      destruct (negb (Py.truthy t) || (Py.strip t =? "")%string) eqn:B; [discriminate|].
      injection E as <-. apply orb_false_iff in B. destruct B as [_ B].
      now apply String.eqb_neq.
    + destruct (retryable e && (i <? max - 1)).
      * specialize (IH (S i) (S (S n))).
        destruct (gemini_attempts (S r) (S i) max d m p w (S (S n))) as [[res n'] t].
        unfold value_of in *; cbn [fst] in *. apply IH. lia.
      * unfold value_of; cbn [fst]. now exists n.
Qed.

(** X11.  The retry wrapper of the text model, called with its default
    arguments, never returns [None] and never returns a blank text: it
    returns a text with a character that is not white space, or it raises
    the exception of one of its attempts. *)
Theorem gemini_wrapper_returns_text (m : model) (p : prompt) (w : World) (n : nat) :
  match value_of (_gemini_generate_content_with_retry m p w n) with
  | Ok res => exists text, res = Some text /\ Py.strip text <> ""
  | Raise e => exists k, text_attempt w k p = Raise e
  end.
Proof.
  unfold _gemini_generate_content_with_retry, _gemini_generate_content_with_retry_.
  apply (gemini_attempts_outcome LLM_MAX_RETRIES LLM_INITIAL_RETRY_DELAY_SECONDS
           m p w 4 0 n).
  reflexivity.
Qed.

(** ** Fetching *)

Lemma newsapi_attempts_outcome (max : nat) (query : string) (k : nat) (w : World)
  (r : nat) :
  forall i n,
    S r + i = max ->
    match value_of (newsapi_attempts (S r) i max query k w n) with
    | Ok res => exists articles, res = Some articles
    | Raise e => is_RequestException e = false /\ is_JSONDecodeError e = false
    end.
Proof.
  induction r as [|r IH]; intros i n Hmax; rewrite newsapi_attempts_S.
  - assert (Hlast : (i <? max - 1) = false) by (apply Nat.ltb_ge; lia).
    destruct (newsapi w n) as [articles|e].
    + unfold value_of; cbn [fst]. now exists articles.
    + rewrite Hlast.
      destruct (is_RequestException e) eqn:E1; [unfold value_of; cbn [fst]; now eexists|].
      destruct (is_JSONDecodeError e) eqn:E2; unfold value_of; cbn [fst];
        [now eexists | now split].
  - destruct (newsapi w n) as [articles|e].
    + unfold value_of; cbn [fst]. now exists articles.
    + destruct (is_RequestException e) eqn:E1.
      * destruct (i <? max - 1).
        -- specialize (IH (S i) (S n)).
           destruct (newsapi_attempts (S r) (S i) max query k w (S n)) as [[res n'] t].
           unfold value_of in *; cbn [fst] in *. apply IH. lia.
        -- unfold value_of; cbn [fst]. now eexists.
      * destruct (is_JSONDecodeError e) eqn:E2; unfold value_of; cbn [fst];
          [now eexists | now split].
Qed.

(** X12.  [fetch_newsapi_articles] returns a list, never [None]; request
    errors and undecodable answers end in a list too, so an exception that
    leaves the function is neither a request error nor a JSON error. *)
Theorem fetch_newsapi_articles_outcome (query : string) (max_articles_to_fetch : nat)
  (w : World) (n : nat) :
  match value_of (fetch_newsapi_articles query max_articles_to_fetch w n) with
  | Ok res => exists articles, res = Some articles
  | Raise e => is_RequestException e = false /\ is_JSONDecodeError e = false
  end.
Proof.
  unfold fetch_newsapi_articles, fetch_newsapi_articles_.
  apply (newsapi_attempts_outcome 3 query max_articles_to_fetch w 2 0 n).
  reflexivity.
Qed.

(** ** The loop over the topics *)

Lemma transform_image_always (bytes title_text category_text folder safe : string) :
  always_returns (transform_image bytes title_text category_text folder safe)
    (fun _ => True).
Proof.
  intros w n. rewrite transform_image_value. cbv zeta.
  destruct (Py.truthy bytes); [|eexists; split; [reflexivity | exact I]].
  destruct (decode_image w bytes); [|eexists; split; [reflexivity | exact I]].
  destruct (write_file w (S n) _); eexists; (split; [reflexivity | exact I]).
Qed.

Lemma always_lift {A} (a : A) (P : A -> Prop) : P a -> always_returns (lift (Ok a)) P.
Proof. intros H w n. exists a. split; [reflexivity | exact H]. Qed.

Lemma featured_image_always (cfg : Config) (topic current_category : string) :
  always_returns (featured_image cfg (JStr topic) (JStr topic) current_category)
    (fun _ => True).
Proof.
  unfold featured_image.
  destruct (TOGETHER_API_KEY cfg) eqn:K; [|now apply always_ret].
  eapply always_bind; [now apply always_reading with (P := fun _ => True)|].
  intros text _. eapply always_bind.
  - unfold generate_image_from_hf, generate_image_from_hf_. rewrite K. cbn [negb].
    apply together_attempts_always.
  - intros [bytes|] _; [|now apply always_ret].
    destruct (Py.truthy bytes); [|now apply always_ret].
    cbn [sanitize_filename_of].
    eapply always_bind; [now apply always_reading with (P := fun _ => True)|].
    intros safe _.
    eapply always_bind; [now apply always_reading with (P := fun _ => True)|].
    intros title_text _. apply transform_image_always.
Qed.

Lemma aggregate_articles_returns (articles_list : list article) (category : string) :
  forallb readable_source articles_list = true ->
  exists r, aggregate_articles articles_list category = Ok r.
Proof.
  intros H. destruct articles_list as [|a l]; [now exists None|].
  rewrite aggregate_articles_readable, H. eexists. reflexivity.
Qed.

Lemma process_topic_always (cfg : Config) (raw_articles : list article)
  (topic_index : nat) (topic : string) :
  forallb readable_source raw_articles = true ->
  always_returns (process_topic cfg raw_articles topic_index (JStr topic))
    (fun _ => True).
Proof.
  intros Hraw. unfold process_topic. cbv zeta.
  eapply always_bind; [apply filter_articles_by_topic_always|].
  intros topic_articles Hincl.
  destruct (aggregate_articles_returns topic_articles BLOG_CATEGORY) as [r ->].
  { apply forallb_forall. intros a Ha.
    rewrite forallb_forall in Hraw. apply Hraw, Hincl, Ha. }
  eapply always_bind; [now apply always_lift with (P := fun _ => True)|].
  intros [c|] _; [|now apply always_ret].
  eapply always_bind; [apply featured_image_always|].
  intros [path b64] _.
  apply always_try; [apply ensures_any|].
  intros e. eexists. split; [reflexivity|]. now apply always_ret.
Qed.

(** X13.  With topics that are strings and articles whose sources are
    readable, the loop of [main] over the topics never raises: whatever
    fails for one topic, in the filter, the picture, the research, the
    text, the file or the post, the loop goes on to the next topic and
    ends normally. *)
Theorem process_topics_never_raises (cfg : Config) (raw_articles : list article)
  (topic_index : nat) (trending_topics : list string) (w : World) (n : nat) :
  forallb readable_source raw_articles = true ->
  value_of (process_topics cfg raw_articles topic_index (map JStr trending_topics) w n)
  = Ok tt.
Proof.
  intros Hraw. revert topic_index w n.
  induction trending_topics as [|topic tl IH]; intros topic_index w n;
    cbn [process_topics map]; [reflexivity|].
  rewrite value_bind.
  destruct (process_topic_always cfg raw_articles topic_index topic Hraw w n)
    as [[] [-> _]].
  apply IH.
Qed.

Lemma process_topics_never_raises_witness :
  value_of (process_topics full_config sample_articles 1
              [JStr "Bitcoin"; JStr "Ethereum"] failing_world 0)
  = Ok tt.
Proof.
  exact (process_topics_never_raises full_config sample_articles 1
           ["Bitcoin"; "Ethereum"] failing_world 0 eq_refl).
Defined.

(** ** What a run never does *)

Lemma never_ret {A} (kind : event -> bool) (a : A) : never kind (ret a).
Proof. intros w n. constructor. Qed.

Lemma never_raise {A} (kind : event -> bool) (e : exn) : never kind (@raise A e).
Proof. intros w n. constructor. Qed.

Lemma never_reading {A} (kind : event -> bool) (f : World -> A) :
  never kind (reading f).
Proof. intros w n. constructor. Qed.

Lemma never_ask_quiet {A} (kind : event -> bool) (f : World -> nat -> A) :
  never kind (ask_quiet f).
Proof. intros w n. constructor. Qed.

Lemma never_emit (kind : event -> bool) (e : event) :
  kind e = false -> never kind (emit e).
Proof. intros H w n. repeat constructor. exact H. Qed.

Lemma never_ask {A} (kind : event -> bool) (e : event) (f : World -> nat -> result A) :
  kind e = false -> never kind (ask e f).
Proof. intros H w n. repeat constructor. exact H. Qed.

Lemma never_bind {A B} (kind : event -> bool) (c : M A) (k : A -> M B) :
  never kind c -> (forall a, never kind (k a)) -> never kind (bind c k).
Proof.
  intros Hc Hk w n. rewrite trace_bind. apply Forall_app. split; [apply Hc|].
  destruct (value_of (c w n)); [apply Hk | constructor].
Qed.

Lemma never_try {A} (kind : event -> bool) (c : M A) (h : exn -> option (M A)) :
  never kind c -> (forall e k, h e = Some k -> never kind k) -> never kind (try_ c h).
Proof.
  intros Hc Hh w n. rewrite trace_try. apply Forall_app. split; [apply Hc|].
  destruct (value_of (c w n)) as [a|e]; [constructor|].
  destruct (h e) as [k|] eqn:E; [apply (Hh e k E) | constructor].
Qed.

Lemma never_try_all {A} (kind : event -> bool) (c k : M A) :
  never kind c -> never kind k -> never kind (try_ c (fun _ => Some k)).
Proof.
  intros Hc Hk. apply never_try; [exact Hc|]. intros e k' [= <-]. exact Hk.
Qed.

Ltac never_step :=
  first
    [ apply never_ret | apply never_raise | apply never_reading
    | apply never_ask_quiet
    | apply never_try_all
    | apply never_bind; [|intros ?] ].

Section Never.

Variable kind : event -> bool.
Variable cfg : Config.
Hypothesis kind_news : forall q k, kind (NewsApiGet q k) = false.
Hypothesis kind_sleep : forall s, kind (Sleep s) = false.
Hypothesis kind_render : forall md, kind (MarkdownToHtml md) = false.
Hypothesis kind_write : forall p h, kind (WriteHtml p h) = false.
Hypothesis kind_text :
  GEMINI_API_KEY cfg = true -> forall m p, kind (GeminiGenerate m p) = false.
Hypothesis kind_image :
  TOGETHER_API_KEY cfg = true -> forall e, is_image_event e = true -> kind e = false.
Hypothesis kind_post :
  credentials cfg = Some true -> blog_id_configured cfg = true ->
  forall t l, kind (BloggerInsert t l) = false.

Lemma never_sleep (seconds : Q) : never kind (sleep seconds).
Proof. apply never_emit, kind_sleep. Qed.

Lemma never_random_uniform (a b : Q) : never kind (random_uniform a b).
Proof. unfold random_uniform. repeat never_step. Qed.

Lemma never_newsapi_attempts (max : nat) (query : string) (k : nat) (r : nat) :
  forall i, never kind (newsapi_attempts r i max query k).
Proof.
  induction r as [|r IH]; intros i; cbn [newsapi_attempts]; [apply never_ret|].
  apply never_try.
  - apply never_bind; [apply never_ask, kind_news|].
    intros [|a l]; apply never_ret.
  - intros e k'. destruct (is_RequestException e).
    + intros [= <-]. destruct (i <? max - 1); [|apply never_ret].
      apply never_bind; [apply never_sleep | intros _; apply IH].
    + destruct (is_JSONDecodeError e); [|discriminate].
      intros [= <-]. apply never_ret.
Qed.

Lemma never_gemini_attempts (max d : nat) (m : model) (p : prompt) (r : nat) :
  GEMINI_API_KEY cfg = true ->
  forall i, never kind (gemini_attempts r i max d m p).
Proof.
  intros K. induction r as [|r IH]; intros i; cbn [gemini_attempts];
    [apply never_ret|].
  apply never_try.
  - apply never_bind; [apply never_ask, kind_text, K|].
    intros text. destruct (negb (Py.truthy text) || (Py.strip text =? "")%string);
      [apply never_raise | apply never_ret].
  - intros e k'. destruct (retryable e); [|discriminate].
    intros [= <-]. destruct (i <? max - 1); [|apply never_raise].
    apply never_bind; [apply never_random_uniform|]. intros jitter.
    apply never_bind; [apply never_sleep | intros _; apply IH].
Qed.

Lemma never_wrapper (m : model) (p : prompt) :
  GEMINI_API_KEY cfg = true ->
  never kind (_gemini_generate_content_with_retry m p).
Proof. intros K. now apply never_gemini_attempts. Qed.

Lemma never_response_text (response : option string) :
  never kind (response_text response).
Proof. destruct response; [apply never_ret | apply never_raise]. Qed.

Lemma never_extract (articles_list : list article) (num_topics : nat) :
  never kind (extract_multiple_trending_topics cfg articles_list num_topics).
Proof.
  unfold extract_multiple_trending_topics, RESEARCH_MODEL.
  case_eq (GEMINI_API_KEY cfg); intros K; [|apply never_ret].
  destruct articles_list as [|a l]; [apply never_ret|].
  destruct (negb (Py.truthy (text_to_analyze_of (a :: l)))); [apply never_ret|].
  apply never_try_all; [|apply never_ret].
  apply never_bind; [now apply never_wrapper|]. intros response.
  apply never_bind; [apply never_response_text|]. intros text.
  apply never_bind; [apply never_reading|]. intros loaded.
  destruct loaded as [[| | | |topics|]|]; try apply never_ret.
  - destruct (num_topics <=? length topics); apply never_ret.
  - cbv zeta. destruct (num_topics <=? length _); apply never_ret.
Qed.

Lemma never_lift {A} (r : result A) : never kind (lift r).
Proof. intros w n. constructor. Qed.

Lemma never_sanitize_filename_of (v : json) : never kind (sanitize_filename_of v).
Proof. destruct v; cbn [sanitize_filename_of]; (apply never_reading || apply never_raise). Qed.

Lemma never_sliceable (v : json) :
  never kind (if sliceable v then ret tt else raise (OtherException "TypeError")).
Proof. destruct (sliceable v); [apply never_ret | apply never_raise]. Qed.

Lemma never_filter (articles : list article) (topic : json) :
  never kind (filter_articles_by_topic cfg articles topic).
Proof.
  unfold filter_articles_by_topic, RESEARCH_MODEL.
  case_eq (GEMINI_API_KEY cfg); intros K; [|apply never_ret].
  apply never_bind; [apply never_reading|]. intros text_of_topic.
  apply never_try_all; [|apply never_ret].
  apply never_bind; [now apply never_wrapper|]. intros response.
  apply never_bind; [apply never_response_text|]. intros text.
  apply never_bind; [apply never_reading|]. intros loaded.
  destruct loaded as [[| | | |relevant_indices|]|];
    try apply never_ret; try apply never_raise.
  destruct (pick_articles articles relevant_indices);
    [apply never_ret | apply never_raise].
Qed.

Lemma never_research (target_topic : json) (competitors : list string) :
  never kind (perform_research_agent cfg target_topic competitors).
Proof.
  unfold perform_research_agent, RESEARCH_MODEL.
  case_eq (GEMINI_API_KEY cfg); intros K; [|apply never_ret].
  apply never_bind; [apply never_reading|]. intros text_of_topic.
  apply never_try_all; [|apply never_ret].
  apply never_bind; [apply never_sliceable|]. intros _.
  apply never_bind; [now apply never_wrapper|]. intros response.
  apply never_bind; [apply never_response_text|]. intros text.
  destruct (search (DOTALL F0) json_fence_re text) as [json_match|].
  - cbv zeta. apply never_bind; [apply never_reading|].
    intros [research_data|]; [apply never_ret | apply never_raise].
  - apply never_bind; [apply never_reading|].
    intros [research_data|]; apply never_ret.
Qed.

Lemma never_content (data : article_data) (research_output : json)
  (transformed_image_filepath : option string) :
  never kind (generate_content_agent cfg data research_output
                transformed_image_filepath).
Proof.
  unfold generate_content_agent, CONTENT_MODEL.
  case_eq (GEMINI_API_KEY cfg); intros K; [|apply never_ret].
  apply never_bind; [apply never_reading|]. intros ok.
  destruct (negb ok); [apply never_raise|]. cbv zeta.
  apply never_try_all; [|apply never_ret].
  apply never_bind; [apply never_sliceable|]. intros _.
  apply never_bind; [now apply never_wrapper|]. intros response.
  apply never_bind; [apply never_response_text|]. intros text.
  apply never_bind; [apply never_reading|]. intros block.
  apply never_ret.
Qed.

Lemma never_together_attempts (max d : nat) (fp : string) (r : nat) :
  TOGETHER_API_KEY cfg = true ->
  forall i, never kind (together_attempts r i max d fp).
Proof.
  intros K. induction r as [|r IH]; intros i; cbn [together_attempts];
    [apply never_ret|].
  apply never_try.
  - apply never_bind; [apply never_ask, (kind_image K); reflexivity|].
    intros [image_url|]; [|apply never_raise].
    apply never_bind; [apply never_ask, (kind_image K); reflexivity|].
    intros bytes. apply never_ret.
  - intros e k'. destruct (is_RequestException e).
    + intros [= <-]. destruct (i <? max - 1); [|apply never_ret].
      apply never_bind; [apply never_random_uniform|]. intros jitter.
      apply never_bind; [apply never_sleep | intros _; apply IH].
    + intros [= <-]. apply never_ret.
Qed.

Lemma never_transform_image (bytes title_text category_text folder safe : string) :
  TOGETHER_API_KEY cfg = true ->
  never kind (transform_image bytes title_text category_text folder safe).
Proof.
  intros K w n. rewrite transform_image_value. cbv zeta.
  destruct (Py.truthy bytes); [|constructor].
  destruct (decode_image w bytes); [|constructor].
  destruct (write_file w (S n) _); unfold trace_of; cbn [snd];
    repeat constructor; apply (kind_image K); reflexivity.
Qed.

Lemma never_featured_image (trending_topic consolidated_topic : json)
  (current_category : string) :
  never kind (featured_image cfg trending_topic consolidated_topic current_category).
Proof.
  unfold featured_image.
  case_eq (TOGETHER_API_KEY cfg); intros K; [|apply never_ret].
  apply never_bind; [apply never_reading|]. intros text_of_topic.
  apply never_bind.
  - unfold generate_image_from_hf, generate_image_from_hf_. rewrite K. cbn [negb].
    now apply never_together_attempts.
  - intros [bytes|]; [|apply never_ret].
    destruct (Py.truthy bytes); [|apply never_ret].
    apply never_bind; [apply never_sanitize_filename_of|]. intros safe.
    apply never_bind; [apply never_reading|]. intros title_text.
    now apply never_transform_image.
Qed.

Lemma never_save_blog_post (topic : json) (markdown category : string)
  (path b64 source : option string) :
  never kind (save_blog_post topic markdown category path b64 source).
Proof.
  unfold save_blog_post.
  destruct (parse_markdown_metadata markdown) as [metadata body]. cbv zeta.
  apply never_bind; [apply never_reading|]. intros title_text.
  apply never_bind.
  { destruct (negb (Py.truthy _)); [|apply never_ret].
    apply never_bind; [apply never_sanitize_filename_of|]. intros safe.
    apply never_ret. }
  intros keywords.
  apply never_bind; [apply never_reading|]. intros now_.
  apply never_bind; [apply never_emit, kind_render|]. intros _.
  apply never_bind; [apply never_sanitize_filename_of|]. intros safe.
  apply never_bind; [apply never_reading|]. intros html.
  apply never_bind; [apply never_ask, kind_write|]. intros _.
  apply never_ret.
Qed.

Lemma never_post_to_blogger (path html : string) :
  blog_id_configured cfg = true ->
  never kind (post_to_blogger cfg path html).
Proof.
  intros B. unfold post_to_blogger.
  case_eq (credentials cfg); [intros [|] C|intros C]; try apply never_ret.
  destruct (post_title_and_labels html) as [post_title post_labels].
  apply never_try_all; [|apply never_ret].
  apply never_bind; [apply never_ask; now apply kind_post|].
  intros _. apply never_ret.
Qed.

Lemma never_publish (topic_index : nat) (topic : json) (markdown category : string)
  (path b64 source : option string) :
  never kind (publish cfg topic_index topic markdown category path b64 source).
Proof.
  unfold publish.
  apply never_bind; [apply never_save_blog_post|]. intros [saved written].
  apply never_bind.
  - destruct (Py.truthy saved); cbn [andb]; [|apply never_ret].
    case_eq (credentials cfg); [intros valid C|intros C]; cbn [andb]; [|apply never_ret].
    case_eq (blog_id_configured cfg); intros B; [|apply never_ret].
    apply never_bind; [now apply never_post_to_blogger|]. intros _. apply never_ret.
  - intros _. destruct (topic_index <? NUM_BLOGS_TO_CREATE);
      [apply never_sleep | apply never_ret].
Qed.

Lemma never_after_research (topic_index : nat) (data : article_data)
  (research_output : json) (path b64 source : option string) :
  never kind (after_research cfg topic_index data research_output path b64 source).
Proof.
  unfold after_research.
  destruct (negb (json_truthy research_output)); [apply never_ret|].
  apply never_bind.
  { destruct (is_dict research_output); [apply never_ret | apply never_raise]. }
  intros _. apply never_bind; [apply never_content|].
  intros [markdown|]; [|apply never_ret].
  destruct (Py.truthy markdown); [apply never_publish | apply never_ret].
Qed.

Lemma never_write_post (topic_index : nat) (data : article_data)
  (effective_competitors : list string) (path b64 source : option string) :
  never kind (write_post cfg topic_index data effective_competitors path b64 source).
Proof.
  unfold write_post. cbv zeta.
  case (GEMINI_API_KEY cfg); [case (RESEARCH_MODEL cfg); [intros research_model|]|].
  - apply never_bind; [apply never_research|]. intros research_output.
    apply never_after_research.
  - apply never_bind; [apply never_reading|]. intros now_.
    apply never_bind; [apply never_reading|]. intros text_of_topic.
    apply never_publish.
  - apply never_bind; [apply never_reading|]. intros now_.
    apply never_bind; [apply never_reading|]. intros text_of_topic.
    apply never_publish.
Qed.

Lemma never_process_topic (raw_articles : list article) (topic_index : nat)
  (trending_topic : json) :
  never kind (process_topic cfg raw_articles topic_index trending_topic).
Proof.
  unfold process_topic. cbv zeta.
  apply never_bind; [apply never_filter|]. intros topic_articles.
  apply never_bind; [apply never_lift|]. intros [c|]; [|apply never_ret].
  apply never_bind; [apply never_featured_image|]. intros [path b64].
  apply never_try_all; [apply never_write_post | apply never_ret].
Qed.

Lemma never_process_topics (raw_articles : list article)
  (trending_topics : list json) :
  forall topic_index,
    never kind (process_topics cfg raw_articles topic_index trending_topics).
Proof.
  induction trending_topics as [|topic tl IH]; intros topic_index;
    cbn [process_topics]; [apply never_ret|].
  apply never_bind; [apply never_process_topic | intros _; apply IH].
Qed.

Lemma never_main : never kind (main cfg).
Proof.
  unfold main.
  destruct (negb (environment_valid cfg)); [apply never_ret|].
  destruct (blog_id_configured cfg
            && match credentials cfg with Some _ => false | None => true end);
    [apply never_ret|].
  apply never_bind; [apply never_newsapi_attempts|].
  intros [[|a l]|]; try apply never_ret.
  apply never_bind; [apply never_extract|]. intros trending_topics.
  apply never_process_topics.
Qed.

End Never.

(** X14.  Without the key of the text model a run of [main] makes no
    request to the text model at all. *)
Theorem main_without_text_key (cfg : Config) :
  GEMINI_API_KEY cfg = false -> never is_generate (main cfg).
Proof.
  intros K. apply never_main; try reflexivity.
  - rewrite K. discriminate.
  - intros _ [] H; try reflexivity; discriminate H.
Qed.

Lemma main_without_text_key_witness :
  never is_generate
    (main {| GEMINI_API_KEY := false; TOGETHER_API_KEY := true;
             environment_valid := true; blog_id_configured := true;
             credentials := Some true |}).
Proof. apply main_without_text_key. reflexivity. Defined.

(** X15.  Without the key of the image service a run of [main] requests
    no picture, downloads none, composites none and writes none. *)
Theorem main_without_image_key (cfg : Config) :
  TOGETHER_API_KEY cfg = false -> never is_image_event (main cfg).
Proof.
  intros K. apply never_main; try reflexivity.
  rewrite K. discriminate.
Qed.

Lemma main_without_image_key_witness :
  never is_image_event
    (main {| GEMINI_API_KEY := true; TOGETHER_API_KEY := false;
             environment_valid := true; blog_id_configured := true;
             credentials := Some true |}).
Proof. apply main_without_image_key. reflexivity. Defined.

(** X16.  A run of [main] sends a post to the blog host only with valid
    credentials and a configured blog: with credentials that are missing
    or not valid, or with no blog configured, it sends none. *)
Theorem main_posts_only_with_credentials (cfg : Config) :
  credentials cfg <> Some true \/ blog_id_configured cfg = false ->
  never is_blogger_insert (main cfg).
Proof.
  intros H. apply never_main; try reflexivity.
  - intros _ [] He; try reflexivity; discriminate He.
  - intros C B. destruct H as [H|H]; [contradiction | congruence].
Qed.

Lemma main_posts_only_with_credentials_witness :
  never is_blogger_insert
    (main {| GEMINI_API_KEY := true; TOGETHER_API_KEY := true;
             environment_valid := true; blog_id_configured := true;
             credentials := Some false |}).
Proof.
  apply main_posts_only_with_credentials. left. discriminate.
Defined.

(** X17.  When the fetch gives no article, whether the answer was empty,
    could not be decoded or the three requests failed, [main] returns
    normally having done nothing else: its trace holds only the requests
    to NewsAPI and the pauses between them. *)
Theorem main_stops_without_articles (cfg : Config) (w : World) (n : nat) :
  value_of (fetch_newsapi_articles CRYPTO_QUERY_TERM NUM_SOURCE_ARTICLES_TO_FETCH w n)
  = Ok (Some []) ->
  value_of (main cfg w n) = Ok tt
  /\ Forall (fun e => match e with NewsApiGet _ _ | Sleep _ => True | _ => False end)
       (trace_of (main cfg w n)).
Proof.
  intros H. unfold main.
  destruct (negb (environment_valid cfg)); [split; [reflexivity | constructor]|].
  destruct (blog_id_configured cfg
            && match credentials cfg with Some _ => false | None => true end);
    [split; [reflexivity | constructor]|].
  rewrite value_bind, trace_bind, H. cbn [ret value_of trace_of fst snd].
  split; [reflexivity|]. rewrite app_nil_r.
  pose proof (never_newsapi_attempts
                (fun e => match e with NewsApiGet _ _ | Sleep _ => false | _ => true end)
                (fun _ _ => eq_refl) (fun _ => eq_refl)
                3 CRYPTO_QUERY_TERM NUM_SOURCE_ARTICLES_TO_FETCH 3 0 w n) as Hn.
  eapply Forall_impl; [|exact Hn].
  intros [] He; try exact I; discriminate He.
Qed.

Lemma main_stops_without_articles_witness :
  value_of (main full_config failing_world 0) = Ok tt
  /\ Forall (fun e => match e with NewsApiGet _ _ | Sleep _ => True | _ => False end)
       (trace_of (main full_config failing_world 0)).
Proof.
  apply main_stops_without_articles. vm_compute. reflexivity.
Defined.

(** ** The cleaned text of a post *)

(** X18.  A text [generate_content_agent] returns went through
    [clean_ai_artifacts] last: it has no white space at its ends and holds
    no carriage return. *)
Theorem generate_content_agent_returns_clean_text (cfg : Config)
  (data : article_data) (research_output : json)
  (transformed_image_filepath : option string) (w : World) (n : nat) (text : string) :
  value_of (generate_content_agent cfg data research_output
              transformed_image_filepath w n) = Ok (Some text) ->
  stripped text /\ free_of Py.cr text.
Proof.
  assert (H : ensures (generate_content_agent cfg data research_output
                         transformed_image_filepath)
                (fun r => forall t, r = Some t -> stripped t /\ free_of Py.cr t)).
  { unfold generate_content_agent.
    destruct (CONTENT_MODEL cfg) as [content_model|];
      [|apply ensures_ret; discriminate].
    eapply ensures_bind; [apply ensures_any|]. intros ok _.
    destruct (negb ok); [apply ensures_raise|]. cbv zeta.
    apply ensures_try.
    - eapply ensures_bind; [apply ensures_any|]. intros checked _.
      eapply ensures_bind; [apply ensures_any|]. intros response _.
      eapply ensures_bind; [apply ensures_any|]. intros answer _.
      eapply ensures_bind; [apply ensures_any|]. intros block _.
      apply ensures_ret. intros t [= <-]. apply clean_ai_artifacts_clean.
    - intros e k [= <-]. apply ensures_ret. discriminate. }
  intros E. exact (H w n (Some text) E text eq_refl).
Qed.

Lemma generate_content_agent_returns_clean_text_witness :
  exists text,
    value_of (generate_content_agent full_config
                (ArticleData (JStr "T") "D" "C" "crypto")
                (JObj []) None smooth_world 0) = Ok (Some text)
    /\ stripped text /\ free_of Py.cr text.
Proof.
  eexists. split; [vm_compute; reflexivity|].
  apply (generate_content_agent_returns_clean_text full_config
           (ArticleData (JStr "T") "D" "C" "crypto") (JObj []) None smooth_world 0).
  vm_compute. reflexivity.
Defined.

(** ** The helpers around the workflow *)



(** X22.  [validate_environment] passes exactly when the three keys are
    set, the blog id is set and is not the placeholder, and the packages
    import: a missing key of the image service or of the text model fails
    the validation although its message speaks of skipping. *)
Theorem validate_environment_iff (newsapi_key together_key gemini_key : bool)
  (blogger_blog_id : string) (import_error : option string) :
  validate_environment newsapi_key together_key gemini_key blogger_blog_id import_error
  = true
  <-> newsapi_key = true /\ together_key = true /\ gemini_key = true
      /\ blogger_blog_id <> "" /\ blogger_blog_id <> "YOUR_BLOG_ID_HERE"
      /\ import_error = None.
Proof.
  unfold validate_environment, validation_errors, Py.truthy. cbv zeta.
  destruct newsapi_key, together_key, gemini_key;
    destruct (String.eqb_spec blogger_blog_id "");
    destruct (String.eqb_spec blogger_blog_id "YOUR_BLOG_ID_HERE");
    destruct import_error; cbn [negb orb app];
    (split; [intros H; try discriminate H; repeat split; auto
            | intros (H1 & H2 & H3 & H4 & H5 & H6);
              try discriminate; try contradiction; try reflexivity]).
Qed.

(** ** Trimming the borders *)

Lemma first_content_up (border : nat -> bool) (n : nat) :
  forall a,
    match first_content border (List.seq a n) with
    | Some y =>
        a <= y < a + n /\ border y = false
        /\ forall z, a <= z < y -> border z = true
    | None => forall z, a <= z < a + n -> border z = true
    end.
Proof.
  induction n as [|n IH]; intros a; cbn [List.seq first_content].
  - intros z Hz. lia.
  - destruct (border a) eqn:Ea; cbn [negb].
    + specialize (IH (S a)).
      destruct (first_content border (List.seq (S a) n)) as [y|].
      * destruct IH as [Hy [Hb Hz]]. split; [lia|]. split; [exact Hb|].
        intros z Hza. destruct (Nat.eq_dec z a) as [->|]; [exact Ea | apply Hz; lia].
      * intros z Hza. destruct (Nat.eq_dec z a) as [->|]; [exact Ea | apply IH; lia].
    + split; [lia|]. split; [exact Ea|]. intros z Hz. lia.
Qed.

Lemma first_content_down (border : nat -> bool) (n : nat) :
  forall a,
    match first_content border (rev (List.seq a n)) with
    | Some y =>
        a <= y < a + n /\ border y = false
        /\ forall z, y < z < a + n -> border z = true
    | None => forall z, a <= z < a + n -> border z = true
    end.
Proof.
  induction n as [|n IH]; intros a.
  - cbn. intros z Hz. lia.
  - rewrite seq_S, rev_app_distr. cbn [rev app first_content].
    destruct (border (a + n)) eqn:Ea; cbn [negb].
    + specialize (IH a).
      destruct (first_content border (rev (List.seq a n))) as [y|].
      * destruct IH as [Hy [Hb Hz]]. split; [lia|]. split; [exact Hb|].
        intros z Hza. destruct (Nat.eq_dec z (a + n)) as [->|];
          [exact Ea | apply Hz; lia].
      * intros z Hza. destruct (Nat.eq_dec z (a + n)) as [->|];
          [exact Ea | apply IH; lia].
    + split; [lia|]. split; [exact Ea|]. intros z Hz. lia.
Qed.

(** One side of the box: the first index that is not border from below
    and from above. *)
Lemma content_side (border : nat -> bool) (size : nat) :
  let low :=
    match first_content border (List.seq 0 size) with Some y => y | None => 0 end in
  let high :=
    match first_content border (range_down (size - 1) low) with
    | Some y => y + 1
    | None => size
    end in
  low <= high <= size
  /\ (0 < size -> low < high)
  /\ (forall z, z < size -> z < low \/ high <= z -> border z = true).
Proof.
  cbv zeta. unfold range_down.
  pose proof (first_content_up border size 0) as Hup.
  destruct (first_content border (List.seq 0 size)) as [low|].
  - destruct Hup as [Hlow [Hb Hbelow]].
    pose proof (first_content_down border (size - 1 - low) (S low)) as Hdown.
    destruct (first_content border (rev (List.seq (S low) (size - 1 - low)))) as [y|].
    + destruct Hdown as [Hy [_ Habove]]. split; [lia|]. split; [lia|].
      intros z Hz [Hl|Hh]; [apply Hbelow; lia | apply Habove; lia].
    + split; [lia|]. split; [lia|].
      intros z Hz [Hl|Hh]; [apply Hbelow; lia | lia].
  - pose proof (first_content_down border (size - 1 - 0) 1) as Hdown.
    destruct (first_content border (rev (List.seq 1 (size - 1 - 0)))) as [y|].
    + destruct Hdown as [Hy _]. split; [lia|]. split; [lia|].
      intros z Hz _. apply Hup. lia.
    + split; [lia|]. split; [lia|]. intros z Hz _. apply Hup. lia.
Qed.

(** X23.  The box [find_content_bbox_and_trim] computes lies inside the
    picture, is not empty for a picture that is not empty, and leaves out
    only border: every row above or below it and every column left or
    right of it consists of border pixels. *)
Theorem content_bbox_leaves_out_border (img : image) (tolerance : Z)
  (border_colors_to_trim : list (Z * Z * Z)) :
  let '(left_, top, right_, bottom) :=
    content_bbox img tolerance border_colors_to_trim in
  left_ <= right_ <= width img /\ top <= bottom <= height img
  /\ (0 < width img -> left_ < right_) /\ (0 < height img -> top < bottom)
  /\ (forall y, y < height img -> y < top \/ bottom <= y ->
        border_row img tolerance border_colors_to_trim y = true)
  /\ (forall x, x < width img -> x < left_ \/ right_ <= x ->
        border_column img tolerance border_colors_to_trim x = true).
Proof.
  unfold content_bbox. cbv zeta.
  pose proof (content_side (border_row img tolerance border_colors_to_trim)
                (height img)) as Hrows.
  pose proof (content_side (border_column img tolerance border_colors_to_trim)
                (width img)) as Hcols.
  cbv zeta in Hrows, Hcols.
  destruct Hrows as [Hr1 [Hr2 Hr3]]. destruct Hcols as [Hc1 [Hc2 Hc3]].
  split; [exact Hc1|]. split; [exact Hr1|]. split; [exact Hc2|].
  split; [exact Hr2|]. split; [exact Hr3 | exact Hc3].
Qed.

(** X24.  [find_content_bbox_and_trim] returns the picture as it is or a
    crop of it that keeps more than three quarters of its width and of its
    height; the pixels of the crop are the pixels of the box. *)
Theorem find_content_bbox_and_trim_keeps_content (img : image) (tolerance : Z)
  (border_colors_to_trim : list (Z * Z * Z)) :
  let trimmed := find_content_bbox_and_trim_ img tolerance border_colors_to_trim in
  trimmed = img
  \/ exists left_ top right_ bottom,
       content_bbox img tolerance border_colors_to_trim = (left_, top, right_, bottom)
       /\ width trimmed = right_ - left_ /\ height trimmed = bottom - top
       /\ 3 * width img < 4 * width trimmed
       /\ 3 * height img < 4 * height trimmed
       /\ forall x y, pixels trimmed x y = pixels img (x + left_) (y + top).
Proof.
  cbv zeta. unfold find_content_bbox_and_trim_.
  destruct (content_bbox img tolerance border_colors_to_trim)
    as [[[left_ top] right_] bottom].
  destruct (negb (same_box _ _)); [|now left].
  cbv zeta.
  destruct (Nat.ltb_spec (3 * width img) (4 * (right_ - left_))); cbn [andb];
    [|now left].
  destruct (Nat.ltb_spec (3 * height img) (4 * (bottom - top))); [|now left].
  right. exists left_, top, right_, bottom. cbn [crop width height pixels].
  repeat split; assumption.
Qed.

(** ** Runs of separators in a file name *)

Lemma collapse_runs_single (l : list ascii) :
  forall in_run,
    single_underscores (collapse_runs in_run l)
    /\ (in_run = true -> hd "a"%char (collapse_runs in_run l) <> "_"%char).
Proof.
  induction l as [|c tl IH]; intros in_run; cbn [collapse_runs].
  - split; [exact I | intros _; cbn; discriminate].
  - destruct (is_separator c) eqn:Ec.
    + destruct in_run.
      * apply IH.
      * destruct (IH true) as [H1 H2]. split; [|discriminate].
        destruct (collapse_runs true tl) as [|b rest_] eqn:E; [exact I|].
        cbn [single_underscores]. split; [|exact H1].
        intros [_ ->]. now apply (H2 eq_refl).
    + destruct (IH false) as [H1 _]. split.
      * destruct (collapse_runs false tl) as [|b rest_] eqn:E; [exact I|].
        cbn [single_underscores]. split; [|exact H1].
        intros [-> _]. discriminate Ec.
      * intros _. cbn [hd]. intros ->. discriminate Ec.
Qed.

Lemma ascii_lower_underscore (c : ascii) :
  ascii_lower c = "_"%char -> c = "_"%char.
Proof. destruct c as [[] [] [] [] [] [] [] []]; vm_compute; congruence. Qed.

Lemma single_underscores_lower (l : list ascii) :
  single_underscores l -> single_underscores (map ascii_lower l).
Proof.
  induction l as [|a l IH]; [intros _; exact I|].
  destruct l as [|b tl]; [intros _; exact I|].
  cbn [map single_underscores] in IH |- *.
  intros [Hab Htl]. split; [|now apply IH].
  intros [Ha Hb]. apply Hab.
  split; now apply ascii_lower_underscore.
Qed.

Lemma single_underscores_firstn (n : nat) :
  forall l, single_underscores l -> single_underscores (firstn n l).
Proof.
  induction n as [|n IH]; intros l; [intros _; exact I|].
  destruct l as [|a l]; [intros _; exact I|].
  destruct l as [|b tl]; [destruct n; intros _; exact I|].
  intros [Hab Htl]. specialize (IH (b :: tl) Htl).
  destruct n as [|n]; [exact I|].
  cbn [firstn single_underscores] in IH |- *. split; [exact Hab | exact IH].
Qed.

(** X25.  A file name never holds two underscores side by side: the code
    ensures single underscores, as its comment says. *)
Theorem sanitize_filename_single_underscores (normalize : ustr -> ustr)
  (filename : ustr) :
  single_underscores (Py.chars (sanitize_filename normalize filename)).
Proof.
  rewrite sanitize_filename_steps. unfold filename_steps. rewrite chars_str.
  apply single_underscores_firstn, single_underscores_lower, collapse_runs_single.
Qed.
